(** * CLI-Optimiser: a shallow embedding of [Main.py]

    The program is a thin layer over operating-system commands: it runs
    them, parses their text output and drives a small interactive loop.
    The development has three layers.

    - [Py]: the Python built-ins the program relies on ([str.strip],
      [str.split], [str.splitlines], [str.isdigit], [int], [re.search]
      for the one pattern used, true division and the [.2f] format).
      A Python [str] is modelled as a Rocq [string] whose characters are
      the code points U+0000..U+00FF.
    - [Sys]: the outside world (shell, operator, logger, console) as an
      oracle plus a trace of events, with a state-and-exception monad.
    - the functions of [Main.py], translated one by one.

    Scope of the model. Strings hold code points below U+0100, so
    the digits outside ASCII that [str.isdigit] accepts are the three
    superscripts; [int] has the interpreter's default limit of 4300
    digits; exceptions are those of class [Exception] (no interrupt).
    [subprocess.run] raises when the shell cannot be invoked and when
    the output of a command that ran cannot be decoded;
    [os.popen(..).read()] and [psutil.sensors_battery()] may raise;
    [os.system] raises on a command that holds a NUL. [rich] rendering is kept as the texts and tables
    handed to the console: the fixed texts of the program are well-formed
    markup and are shown as they are, while a text that carries data (a
    package name, the output of a command, the text of an exception) is
    read by [rich] as markup too and may make it raise a [MarkupError];
    whether it does is an answer of the world.

    Theorems follow the definitions. *)

From Stdlib Require Import ZArith NArith List String Ascii Bool Lia.
From Stdlib Require Import SpecFloat.
Import ListNotations.

Local Open Scope list_scope.
Local Open Scope string_scope.

(** ** Exceptions and results *)

(** The exceptions of class [Exception] that the modelled code can meet.
    [ValueError] carries the literal that [int] rejected, [OSError] and
    [OtherError] a free description, [MarkupError] the tag [rich] could
    not match.
    [NullByteError] is the [ValueError] of [os.system] for a command that
    holds a NUL; [UnicodeDecodeError] is raised for output that is no
    text. *)
Inductive exn : Type :=
| ValueError (literal : string)
| ZeroDivisionError
| OverflowError
| IndexError
| TypeError
| AttributeError
| EOFError
| OSError (what : string)
| OtherError (what : string)
| UnicodeDecodeError
| NullByteError
| MarkupError (tag : string).

Inductive result (A : Type) : Type :=
| Ok (a : A)
| Raise (e : exn).

Arguments Ok {A} a.
Arguments Raise {A} e.

Definition is_ok {A} (r : result A) : bool :=
  match r with Ok _ => true | Raise _ => false end.

(** ** Python built-ins *)

Module Py.

(** *** Characters *)

Definition code (c : ascii) : N := N_of_ascii c.

Definition between (lo hi : N) (c : ascii) : bool :=
  (lo <=? code c)%N && (code c <=? hi)%N.

Definition is_code (n : N) (c : ascii) : bool := (code c =? n)%N.

(** [str.isspace] on one character: TAB..CR, FS..US, space, NEL, NBSP. *)
Definition isspace_chr (c : ascii) : bool :=
  between 9 13 c || between 28 32 c || is_code 133 c || is_code 160 c.

(** The line boundaries of [str.splitlines]: LF, VT, FF, CR, FS, GS, RS,
    NEL (US is white space but ends no line). *)
Definition islinebreak_chr (c : ascii) : bool :=
  between 10 13 c || between 28 30 c || is_code 133 c.

(** Decimal digits (what [int] and the pattern [\d] accept). *)
Definition isdecimal_chr (c : ascii) : bool := between 48 57 c.

(** [str.isdigit] on one character: the decimal digits and the
    superscripts 2, 3 and 1 (U+00B2, U+00B3, U+00B9). *)
Definition isdigit_chr (c : ascii) : bool :=
  isdecimal_chr c || is_code 178 c || is_code 179 c || is_code 185 c.

(** White space skipped by [int] around a literal. *)
Definition int_space_chr (c : ascii) : bool :=
  between 9 13 c || is_code 32 c || is_code 133 c || is_code 160 c.

Definition lower_chr (c : ascii) : ascii :=
  if between 65 90 c || between 192 214 c || between 216 222 c
  then ascii_of_N (code c + 32)
  else c.

Definition digit_val (c : ascii) : Z := Z.of_N (code c) - 48.

Definition digit_chr (d : N) : ascii := ascii_of_N (48 + d).

(** *** Strings *)

(** Truth value of a string: non-empty. *)
Definition truthy (s : string) : bool :=
  match s with EmptyString => false | String _ _ => true end.

Fixpoint all_chr (p : ascii -> bool) (s : string) : bool :=
  match s with
  | EmptyString => true
  | String c s' => p c && all_chr p s'
  end.

Fixpoint map_chr (f : ascii -> ascii) (s : string) : string :=
  match s with
  | EmptyString => EmptyString
  | String c s' => String (f c) (map_chr f s')
  end.

Definition lower (s : string) : string := map_chr lower_chr s.

Fixpoint lstrip_by (p : ascii -> bool) (s : string) : string :=
  match s with
  | EmptyString => EmptyString
  | String c s' => if p c then lstrip_by p s' else s
  end.

Fixpoint rstrip_by (p : ascii -> bool) (s : string) : string :=
  match s with
  | EmptyString => EmptyString
  | String c s' =>
      match rstrip_by p s' with
      | EmptyString => if p c then EmptyString else String c EmptyString
      | r => String c r
      end
  end.

(** [s.strip()] *)
Definition strip (s : string) : string :=
  rstrip_by isspace_chr (lstrip_by isspace_chr s).

(** [s.isdigit()]: non-empty and every character a digit. *)
Definition isdigit (s : string) : bool :=
  truthy s && all_chr isdigit_chr s.

(** [s.startswith(p)] *)
Definition startswith (p s : string) : bool := String.prefix p s.

(** Scanning for [s.split(sep)] with a one-character separator: the piece
    in progress and the pieces after it. *)
Fixpoint split_scan (sep : ascii) (s : string) : string * list string :=
  match s with
  | EmptyString => (EmptyString, [])
  | String c s' =>
      let (piece, rest) := split_scan sep s' in
      if Ascii.eqb c sep then (EmptyString, piece :: rest)
      else (String c piece, rest)
  end.

(** [s.split(sep)]: always at least one piece, empty pieces kept. *)
Definition split_on (sep : ascii) (s : string) : list string :=
  let (piece, rest) := split_scan sep s in piece :: rest.

Definition push_token (tok : string) (rest : list string) : list string :=
  if truthy tok then tok :: rest else rest.

Fixpoint ws_scan (s : string) : string * list string :=
  match s with
  | EmptyString => (EmptyString, [])
  | String c s' =>
      let (tok, rest) := ws_scan s' in
      if isspace_chr c then (EmptyString, push_token tok rest)
      else (String c tok, rest)
  end.

(** [s.split()]: the maximal runs of non-space characters. *)
Definition split (s : string) : list string :=
  let (tok, rest) := ws_scan s in push_token tok rest.

Definition cons_first (c : ascii) (ls : list string) : list string :=
  match ls with
  | [] => [String c EmptyString]
  | l :: ls' => String c l :: ls'
  end.

(** [s.splitlines()]: CR LF is one boundary; no empty last line. *)
Fixpoint splitlines (s : string) : list string :=
  match s with
  | EmptyString => []
  | String c s' =>
      if islinebreak_chr c then
        EmptyString ::
          match s' with
          | String c2 s'' =>
              if is_code 13 c && is_code 10 c2 then splitlines s''
              else splitlines s'
          | EmptyString => []
          end
      else cons_first c (splitlines s')
  end.

(** *** Integers *)

(** Default of [sys.get_int_max_str_digits()]. *)
Definition max_str_digits : N := 4300.

(** The digits of a base-10 literal after its sign: single underscores
    are allowed between two digits. Returns the value and the number of
    digits read. *)
Fixpoint int_digits (acc : Z) (count : N) (after_digit : bool) (s : string)
  : option (Z * N) :=
  match s with
  | EmptyString => if after_digit then Some (acc, count) else None
  | String c s' =>
      if isdecimal_chr c then
        int_digits (10 * acc + digit_val c) (count + 1) true s'
      else if is_code 95 c && after_digit then
        int_digits acc count false s'
      else None
  end.

Definition int_unsigned (lit body : string) : result Z :=
  match int_digits 0 0 false body with
  | Some (v, n) =>
      if (n <=? max_str_digits)%N then Ok v else Raise (ValueError lit)
  | None => Raise (ValueError lit)
  end.

(** [int(s)] for a string [s]. *)
Definition int (s : string) : result Z :=
  match rstrip_by int_space_chr (lstrip_by int_space_chr s) with
  | String "+" body => int_unsigned s body
  | String "-" body =>
      match int_unsigned s body with
      | Ok v => Ok (- v)%Z
      | Raise e => Raise e
      end
  | body => int_unsigned s body
  end.

(** Decimal digits of [n], most significant first, in front of [acc]. *)
Fixpoint str_digits (fuel : nat) (n : N) (acc : string) : string :=
  match fuel with
  | O => acc
  | S fuel' =>
      let acc' := String (digit_chr (n mod 10)) acc in
      if (n <? 10)%N then acc' else str_digits fuel' (n / 10) acc'
  end.

(** [str(n)] for a natural number. *)
Definition str_N (n : N) : string :=
  str_digits (S (N.to_nat (N.size n))) n EmptyString.

Definition str_nat (n : nat) : string := str_N (N.of_nat n).

(** *** Floating point *)

Definition prec : Z := 53.
Definition emax : Z := 1024.

Definition float_of_int (z : Z) : spec_float :=
  match z with
  | Z0 => S754_zero false
  | Zpos p => S754_finite false p 0
  | Zneg p => S754_finite true p 0
  end.

(** [a / b] on integers: the quotient rounded once to binary64. *)
Definition true_divide (a b : Z) : result spec_float :=
  if (b =? 0)%Z then Raise ZeroDivisionError
  else
    match SFdiv prec emax (float_of_int a) (float_of_int b) with
    | S754_infinity _ => Raise OverflowError
    | q => Ok q
    end.

(** [x * n] for a float [x] and a small integer [n]. *)
Definition float_mul_int (x : spec_float) (n : Z) : spec_float :=
  SFmul prec emax x (binary_normalize prec emax n 0 false).

(** Hundredths of [m * 2^e], rounded to nearest, ties to even. *)
Definition round_hundredths (m : positive) (e : Z) : Z :=
  let num := (Zpos m * 100)%Z in
  match e with
  | Zneg k =>
      let den := Z.pow_pos 2 k in
      let q := (num / den)%Z in
      let r := (num mod den)%Z in
      match (2 * r ?= den)%Z with
      | Lt => q
      | Gt => (q + 1)%Z
      | Eq => if Z.even q then q else (q + 1)%Z
      end
  | _ => (num * 2 ^ e)%Z
  end.

Definition two_digits (n : N) : string :=
  String (digit_chr (n / 10)) (String (digit_chr (n mod 10)) EmptyString).

Definition sign_prefix (neg : bool) (s : string) : string :=
  if neg then String "-" s else s.

(** [f"{x:.2f}"] *)
Definition format_2f (x : spec_float) : string :=
  match x with
  | S754_nan => "nan"
  | S754_infinity s => sign_prefix s "inf"
  | S754_zero s => sign_prefix s "0.00"
  | S754_finite s m e =>
      let h := Z.to_N (round_hundredths m e) in
      sign_prefix s (str_N (h / 100) ++ "." ++ two_digits (h mod 100))
  end.

(** *** The one regular expression *)

Definition dq : string := String "034" EmptyString.

Fixpoint take_while (p : ascii -> bool) (s : string) : string :=
  match s with
  | EmptyString => EmptyString
  | String c s' => if p c then String c (take_while p s') else EmptyString
  end.

Fixpoint drop_prefix (p s : string) : option string :=
  match p, s with
  | EmptyString, _ => Some s
  | String a p', String b s' =>
      if Ascii.eqb a b then drop_prefix p' s' else None
  | String _ _, EmptyString => None
  end.

(** A match of [lit(\d+)] at the start of [s]: group 1. *)
Definition match_here (lit s : string) : option string :=
  match drop_prefix lit s with
  | Some rest =>
      match take_while isdecimal_chr rest with
      | EmptyString => None
      | digits => Some digits
      end
  | None => None
  end.

(** [re.search(lit + r'(\d+)', s)]: group 1 of the leftmost match. *)
Fixpoint search_digits_after (lit s : string) : option string :=
  match match_here lit s with
  | Some g => Some g
  | None =>
      match s with
      | EmptyString => None
      | String _ s' => search_digits_after lit s'
      end
  end.

End Py.

(** ** The outside world *)

Module Sys.

(** [platform.system()] read once: [IS_MAC] and [IS_WIN] in the source. *)
Inductive platform : Type := MacLike | WindowsLike | Other.

Definition IS_MAC (p : platform) : bool :=
  match p with MacLike => true | _ => false end.

Definition IS_WIN (p : platform) : bool :=
  match p with WindowsLike => true | _ => false end.

(** What [subprocess.run(command, shell=True, text=True,
    capture_output=True)] does: it returns a completed process, whatever
    its exit status; or it raises before the command runs, because the
    shell could not be invoked; or it raises after the command has run,
    because its output cannot be decoded as text. *)
Inductive run_outcome : Type :=
| Completed (returncode : Z) (stdout : string)
| NotRun (e : exn)
| Undecodable (e : exn).

(** The command was executed, whatever became of its output. *)
Definition executed (o : run_outcome) : bool :=
  match o with
  | Completed _ _ | Undecodable _ => true
  | NotRun _ => false
  end.

(** A [rich] table: title and rows of cells. *)
Record table : Type := mkTable { title : string; rows : list (list string) }.

(** Everything the program does to its surroundings, in order. *)
Inductive event : Type :=
| Spawn (command : string)                       (* subprocess.run *)
| LogError (text : string) (e : exn)             (* logging.error *)
| Popen (command : string)                       (* os.popen(..).read() *)
| System (command : string)                      (* os.system *)
| Print (text : string)                          (* console.print *)
| PrintExn (before : string) (e : exn) (after : string)
| PrintTable (t : table)
| PrintNested (heading : string) (ts : list table)
| Status (text : string)                         (* console.status *)
| Prompt (text : string).                        (* console.input *)

(** The answers of the surroundings. Command output may depend on what
    happened before (a directory is smaller once it has been emptied). *)
Record world : Type := mkWorld {
  subprocess_run : list event -> string -> run_outcome;
  (* [os.popen(command).read()]: the output, or what it raises (a
     [ValueError] for a NUL in the command, a [UnicodeDecodeError], an
     [OSError]) *)
  popen_read : list event -> string -> result string;
  expanduser : string -> string;
  expandvars : string -> string;
  (* psutil: [None] when it cannot be imported; otherwise what
     [psutil.sensors_battery()] does: it raises, or it returns [None]
     when there is no battery, or the battery, of which the text of
     [battery.percent] is kept *)
  sensors_battery : option (result (option string));
  (* what [rich] raises, if anything, when it is asked to show a text
     or a table that carries data *)
  console_raises : event -> option exn
}.

(** The operator's pending answers and the trace so far. *)
Record state : Type := mkState { answers : list string; trace : list event }.

Definition M (A : Type) : Type := state -> result A * state.

Definition ret {A} (a : A) : M A := fun st => (Ok a, st).

Definition bind {A B} (m : M A) (k : A -> M B) : M B :=
  fun st =>
    match m st with
    | (Ok a, st') => k a st'
    | (Raise e, st') => (Raise e, st')
    end.

Definition raise {A} (e : exn) : M A := fun st => (Raise e, st).

Definition lift {A} (r : result A) : M A := fun st => (r, st).

(** [try: body except Exception as e: handler(e)] *)
Definition try_except {A} (body : M A) (handler : exn -> M A) : M A :=
  fun st =>
    match body st with
    | (Ok a, st') => (Ok a, st')
    | (Raise e, st') => handler e st'
    end.

Definition emit (e : event) : M unit :=
  fun st => (Ok tt, mkState (answers st) (trace st ++ [e])).

(** Showing something that carries data: [rich] reads the text as markup
    and may raise before anything is shown. *)
Definition render (w : world) (e : event) : M unit :=
  fun st =>
    match console_raises w e with
    | Some x => (Raise x, st)
    | None => emit e st
    end.

(** [console.input(prompt)]; at end of input it raises [EOFError]. *)
Definition input (prompt : string) : M string :=
  fun st =>
    match answers st with
    | a :: rest => (Ok a, mkState rest (trace st ++ [Prompt prompt]))
    | [] => (Raise EOFError, mkState [] (trace st ++ [Prompt prompt]))
    end.

Fixpoint for_each {A} (f : A -> M unit) (l : list A) : M unit :=
  match l with
  | [] => ret tt
  | x :: l' => bind (f x) (fun _ => for_each f l')
  end.

Fixpoint fold_each {A S} (f : S -> A -> M S) (s : S) (l : list A) : M S :=
  match l with
  | [] => ret s
  | x :: l' => bind (f s x) (fun s' => fold_each f s' l')
  end.

Definition when (b : bool) (m : M unit) : M unit := if b then m else ret tt.

End Sys.

Import Sys.

Declare Scope prog_scope.
Delimit Scope prog_scope with prog.

Notation "x <- c ;; k" := (bind c (fun x => k))
  (at level 61, c at next level, right associativity) : prog_scope.
Notation "c ;; k" := (bind c (fun _ => k))
  (at level 61, right associativity) : prog_scope.

(** The same for pure code that may raise. *)
Definition rbind {A B} (r : result A) (k : A -> result B) : result B :=
  match r with Ok a => k a | Raise e => Raise e end.

Notation "x <~ r ;; k" := (rbind r (fun x => k))
  (at level 61, r at next level, right associativity).

(** [l[k]] for a Python list: negative positions count from the end. *)
Definition getitem {A} (l : list A) (k : Z) : result A :=
  let n := Z.of_nat (List.length l) in
  let pos := if (k <? 0)%Z then (n + k)%Z else k in
  if ((0 <=? pos) && (pos <? n))%Z then
    match nth_error l (Z.to_nat pos) with
    | Some x => Ok x
    | None => Raise IndexError
    end
  else Raise IndexError.

(** [l[k:]] for [k >= 0]. *)
Definition slice_from {A} (k : nat) (l : list A) : list A := skipn k l.

(** [l[:k]] for [k >= 0]. *)
Definition slice_to {A} (k : nat) (l : list A) : list A := firstn k l.

Definition len {A} (l : list A) : Z := Z.of_nat (List.length l).

Definition nonempty {A} (l : list A) : bool :=
  match l with [] => false | _ :: _ => true end.

(** Truth value of an optional string: [None] and the empty string are
    false. *)
Definition truthy_opt (o : option string) : bool :=
  match o with Some s => Py.truthy s | None => false end.

Definition nl : string := String "010" EmptyString.

(** [str(z)] for an integer. *)
Definition str_Z (z : Z) : string :=
  match z with
  | Zneg p => String "-" (Py.str_N (Npos p))
  | _ => Py.str_N (Z.to_N z)
  end.

(** ** The listing parsers (pure parts of [check_system_updates] and
    [monitor_usage]) *)

(** [[l.split()[k] for l in lines if l.strip()]] *)
Fixpoint tokens_at (k : Z) (lines : list string) : result (list string) :=
  match lines with
  | [] => Ok []
  | l :: rest =>
      if Py.truthy (Py.strip l) then
        tok <~ getitem (Py.split l) k ;;
        toks <~ tokens_at k rest ;;
        Ok (tok :: toks)
      else tokens_at k rest
  end.

(** Line 128: every line of [brew outdated] is a package. *)
Definition parse_brew (brew_outdated : option string) : list string :=
  match brew_outdated with
  | Some out => if Py.truthy out then Py.splitlines out else []
  | None => []
  end.

(** Line 135: the choco listing. *)
Definition parse_choco (choco_outdated : option string)
  : result (list string) :=
  match choco_outdated with
  | Some out =>
      if Py.truthy out then tokens_at 0 (slice_from 1 (Py.splitlines out))
      else Ok []
  | None => Ok []
  end.

(** Lines 141-145: the position of the first line that starts with
    [Name] once stripped, 0 when there is none. *)
Fixpoint find_header (i : nat) (lines : list string) : nat :=
  match lines with
  | [] => 0
  | l :: rest =>
      if Py.startswith "Name" (Py.strip l) then i
      else find_header (S i) rest
  end.

(** Lines 139-146: the winget listing. [outdated_list] stays empty when
    there is at most one line. *)
Definition parse_winget (winget_outdated : option string)
  : result (list string) :=
  match winget_outdated with
  | None => Raise AttributeError
  | Some out =>
      let lines := Py.splitlines out in
      if (1 <? List.length lines)%nat then
        let header_idx := find_header 0 lines in
        tokens_at 1 (slice_from (header_idx + 1) lines)
      else Ok []
  end.

(** A process record [(pid, label)] and the table row shown for it. *)
Definition proc : Type := string * string.

(** The body of the loops of lines 333-342 (MacLike): [metric] is the
    column shown, 2 for CPU and 3 for memory. *)
Definition mac_process_line (metric : Z) (idx : nat) (line : string)
  : result (option (proc * list string)) :=
  let parts := Py.split line in
  if (10 <? List.length parts)%nat then
    pid <~ getitem parts 1 ;;
    label <~ getitem parts 10 ;;
    shown <~ getitem parts metric ;;
    Ok (Some ((pid, label), [Py.str_nat (idx + 1); pid; label; shown]))
  else Ok None.

(** The body of the loops of lines 344-353 (WindowsLike). [and] cuts
    short, so [parts[1]] is read only when there are three fields. *)
Definition win_process_line (idx : nat) (line : string)
  : result (option (proc * list string)) :=
  let parts := Py.split line in
  accepted <~ (if (3 <=? List.length parts)%nat
               then (pid <~ getitem parts 1 ;; Ok (Py.isdigit pid))
               else Ok false) ;;
  if accepted then
    pid <~ getitem parts 1 ;;
    label <~ getitem parts 0 ;;
    shown <~ getitem parts 2 ;;
    Ok (Some ((pid, label), [Py.str_nat (idx + 1); pid; label; shown]))
  else Ok None.

(** [for idx, line in enumerate(lines)], from position [idx] on. *)
Fixpoint process_lines
  (body : nat -> string -> result (option (proc * list string)))
  (idx : nat) (lines : list string)
  : result (list proc * list (list string)) :=
  match lines with
  | [] => Ok ([], [])
  | line :: rest =>
      r <~ body idx line ;;
      later <~ process_lines body (S idx) rest ;;
      Ok (match r with
          | Some (p, row) => (p :: fst later, row :: snd later)
          | None => later
          end)
  end.

(** Parsing a whole process listing; [None] is an absent command
    result, on which [.splitlines()] raises. *)
Definition parse_processes
  (body : nat -> string -> result (option (proc * list string)))
  (stats : option string) : result (list proc * list (list string)) :=
  match stats with
  | None => Raise AttributeError
  | Some out => process_lines body 0 (Py.splitlines out)
  end.

(** ** The selection expression (lines 188-189 and 246-247) *)

(** [[int(i.strip()) for i in tokens if i.strip().isdigit()]] *)
Fixpoint indices_of (tokens : list string) : result (list Z) :=
  match tokens with
  | [] => Ok []
  | i :: rest =>
      if Py.isdigit (Py.strip i) then
        n <~ Py.int (Py.strip i) ;;
        ns <~ indices_of rest ;;
        Ok (n :: ns)
      else indices_of rest
  end.

Definition parse_indices (upgrade_choice : string) : result (list Z) :=
  indices_of (Py.split_on "," upgrade_choice).

(** [[outdated_list[i-1] for i in indices if 0 < i <= len(outdated_list)]] *)
Fixpoint select_pkgs (outdated_list : list string) (indices : list Z)
  : result (list string) :=
  match indices with
  | [] => Ok []
  | i :: rest =>
      if ((0 <? i) && (i <=? len outdated_list))%Z then
        pkg <~ getitem outdated_list (i - 1) ;;
        pkgs <~ select_pkgs outdated_list rest ;;
        Ok (pkg :: pkgs)
      else select_pkgs outdated_list rest
  end.

(** Lines 188-189 (and 246-247) together. *)
Definition selected_pkgs (outdated_list : list string)
  (upgrade_choice : string) : result (list string) :=
  indices <~ parse_indices upgrade_choice ;;
  select_pkgs outdated_list indices.

(** [enumerate(l, start)] as table rows [[str(idx), pkg]]. *)
Fixpoint numbered (start : nat) (l : list string) : list (list string) :=
  match l with
  | [] => []
  | pkg :: rest => [Py.str_nat start; pkg] :: numbered (S start) rest
  end.

(** The package managers of the WindowsLike branch. *)
Inductive manager : Type := choco | winget.

Definition manager_name (m : manager) : string :=
  match m with choco => "choco" | winget => "winget" end.

(** [pkg_mgr.capitalize()] *)
Definition capitalize (m : manager) : string :=
  match m with choco => "Choco" | winget => "Winget" end.

(** What differs between the two copies of the selection block (lines
    177-199 for Homebrew, 232-260 for choco and winget): the texts shown
    and the commands run. *)
Record dispatcher : Type := mkDispatcher {
  all_status : string;
  all_command : string;
  all_done : string;
  one_status : string -> string;
  one_command : string -> string
}.

Definition brew_dispatcher : dispatcher := {|
  all_status := "[yellow]Upgrading all outdated packages...[/yellow]";
  all_command := "brew upgrade > /dev/null 2>&1";
  all_done := "[green]All packages upgraded![/green]";
  one_status := fun pkg => "[yellow]Installing " ++ pkg ++ "...[/yellow]";
  one_command := fun pkg => "brew upgrade " ++ pkg ++ " > /dev/null 2>&1"
|}.

Definition win_dispatcher (pkg_mgr : manager) : dispatcher := {|
  all_status :=
    "[yellow]Upgrading all outdated " ++ manager_name pkg_mgr
      ++ " packages...[/yellow]";
  all_command :=
    match pkg_mgr with
    | choco => "choco upgrade all -y > NUL 2>&1"
    | winget => "winget upgrade --all --silent > NUL 2>&1"
    end;
  all_done :=
    "[green]All " ++ manager_name pkg_mgr ++ " packages upgraded![/green]";
  one_status := fun pkg => "[yellow]Upgrading " ++ pkg ++ "...[/yellow]";
  one_command := fun pkg =>
    match pkg_mgr with
    | choco => "choco upgrade " ++ pkg ++ " -y > NUL 2>&1"
    | winget => "winget upgrade --id " ++ pkg ++ " --silent > NUL 2>&1"
    end
|}.

(** What the gathering phase of [check_system_updates] leaves behind. *)
Record probe : Type := mkProbe {
  brew_exists : option string;
  choco_exists : option string;
  winget_exists : option string;
  system_updates : option string;
  outdated_list : list string;
  pkg_mgr : option manager
}.

(** ** The functions of [Main.py] *)

Section Program.

Variable plat : platform.
Variable w : world.

Local Open Scope prog_scope.

(** [subprocess.run(command, ...).stdout] *)
Definition spawn (command : string) : M string :=
  fun st =>
    let st' := mkState (answers st) (trace st ++ [Spawn command]) in
    match subprocess_run w (trace st) command with
    | Completed _ out => (Ok out, st')
    | NotRun e => (Raise e, st')
    | Undecodable e => (Raise e, st')
    end.

(** [os.popen(command).read()] *)
Definition popen (command : string) : M string :=
  fun st =>
    (popen_read w (trace st) command,
     mkState (answers st) (trace st ++ [Popen command])).

(** A command that holds a NUL. *)
Definition embedded_null (command : string) : bool :=
  negb (Py.all_chr (fun c => negb (Py.is_code 0 c)) command).

(** [os.system(command)]: a command with a NUL is refused with a
    [ValueError] before anything is run. *)
Definition system (command : string) : M unit :=
  if embedded_null command then raise NullByteError
  else emit (System command).

(** [console.print] of one of the fixed texts of the program. *)
Definition print (text : string) : M unit := emit (Print text).

(** [console.print] of a text that carries data. *)
Definition print_data (text : string) : M unit := render w (Print text).

(** Lines 23-30. *)
Definition run_command (command : string) : M (option string) :=
  try_except
    (out <- spawn command ;;
     ret (Some (Py.strip out)))
    (fun e =>
       emit (LogError ("Error running command " ++ command ++ ": ") e) ;;
       ret None).

Definition design_capacity_pattern : string :=
  Py.dq ++ "DesignCapacity" ++ Py.dq ++ "=".

(** [re.search(pattern, data_str)]; a [None] subject is a [TypeError]. *)
Definition re_search (data_str : option string) : result (option string) :=
  match data_str with
  | None => Raise TypeError
  | Some s => Ok (Py.search_digits_after design_capacity_pattern s)
  end.

(** Lines 32-53. *)
Definition get_battery_health : M string :=
  if IS_MAC plat then
    max_capacity <-
      run_command
        "ioreg -r -k MaxCapacity | grep 'MaxCapacity' | awk 'NR==1 {print $3}'" ;;
    data_str <-
      run_command
        "ioreg -r -k DesignCapacity | grep 'DesignCapacity' | awk 'NR==1 {print $0}'" ;;
    found <- lift (re_search data_str) ;;
    match max_capacity, found with
    | Some (String _ _ as max_capacity), Some design_capacity =>
        a <- lift (Py.int max_capacity) ;;
        b <- lift (Py.int design_capacity) ;;
        q <- lift (Py.true_divide a b) ;;
        let battery_health := Py.float_mul_int q 100 in
        ret (Py.format_2f battery_health ++ "%")
    | _, _ => ret "N/A"
    end
  else if IS_WIN plat then
    match sensors_battery w with
    | None => ret "psutil not installed"
    | Some (Raise e) => raise e
    | Some (Ok (Some percent)) => ret (percent ++ "%")
    | Some (Ok None) => ret "N/A"
    end
  else ret "N/A".

(** The disk-usage command of line 57. *)
Definition du_human (path : string) : string :=
  "du -sh " ++ expanduser w path ++ " 2>/dev/null | awk '{print $1}'".

(** Lines 55-59. *)
Definition get_cache_size (path : string) : M string :=
  if IS_MAC plat || IS_WIN plat then
    size <-
      (if IS_MAC plat then
         out <- popen (du_human path) ;;
         ret (Py.strip out)
       else ret "N/A") ;;
    ret (if Py.truthy size then size else "0B")
  else ret "N/A".

(** Lines 63-74. *)
Definition browser_cache_paths : list (string * string) :=
  if IS_MAC plat then
    [("Microsoft Edge", "~/Library/Caches/Microsoft Edge/*");
     ("Safari", "~/Library/Caches/com.apple.Safari/*")]
  else if IS_WIN plat then
    [("Edge",
      expandvars w "%LOCALAPPDATA%\Microsoft\Edge\User Data\Default\Cache\*");
     ("Chrome",
      expandvars w "%LOCALAPPDATA%\Google\Chrome\User Data\Default\Cache\*")]
  else [].

(** Lines 61-84. *)
Definition clear_browser_cache : M unit :=
  for_each
    (fun entry =>
       let browser := fst entry in
       let path := snd entry in
       try_except
         (size_before <- get_cache_size path ;;
          print_data ("[cyan]" ++ browser ++ " cache size before cleanup: "
                        ++ size_before ++ "[/cyan]") ;;
          system (if IS_MAC plat then "rm -rf " ++ expanduser w path
                  else "del /q " ++ Py.dq ++ path ++ Py.dq) ;;
          size_after <- get_cache_size path ;;
          print_data ("[green]" ++ browser ++ " cache cleared! Current size: "
                        ++ size_after ++ "[/green]"))
         (fun e =>
            render w (PrintExn ("[red]Error clearing " ++ browser ++ " cache: ")
                        e "[/red]")))
    browser_cache_paths.

(** Lines 88-93. *)
Definition cache_paths : list string :=
  if IS_MAC plat then ["~/Library/Caches"; "/Library/Caches"]
  else if IS_WIN plat then
    [expandvars w "%TEMP%"; expandvars w "C:\Windows\Temp"]
  else [].

Definition du_megabytes (expanded_path : string) : M (option string) :=
  if IS_MAC plat then
    run_command ("du -sm " ++ expanded_path
                   ++ " 2>/dev/null | awk '{print $1}'")
  else ret None.

(** The body of the loop of lines 97-106; the state is [total_freed]. *)
Definition clear_one_path (total_freed : Z) (path : string) : M Z :=
  let expanded_path := expanduser w path in
  before_size <- du_megabytes expanded_path ;;
  system (if IS_MAC plat then "rm -rf " ++ expanded_path ++ "/*"
          else "del /q /s " ++ Py.dq ++ expanded_path ++ "\*" ++ Py.dq) ;;
  clear_browser_cache ;;
  after_size <- du_megabytes expanded_path ;;
  match before_size, after_size with
  | Some (String _ _ as before_size), Some (String _ _ as after_size) =>
      b <- lift (Py.int before_size) ;;
      a <- lift (Py.int after_size) ;;
      let freed := (b - a)%Z in
      print_data ("Freed [green]" ++ str_Z freed ++ " MB[/green] from "
                    ++ path) ;;
      ret (total_freed + freed)%Z
  | _, _ => ret total_freed
  end.

(** Lines 86-108. *)
Definition clear_cache : M unit :=
  try_except
    (emit (Status "[cyan]Clearing cache...") ;;
     total_freed <- fold_each clear_one_path 0%Z cache_paths ;;
     ret tt)
    (fun e => render w (PrintExn "[red]Error clearing cache: " e "[/red]")).

(** Lines 384-393. *)
Definition kill_process (pid : string) : M unit :=
  try_except
    (system (if IS_WIN plat then "taskkill /PID " ++ pid ++ " /F"
             else "kill -9 " ++ pid) ;;
     print_data ("[bold red]Process " ++ pid ++ " killed.[/bold red]"))
    (fun e =>
       render w (PrintExn ("[red]Failed to kill process " ++ pid ++ ": ")
                   e "[/red]")).

(** Lines 369-372 and 374-377: ask for a number and kill that entry. *)
Definition kill_from (procs : list proc) : M unit :=
  idx <- input ("Enter number (1-" ++ Py.str_nat (List.length procs) ++ "): ") ;;
  if Py.isdigit idx then
    n <- lift (Py.int idx) ;;
    if ((1 <=? n) && (n <=? len procs))%Z then
      entry <- lift (getitem procs (n - 1)) ;;
      kill_process (fst entry)
    else ret tt
  else ret tt.

(** Lines 362-379. *)
Definition kill_dialogue (cpu_list mem_list : list proc) : M unit :=
  print (nl ++ "[bold yellow]Select a process to kill:[/bold yellow]") ;;
  print "1. Kill a CPU-intensive process" ;;
  print "2. Kill a Memory-intensive process" ;;
  print "3. Cancel" ;;
  action <- input "[cyan]Enter choice (1/2/3): [/cyan]" ;;
  if (action =? "1")%string && nonempty cpu_list then kill_from cpu_list
  else if (action =? "2")%string && nonempty mem_list then kill_from mem_list
  else print "[green]No process killed.[/green]".

(** Lines 306-314. *)
Definition usage_stats : M (option string * option string) :=
  emit (Status "[bold yellow]Monitoring Resource Usage...[/bold yellow]") ;;
  if IS_MAC plat then
    cpu_stats <- run_command "ps aux | sort -nrk 3,3 | head -n 10" ;;
    mem_stats <- run_command "ps aux | sort -nrk 4,4 | head -n 10" ;;
    ret (cpu_stats, mem_stats)
  else if IS_WIN plat then
    cpu_stats <-
      run_command
        ("wmic path Win32_PerfFormattedData_PerfProc_Process get Name,IDProcess,PercentProcessorTime | findstr /v "
           ++ Py.dq ++ "0" ++ Py.dq) ;;
    mem_stats <-
      run_command
        "wmic process get name,processid,workingsetsize | sort /r /+2 | more" ;;
    ret (cpu_stats, mem_stats)
  else ret (Some EmptyString, Some EmptyString).

(** Lines 317-353: both listings, CPU first. *)
Definition usage_lists (cpu_stats mem_stats : option string)
  : result ((list proc * list (list string))
            * (list proc * list (list string))) :=
  if IS_MAC plat then
    cpu <~ parse_processes (mac_process_line 2) cpu_stats ;;
    mem <~ parse_processes (mac_process_line 3) mem_stats ;;
    Ok (cpu, mem)
  else if IS_WIN plat then
    cpu <~ parse_processes win_process_line cpu_stats ;;
    mem <~ parse_processes win_process_line mem_stats ;;
    Ok (cpu, mem)
  else Ok (([], []), ([], [])).

(** Lines 302-382. *)
Definition monitor_usage : M unit :=
  try_except
    (stats <- usage_stats ;;
     lists <- lift (usage_lists (fst stats) (snd stats)) ;;
     let cpu_list := fst (fst lists) in
     let mem_list := fst (snd lists) in
     render w (PrintNested "System Resource Usage"
                 [mkTable "Top CPU Consumers" (snd (fst lists));
                  mkTable "Top Memory Consumers" (snd (snd lists))]) ;;
     kill_dialogue cpu_list mem_list)
    (fun e =>
       render w (PrintExn "[red] Failed to check the system usage : " e
                   EmptyString)).

(** Lines 113-146: the gathering phase of [check_system_updates]. *)
Definition gather_updates : M probe :=
  emit (Status "[bold blue]Checking the system's integrity[/bold blue]") ;;
  if IS_MAC plat then
    brew_exists <- run_command "which brew" ;;
    system_updates <- run_command "softwareupdate -l" ;;
    if truthy_opt brew_exists then
      brew_outdated <- run_command "brew outdated" ;;
      ret (mkProbe brew_exists None None system_updates
             (parse_brew brew_outdated) None)
    else ret (mkProbe brew_exists None None system_updates [] None)
  else if IS_WIN plat then
    choco_exists <- run_command "where choco" ;;
    winget_exists <- run_command "where winget" ;;
    if truthy_opt choco_exists then
      choco_outdated <- run_command "choco outdated" ;;
      outdated_list <- lift (parse_choco choco_outdated) ;;
      ret (mkProbe None choco_exists winget_exists None
             outdated_list (Some choco))
    else if truthy_opt winget_exists then
      winget_outdated <- run_command "winget upgrade" ;;
      outdated_list <- lift (parse_winget winget_outdated) ;;
      ret (mkProbe None choco_exists winget_exists None
             outdated_list (Some winget))
    else ret (mkProbe None choco_exists winget_exists None [] None)
  else ret (mkProbe None None None None [] None).

(** Lines 159-175 and 214-230: the preview of five and the full list. *)
Definition preview (short_title full_title : string)
  (outdated_list : list string) : M unit :=
  render w (PrintTable (mkTable short_title
                          (numbered 1 (slice_to 5 outdated_list)))) ;;
  print ("[yellow]Total outdated packages: "
           ++ Py.str_nat (List.length outdated_list) ++ "[/yellow]") ;;
  if (5 <? List.length outdated_list)%nat then
    answer <- input "[cyan]See all outdated packages? (y/n): [/cyan]" ;;
    let see_all := Py.lower (Py.strip answer) in
    when (see_all =? "y")%string
      (render w (PrintTable (mkTable full_title (numbered 1 outdated_list))))
  else ret tt.

(** Upgrading one package (lines 192-194 and 250-255). *)
Definition upgrade_one (d : dispatcher) (pkg : string) : M unit :=
  render w (Status (one_status d pkg)) ;;
  system (one_command d pkg) ;;
  print_data ("[green]" ++ pkg ++ " upgraded![/green]").

(** Lines 177-199 and 232-260: the selection expression. *)
Definition upgrade_selection (d : dispatcher) (outdated_list : list string)
  : M unit :=
  answer <-
    input "[cyan]Enter numbers to upgrade (comma separated), 'a' for all, or 'n' to skip: [/cyan]" ;;
  let upgrade_choice := Py.lower (Py.strip answer) in
  if (upgrade_choice =? "a")%string then
    emit (Status (all_status d)) ;;
    system (all_command d) ;;
    print (all_done d)
  else if (upgrade_choice =? "n")%string then
    print "[green]No packages upgraded.[/green]"
  else
    try_except
      (selected <- lift (selected_pkgs outdated_list upgrade_choice) ;;
       if nonempty selected then
         for_each (upgrade_one d) selected ;;
         print "[green]Selected packages upgraded![/green]"
       else print "[red]No valid packages selected.[/red]")
      (fun e =>
         render w (PrintExn "[red]Error parsing selection: " e "[/red]")).

(** Lines 150-202: the MacLike dialogue. *)
Definition mac_updates (p : probe) : M unit :=
  match system_updates p with
  | Some (String _ _ as updates) =>
      print_data ("[yellow]System updates available:" ++ nl ++ updates
                    ++ "[/yellow]")
  | _ => print "[green]Your macOS is up to date.[/green]"
  end ;;
  if negb (truthy_opt (brew_exists p)) then
    print "[red]Homebrew is not installed. Skipping Homebrew updates.[/red]"
  else if nonempty (outdated_list p) then
    preview "Outdated Homebrew Packages (showing up to 5)"
      "All Outdated Homebrew Packages" (outdated_list p) ;;
    upgrade_selection brew_dispatcher (outdated_list p)
  else
    when (truthy_opt (brew_exists p))
      (print "[green]Homebrew is up to date.[/green]").

(** Lines 204-263: the WindowsLike dialogue. *)
Definition win_updates (p : probe) : M unit :=
  (if negb (truthy_opt (choco_exists p) || truthy_opt (winget_exists p)) then
     print "[red]Neither Chocolatey nor Winget is installed. Skipping package updates.[/red]"
   else
     match pkg_mgr p with
     | None =>
         print "[yellow]No package manager detected for updates.[/yellow]"
     | Some mgr =>
         if nonempty (outdated_list p) then
           try_except
             (preview
                ("Outdated " ++ capitalize mgr ++ " Packages (showing up to 5)")
                ("All Outdated " ++ capitalize mgr ++ " Packages")
                (outdated_list p) ;;
              upgrade_selection (win_dispatcher mgr) (outdated_list p))
             (fun e =>
                render w
                  (PrintExn "[red]Error displaying or upgrading packages: "
                     e "[/red]"))
         else print ("[green]" ++ capitalize mgr ++ " is up to date.[/green]")
     end) ;;
  print "[yellow]Please check Windows Update in Settings manually.[/yellow]".

(** Lines 110-267. *)
Definition check_system_updates : M unit :=
  try_except
    (p <- gather_updates ;;
     if IS_MAC plat then mac_updates p
     else if IS_WIN plat then win_updates p
     else ret tt)
    (fun e =>
       render w (PrintExn "[red]Failed to check system updates: " e "[/red]") ;;
       emit (LogError "Failed to check system updates: " e)).

End Program.

(** Running a program from an empty trace. *)
Definition run {A} (m : M A) (replies : list string)
  : result A * list event :=
  let (r, st) := m (mkState replies []) in (r, trace st).

(** ** Reading a trace *)

(** The commands handed to [os.system], in order. *)
Fixpoint systems (tr : list event) : list string :=
  match tr with
  | [] => []
  | System command :: tr' => command :: systems tr'
  | _ :: tr' => systems tr'
  end.

(** The texts rendered by [console.print] (plain or with an exception). *)
Definition is_print (e : event) : bool :=
  match e with
  | Print _ | PrintExn _ _ _ | PrintTable _ | PrintNested _ _ => true
  | _ => false
  end.

(** Commands of any kind given to the operating system. *)
Definition is_command (e : event) : bool :=
  match e with
  | System _ | Spawn _ | Popen _ => true
  | _ => false
  end.

(** The command [kill_process] issues for [pid]. *)
Definition kill_command (plat : platform) (pid : string) : string :=
  if IS_WIN plat then "taskkill /PID " ++ pid ++ " /F" else "kill -9 " ++ pid.

(** The trace of upgrading [pkgs] one by one. *)
Definition upgrade_events (d : dispatcher) (pkgs : list string) : list event :=
  flat_map
    (fun pkg =>
       [Status (one_status d pkg); System (one_command d pkg);
        Print ("[green]" ++ pkg ++ " upgraded![/green]")])
    pkgs.

Definition selection_prompt : string :=
  "[cyan]Enter numbers to upgrade (comma separated), 'a' for all, or 'n' to skip: [/cyan]".

(** ** The selection expression as the specification words it *)

(** A token "parses as a positive integer" when it is a non-empty run of
    the digits 0-9; its value is read in base ten. *)
Definition is_numeral (tok : string) : bool :=
  Py.truthy tok && Py.all_chr Py.isdecimal_chr tok.

Fixpoint numeral_value_from (acc : Z) (tok : string) : Z :=
  match tok with
  | EmptyString => acc
  | String c tok' => numeral_value_from (10 * acc + Py.digit_val c) tok'
  end.

Definition numeral_value (tok : string) : Z := numeral_value_from 0 tok.

(** The numbers named by a comma-separated selection, in input order;
    tokens that are no numerals are dropped. *)
Definition token_indices (tok : string) : list Z :=
  let t := Py.strip tok in if is_numeral t then [numeral_value t] else [].

Definition named_indices (choice : string) : list Z :=
  flat_map token_indices (Py.split_on "," choice).

(** The records at the named 1-based positions that exist, in input
    order, repeated as often as they are named. *)
Definition records_at {A} (records : list A) (indices : list Z) : list A :=
  flat_map
    (fun i =>
       if (1 <=? i)%Z then
         match nth_error records (Z.to_nat (i - 1)) with
         | Some r => [r]
         | None => []
         end
       else [])
    indices.

Definition named_records {A} (records : list A) (choice : string) : list A :=
  records_at records (named_indices choice).

(** A selection is plain when each token that [str.isdigit] accepts is a
    numeral of at most [max_str_digits] digits, so that [int] reads it. *)
Definition plain_token (tok : string) : bool :=
  let t := Py.strip tok in
  negb (Py.isdigit t)
  || (is_numeral t && (N.of_nat (String.length t) <=? Py.max_str_digits)%N).

Definition plain_choice (choice : string) : bool :=
  forallb plain_token (Py.split_on "," choice).

(** What resolving a normalised selection shows and runs: ["a"] is all,
    ["n"] is none, anything else the named records, with a notice when
    there are none. *)
Definition selection_events (d : dispatcher) (records : list string)
  (choice : string) : list event :=
  if (choice =? "a")%string then
    [Status (all_status d); System (all_command d); Print (all_done d)]
  else if (choice =? "n")%string then
    [Print "[green]No packages upgraded.[/green]"]
  else
    match named_records records choice with
    | [] => [Print "[red]No valid packages selected.[/red]"]
    | pkgs =>
        (upgrade_events d pkgs
           ++ [Print "[green]Selected packages upgraded![/green]"])%list
    end.

(** What the selection block needs of its surroundings to go through:
    [rich] can show the two texts that name a package, for each of
    [pkgs]; *)
Definition shows_upgrades (w : world) (d : dispatcher) (pkgs : list string)
  : Prop :=
  forall pkg,
    In pkg pkgs ->
    console_raises w (Status (one_status d pkg)) = None
    /\ console_raises w (Print ("[green]" ++ pkg ++ " upgraded![/green]"))
       = None.

(** [os.system] accepts the commands of [d] for [pkgs] (none holds a
    NUL); *)
Definition commands_accepted (d : dispatcher) (pkgs : list string) : Prop :=
  embedded_null (all_command d) = false
  /\ forall pkg, In pkg pkgs -> embedded_null (one_command d pkg) = false.

(** [rich] can show the notice about a literal of digits that [int]
    rejected. *)
Definition shows_parse_errors (w : world) : Prop :=
  forall literal,
    Py.isdigit literal = true ->
    console_raises w
      (PrintExn "[red]Error parsing selection: " (ValueError literal) "[/red]")
    = None.

(** A selection written out: decimal numbers separated by commas. *)
Definition written_selection (indices : list N) : string :=
  String.concat "," (map Py.str_N indices).

(** A token without comma. *)
Definition comma_free (tok : string) : bool :=
  Py.all_chr (fun c => negb (Ascii.eqb c ",")) tok.

(** The entry a number names, as the claim words it: the text is a
    numeral and its value lies in [1, length]. *)
Definition names_entry (procs : list proc) (idx : string) (entry : proc)
  : Prop :=
  is_numeral idx = true
  /\ (1 <= numeral_value idx <= len procs)%Z
  /\ nth_error procs (Z.to_nat (numeral_value idx - 1)) = Some entry.

(** ** The package listings as the specification words them *)

(** The first token of each line that has one. *)
Definition first_tokens (lines : list string) : list string :=
  flat_map
    (fun l => match Py.split l with tok :: _ => [tok] | [] => [] end)
    lines.

(** The second token of each line that has two. *)
Definition second_tokens (lines : list string) : list string :=
  flat_map
    (fun l => match Py.split l with _ :: tok :: _ => [tok] | _ => [] end)
    lines.

(** A token as a listing prints it: non-empty, without white space. *)
Definition clean_token (tok : string) : bool :=
  Py.truthy tok && Py.all_chr (fun c => negb (Py.isspace_chr c)) tok.

(** A line without line boundary. *)
Definition one_line (l : string) : bool :=
  Py.all_chr (fun c => negb (Py.islinebreak_chr c)) l.

(** A data line: its tokens separated by single spaces. *)
Definition data_line (tokens : list string) : string :=
  String.concat " " tokens.

(** A listing: its lines separated by line feeds. *)
Definition listing (lines : list string) : string := String.concat nl lines.

(** A row of a listing: at least one token, all of them clean. *)
Definition clean_row (row : list string) : bool :=
  nonempty row && forallb clean_token row.

(** A line that does not consist of exactly one token. *)
Definition no_single_token (l : string) : bool :=
  negb (List.length (Py.split l) =? 1)%nat.

(** A line that is not taken for the winget header. *)
Definition not_header (l : string) : bool :=
  negb (Py.startswith "Name" (Py.strip l)).

(** The lines after the header as the specification words it: the header
    is the first line whose first token is [Name]. *)
Fixpoint after_name_header (lines : list string) : list string :=
  match lines with
  | [] => []
  | l :: rest =>
      match Py.split l with
      | tok :: _ => if (tok =? "Name")%string then rest
                    else after_name_header rest
      | [] => after_name_header rest
      end
  end.

(** ** Concrete inputs *)

Definition superscript_two : string := String "178" EmptyString.

Definition eight_records : list string :=
  ["r1"; "r2"; "r3"; "r4"; "r5"; "r6"; "r7"; "r8"].

Definition choco_example : string :=
  listing ["Name|Version|Available"; "pkgA|1.0|1.1"; "pkgB|2.0|2.1"].

Definition winget_example : string :=
  listing ["Name  Id  Version"; "Foo  foo.id  1.0"].

(** [winget upgrade] rules off its header with a line of dashes. *)
Definition winget_ruled : string :=
  listing ["Name  Id  Version"; "-----------------"; "Foo  foo.id  1.0"].

(** A banner line before the header. *)
Definition winget_banner : string :=
  listing ["Names of upgrades"; "Name  Id  Version"; "Foo  foo.id  1.0"].

(** A world in which every command completes with the same output. *)
Definition echo_world (out : string) : world :=
  mkWorld (fun _ _ => Completed 0 out) (fun _ _ => Ok out)
          (fun path => path) (fun path => path) None (fun _ => None).

(** A world for the battery probe: the two [ioreg] pipelines print
    [max_reading] and [design_line]. *)
Definition battery_world (max_reading design_line : string) : world :=
  mkWorld
    (fun _ command =>
       if String.prefix "ioreg -r -k MaxCapacity" command
       then Completed 0 max_reading
       else Completed 0 design_line)
    (fun _ _ => Ok EmptyString) (fun path => path) (fun path => path) None
    (fun _ => None).

Definition design_line (digits : string) : string :=
  Py.dq ++ "DesignCapacity" ++ Py.dq ++ "=" ++ digits.

(** A world in which the shell cannot be started. *)
Definition broken_world : world :=
  mkWorld (fun _ _ => NotRun (OSError "cannot start the shell"))
          (fun _ _ => Raise (OSError "cannot start the shell"))
          (fun path => path) (fun path => path) None (fun _ => None).

(** A WindowsLike machine with winget only, whose [winget upgrade]
    prints [out]. *)
Definition winget_world (out : string) : world :=
  mkWorld
    (fun _ command =>
       if (command =? "where choco")%string then Completed 1 EmptyString
       else if (command =? "winget upgrade")%string then Completed 0 out
       else Completed 0 "C:\winget.exe")
    (fun _ _ => Ok EmptyString) (fun path => path) (fun path => path) None
    (fun _ => None).

(** A world in which every command runs, prints nothing and exits with
    status 1. *)
Definition exit_one_world : world :=
  mkWorld (fun _ _ => Completed 1 EmptyString) (fun _ _ => Ok EmptyString)
          (fun path => path) (fun path => path) None (fun _ => None).

(** A world in which every command runs and prints bytes that are no
    text. *)
Definition binary_world : world :=
  mkWorld (fun _ _ => Undecodable UnicodeDecodeError)
          (fun _ _ => Raise UnicodeDecodeError)
          (fun path => path) (fun path => path) None (fun _ => None).

(** [text] holds [part]. *)
Definition holds (part text : string) : bool :=
  match String.index 0 part text with Some _ => true | None => false end.

(** A world whose console takes the closing tag [[/x]] for markup: no
    tag [[x]] is open where a package name or the message of a
    [MarkupError] is put into a text, so [rich] raises. *)
Definition markup_world : world :=
  mkWorld (fun _ _ => Completed 0 EmptyString) (fun _ _ => Ok EmptyString)
          (fun path => path) (fun path => path) None
          (fun e =>
             match e with
             | Status text | Print text =>
                 if holds "[/x]" text then Some (MarkupError "[/x]") else None
             | PrintExn _ (MarkupError tag) _ => Some (MarkupError tag)
             | _ => None
             end).

(** The CPU and memory lists [monitor_usage] builds before it asks. *)
Definition listed_processes (plat : platform) (w : world)
  (replies : list string) : option (list proc * list proc) :=
  match usage_stats plat w (mkState replies []) with
  | (Ok stats, _) =>
      match usage_lists plat (fst stats) (snd stats) with
      | Ok lists => Some (fst (fst lists), fst (snd lists))
      | Raise _ => None
      end
  | (Raise _, _) => None
  end.

(** A process listing in the [ps aux] layout, with a short line. *)
Definition ps_example : string :=
  listing ["user 12 1.0 2.0 a b c d e f first";
           "short line";
           "user 13 0.5 1.0 a b c d e f second"].

(** Deciding a fact about one character by running through all of them. *)
Ltac by_cases_on_char c :=
  destruct c as [[] [] [] [] [] [] [] []]; vm_compute; congruence.

(** ** The rest of [Main.py]: summary, menu and main loop *)

Section Shell.

Variable plat : platform.
Variable w : world.

Local Open Scope prog_scope.

(** A table cell: [Table.add_row] of [rich] shows [None] as an empty
    cell. *)
Definition cell (value : option string) : string :=
  match value with Some s => s | None => EmptyString end.

Definition metric_names : list string :=
  ["Uptime"; "Free Disk Space"; "Free RAM"; "Battery Health";
   "CPU Temperature"].

(** Lines 292-296: one row per metric, name and value. *)
Definition summary_rows (values : list (option string)) : list (list string) :=
  map (fun entry => [fst entry; cell (snd entry)])
    (combine metric_names values).

Definition free_ram_command : string :=
  "vm_stat | grep " ++ Py.dq ++ "Pages free" ++ Py.dq
    ++ " | awk '{print $3}' | sed 's/\.//' | awk '{printf "
    ++ Py.dq ++ "%.1f MB" ++ Py.dq ++ ", $1 * 4 / 1024}'".

(** Lines 273-286: the five values, in the order of the rows. *)
Definition summary_values : M (list (option string)) :=
  if IS_MAC plat then
    uptime <- run_command w "uptime | awk -F', ' '{print $1}'" ;;
    free_disk <- run_command w "df -h / | awk 'NR==2 {print $4}'" ;;
    free_ram <- run_command w free_ram_command ;;
    battery_health <- get_battery_health plat w ;;
    cpu_temp <-
      run_command w "istats cpu temp | grep 'CPU temp' | awk '{print $3}'" ;;
    ret [uptime; free_disk; free_ram; Some battery_health; cpu_temp]
  else if IS_WIN plat then
    uptime <- run_command w "net stats workstation | findstr 'since'" ;;
    free_disk <- run_command w "wmic logicaldisk get size,freespace,caption" ;;
    free_ram <- run_command w "wmic OS get FreePhysicalMemory" ;;
    battery_health <- get_battery_health plat w ;;
    ret [uptime; free_disk; free_ram; Some battery_health; Some "N/A"]
  else
    ret [Some "N/A"; Some "N/A"; Some "N/A"; Some "N/A"; Some "N/A"].

(** Lines 269-300. The table has no title. *)
Definition system_summary : M unit :=
  try_except
    (emit (Status "[bold blue]Loading System Summary[/bold blue]") ;;
     values <- summary_values ;;
     render w (PrintTable (mkTable EmptyString (summary_rows values))))
    (fun e =>
       render w
         (PrintExn "[red] Failed to display the System stats due to error : "
            e EmptyString)).

Definition menu_text : string :=
  "[bold blue]Mac/Windows Optimization Utility[/bold blue]" ++ nl ++ nl
    ++ "1. System Check" ++ nl
    ++ "2. Clear Cache" ++ nl
    ++ "3. Monitor Resource Usage" ++ nl
    ++ "4. Check for Updates" ++ nl
    ++ "5. Exit" ++ nl.

(** Lines 395-406. The panel is kept as a table of one cell under its
    title. *)
Definition display_menu : M unit :=
  emit (PrintTable (mkTable "[bold magenta]Main Menu[/bold magenta]"
                      [[menu_text]])).

(** Lines 410-431: one turn of the loop; [true] is [break]. An interrupt
    from the keyboard is not modelled. *)
Definition menu_turn : M bool :=
  try_except
    (display_menu ;;
     choice <- input "[bold cyan]Choose an option: [/bold cyan]" ;;
     if (choice =? "1")%string then system_summary ;; ret false
     else if (choice =? "2")%string then clear_cache plat w ;; ret false
     else if (choice =? "3")%string then monitor_usage plat w ;; ret false
     else if (choice =? "4")%string then
       check_system_updates plat w ;; ret false
     else if (choice =? "5")%string then
       print "[bold red]Exiting...[/bold red]" ;; ret true
     else
       print "[bold red]Invalid choice, please try again.[/bold red]" ;;
       ret false)
    (fun e =>
       render w (PrintExn "[red]An error occurred: " e "[/red]") ;;
       ret false).

(** Lines 408-431: [while True], for at most [fuel] turns; the result
    tells whether the loop was left. *)
Fixpoint main_loop (fuel : nat) : M bool :=
  match fuel with
  | O => ret false
  | S fuel' =>
      left_loop <- menu_turn ;;
      if left_loop then ret true else main_loop fuel'
  end.

End Shell.

(** ** What a computation adds to the trace *)

(** [m] adds to the trace only events that satisfy [p], and it takes its
    answers from the front of the pending ones. *)
Definition adds {A} (p : event -> bool) (m : M A) : Prop :=
  forall st,
    exists evs used,
      trace (snd (m st)) = (trace st ++ evs)%list
      /\ forallb p evs = true
      /\ answers st = (used ++ answers (snd (m st)))%list.

(** No command for [os.system]. *)
Definition no_system (e : event) : bool :=
  match e with System _ => false | _ => true end.


(** No question to the operator. *)
Definition no_prompt (e : event) : bool :=
  match e with Prompt _ => false | _ => true end.

(** No command of any kind. *)
Definition no_command (e : event) : bool := negb (is_command e).

(** Only commands for [os.system] that [allowed] accepts. *)
Definition system_only (allowed : string -> bool) (e : event) : bool :=
  match e with System command => allowed command | _ => true end.

(** ** The commands of the battery probe *)

Definition max_capacity_command : string :=
  "ioreg -r -k MaxCapacity | grep 'MaxCapacity' | awk 'NR==1 {print $3}'".

Definition design_capacity_command : string :=
  "ioreg -r -k DesignCapacity | grep 'DesignCapacity' | awk 'NR==1 {print $0}'".

(** ** More words for the package listings *)

(** A line with a token. *)
Definition nonblank (l : string) : bool := Py.truthy (Py.strip l).


(** The identifier column of a row. *)
Definition second_of (row : list string) : string := nth 1 row EmptyString.

(** A row of at least two clean tokens. *)
Definition two_clean_tokens (row : list string) : bool :=
  (2 <=? List.length row)%nat && forallb clean_token row.

(** ** Words for the process listings *)

(** The record a table row belongs to: its pid and its label. *)
Definition record_of (row : list string) : proc :=
  (nth 1 row EmptyString, nth 2 row EmptyString).

(** A record whose pid and label are clean tokens. *)
Definition clean_proc (p : proc) : bool :=
  clean_token (fst p) && clean_token (snd p).

(** What the three loop bodies have in common: an accepted line gives a
    row that starts with its 1-based line number and shows the pid and
    the label of the record, both of them tokens of the line. *)
Definition row_shape
  (body : nat -> string -> result (option (proc * list string))) : Prop :=
  forall idx line p row,
    body idx line = Ok (Some (p, row)) ->
    clean_proc p = true
    /\ exists shown, row = [Py.str_nat (idx + 1); fst p; snd p; shown].

(** The three parsers [monitor_usage] uses. *)
Definition usage_parser
  (body : nat -> string -> result (option (proc * list string))) : Prop :=
  body = mac_process_line 2 \/ body = mac_process_line 3
  \/ body = win_process_line.

(** ** Who is killed *)







(** ** Events of [monitor_usage] *)




(** ** What [clear_cache] deletes *)

(** The deletion command for one browser cache (line 80). *)
Definition browser_deletion (plat : platform) (w : world)
  (entry : string * string) : string :=
  if IS_MAC plat then "rm -rf " ++ expanduser w (snd entry)
  else "del /q " ++ Py.dq ++ snd entry ++ Py.dq.

(** The deletion commands for one cache path: its contents (line 100),
    then every browser cache (line 101). *)
Definition path_deletions (plat : platform) (w : world) (path : string)
  : list string :=
  (if IS_MAC plat then "rm -rf " ++ expanduser w path ++ "/*"
   else "del /q /s " ++ Py.dq ++ expanduser w path ++ "\*" ++ Py.dq)
    :: map (browser_deletion plat w) (browser_cache_paths plat w).

(** All of them. *)
Definition cache_deletions (plat : platform) (w : world) : list string :=
  flat_map (path_deletions plat w) (cache_paths plat w).

(** [command] is one of [l]. *)
Definition among (l : list string) (command : string) : bool :=
  existsb (String.eqb command) l.

(** Only deletions of the cache, and no question. *)
Definition deletes_cache (plat : platform) (w : world) (e : event) : bool :=
  system_only (among (cache_deletions plat w)) e && no_prompt e.

(** ** The characters of a written selection *)

(** A digit 0-9 or a comma. *)
Definition selection_chr (c : ascii) : bool :=
  Py.isdecimal_chr c || Ascii.eqb c ",".

(** ** Quiet events *)

(** Neither a command for [os.system] nor a question. *)
Definition quiet (e : event) : bool := no_system e && no_prompt e.

(** ** Events of [system_summary] *)


Definition summary_failure (e : exn) : event :=
  PrintExn "[red] Failed to display the System stats due to error : " e
    EmptyString.

(** ** Upgrade commands *)

(** The upgrade commands of a platform: Homebrew on MacLike, Chocolatey
    and winget on WindowsLike, none elsewhere. *)
Definition upgrade_command (plat : platform) (command : string) : bool :=
  if IS_MAC plat then String.prefix "brew upgrade " command
  else if IS_WIN plat then
    String.prefix "choco upgrade " command
    || String.prefix "winget upgrade " command
  else false.

(** The dispatchers of a platform. *)
Definition dispatcher_of (plat : platform) (d : dispatcher) : Prop :=
  match plat with
  | MacLike => d = brew_dispatcher
  | WindowsLike => exists mgr, d = win_dispatcher mgr
  | Other => False
  end.

(** ** Events of the main loop *)

(** Any event at all. *)
Definition any_event (e : event) : bool := true.

Definition exit_notice : event := Print "[bold red]Exiting...[/bold red]".

Definition menu_shown : event :=
  PrintTable (mkTable "[bold magenta]Main Menu[/bold magenta]" [[menu_text]]).

Definition menu_prompt : event :=
  Prompt "[bold cyan]Choose an option: [/bold cyan]".

(** One turn of the loop at the end of the input. *)
Definition eof_turn : list event :=
  [menu_shown; menu_prompt;
   PrintExn "[red]An error occurred: " EOFError "[/red]"].

(** * Theorems *)

(** * Facts about characters *)

Lemma linebreak_is_space c : Py.islinebreak_chr c = true -> Py.isspace_chr c = true.
Proof. by_cases_on_char c. Qed.

Lemma decimal_is_digit c : Py.isdecimal_chr c = true -> Py.isdigit_chr c = true.
Proof. by_cases_on_char c. Qed.

Lemma decimal_not_space c : Py.isdecimal_chr c = true -> Py.isspace_chr c = false.
Proof. by_cases_on_char c. Qed.

Lemma decimal_not_int_space c :
  Py.isdecimal_chr c = true -> Py.int_space_chr c = false.
Proof. by_cases_on_char c. Qed.

Lemma decimal_not_comma c : Py.isdecimal_chr c = true -> Ascii.eqb c "," = false.
Proof. by_cases_on_char c. Qed.

(** * Facts about strings *)

Lemma all_chr_app p s t :
  Py.all_chr p (s ++ t) = Py.all_chr p s && Py.all_chr p t.
Proof.
  induction s as [|c s IH]; simpl; [reflexivity|].
  now rewrite IH, andb_assoc.
Qed.

Lemma all_chr_impl (p q : ascii -> bool) s :
  (forall c, p c = true -> q c = true) ->
  Py.all_chr p s = true -> Py.all_chr q s = true.
Proof.
  intros Hpq; induction s as [|c s IH]; simpl; [reflexivity|].
  intros H; apply andb_true_iff in H as [Hc Hs].
  now rewrite (Hpq _ Hc), IH.
Qed.

Lemma lstrip_all p s : Py.all_chr p (Py.lstrip_by p s) = Py.all_chr p s.
Proof.
  induction s as [|c s IH]; simpl; [reflexivity|].
  destruct (p c) eqn:E; simpl; [exact IH | now rewrite E].
Qed.

Lemma rstrip_truthy p s : Py.truthy (Py.rstrip_by p s) = negb (Py.all_chr p s).
Proof.
  induction s as [|c s IH]; simpl; [reflexivity|].
  destruct (Py.rstrip_by p s) eqn:E; simpl in *.
  - apply (f_equal negb) in IH; rewrite negb_involutive in IH; simpl in IH.
    rewrite <- IH, andb_true_r. now destruct (p c).
  - apply (f_equal negb) in IH; rewrite negb_involutive in IH; simpl in IH.
    rewrite <- IH, andb_false_r. reflexivity.
Qed.

Lemma strip_truthy s :
  Py.truthy (Py.strip s) = negb (Py.all_chr Py.isspace_chr s).
Proof. unfold Py.strip. now rewrite rstrip_truthy, lstrip_all. Qed.

Lemma lstrip_id p s :
  Py.all_chr (fun c => negb (p c)) s = true -> Py.lstrip_by p s = s.
Proof.
  destruct s as [|c s]; simpl; [reflexivity|].
  intros H; apply andb_true_iff in H as [Hc _].
  apply negb_true_iff in Hc. now rewrite Hc.
Qed.

Lemma rstrip_id p s :
  Py.all_chr (fun c => negb (p c)) s = true -> Py.rstrip_by p s = s.
Proof.
  induction s as [|c s IH]; simpl; [reflexivity|].
  intros H; apply andb_true_iff in H as [Hc Hs].
  apply negb_true_iff in Hc. rewrite (IH Hs), Hc.
  now destruct s.
Qed.

Lemma strip_id s :
  Py.all_chr (fun c => negb (Py.isspace_chr c)) s = true -> Py.strip s = s.
Proof. intros H. unfold Py.strip. now rewrite (lstrip_id _ _ H), rstrip_id. Qed.

(** [split] *)

Lemma split_nonempty s :
  nonempty (Py.split s) = negb (Py.all_chr Py.isspace_chr s).
Proof.
  unfold Py.split.
  induction s as [|c s IH]; simpl; [reflexivity|].
  destruct (Py.ws_scan s) as [tok rest].
  destruct (Py.isspace_chr c); simpl.
  - unfold Py.push_token at 1. simpl. exact IH.
  - reflexivity.
Qed.

Lemma nonblank_has_token l :
  Py.truthy (Py.strip l) = nonempty (Py.split l).
Proof. now rewrite strip_truthy, split_nonempty. Qed.

Lemma ws_scan_clean tok :
  Py.all_chr (fun c => negb (Py.isspace_chr c)) tok = true ->
  Py.ws_scan tok = (tok, []).
Proof.
  induction tok as [|c s IH]; simpl; [reflexivity|].
  intros H; apply andb_true_iff in H as [Hc Hs].
  apply negb_true_iff in Hc. now rewrite (IH Hs), Hc.
Qed.

Lemma ws_scan_clean_app tok rest :
  Py.all_chr (fun c => negb (Py.isspace_chr c)) tok = true ->
  Py.ws_scan (tok ++ String " " rest) = (tok, Py.split rest).
Proof.
  induction tok as [|c s IH]; simpl.
  - intros _. unfold Py.split. now destruct (Py.ws_scan rest).
  - intros H; apply andb_true_iff in H as [Hc Hs].
    apply negb_true_iff in Hc. now rewrite (IH Hs), Hc.
Qed.

Lemma split_data_line tokens :
  forallb clean_token tokens = true ->
  Py.split (data_line tokens) = tokens.
Proof.
  unfold data_line.
  induction tokens as [|tok rest IH]; simpl; [reflexivity|].
  intros H; apply andb_true_iff in H as [Htok Hrest].
  unfold clean_token in Htok. apply andb_true_iff in Htok as [Hne Hclean].
  destruct rest as [|tok2 rest].
  - unfold Py.split. rewrite (ws_scan_clean _ Hclean).
    unfold Py.push_token. now rewrite Hne.
  - unfold Py.split. rewrite (ws_scan_clean_app _ _ Hclean).
    unfold Py.push_token. rewrite Hne. f_equal. exact (IH Hrest).
Qed.

(** [splitlines] *)

Lemma splitlines_line_feed l rest :
  one_line l = true ->
  Py.splitlines (l ++ String "010" rest) = l :: Py.splitlines rest.
Proof.
  unfold one_line.
  induction l as [|c s IH]; simpl.
  - intros _. now destruct rest.
  - intros H; apply andb_true_iff in H as [Hc Hs].
    apply negb_true_iff in Hc. rewrite Hc, (IH Hs). reflexivity.
Qed.

Lemma splitlines_line_then l rest :
  one_line l = true ->
  Py.splitlines (l ++ nl ++ rest) = l :: Py.splitlines rest.
Proof. exact (splitlines_line_feed l rest). Qed.

Lemma splitlines_last l :
  one_line l = true -> Py.truthy l = true -> Py.splitlines l = [l].
Proof.
  unfold one_line.
  induction l as [|c s IH]; simpl; [discriminate|].
  intros H _; apply andb_true_iff in H as [Hc Hs].
  apply negb_true_iff in Hc. rewrite Hc.
  destruct s as [|c2 s2]; [reflexivity|].
  now rewrite (IH Hs eq_refl).
Qed.

Lemma splitlines_listing lines :
  forallb one_line lines = true ->
  forallb Py.truthy (skipn 1 lines) = true ->
  lines <> [EmptyString] ->
  Py.splitlines (listing lines) = lines.
Proof.
  unfold listing.
  induction lines as [|l rest IH]; [reflexivity|].
  intros Hone Hne Hnot.
  simpl in Hone; apply andb_true_iff in Hone as [Hl Hrest].
  destruct rest as [|l2 rest].
  - simpl. destruct l as [|c s]; [congruence|].
    now apply splitlines_last.
  - change (String.concat nl (l :: l2 :: rest))
      with (l ++ nl ++ String.concat nl (l2 :: rest)).
    rewrite (splitlines_line_then _ _ Hl). f_equal.
    apply IH; [exact Hrest| |].
    + simpl in Hne. apply andb_true_iff in Hne as [_ Hne].
      destruct rest; [reflexivity|]. simpl in *. exact Hne.
    + simpl in Hne. apply andb_true_iff in Hne as [H2 _].
      intros E; inversion E; subst. discriminate.
Qed.

(** * Lists *)

Lemma getitem_nth {A} (l : list A) (k : Z) x :
  (0 <= k)%Z -> nth_error l (Z.to_nat k) = Some x -> getitem l k = Ok x.
Proof.
  intros Hk Hx. unfold getitem.
  assert (Hlt : (Z.to_nat k < List.length l)%nat)
    by (apply nth_error_Some; congruence).
  destruct (k <? 0)%Z eqn:E; [apply Z.ltb_lt in E; lia|].
  replace ((0 <=? k)%Z && (k <? Z.of_nat (List.length l))%Z) with true.
  - now rewrite Hx.
  - symmetry. apply andb_true_iff. split; [apply Z.leb_le|apply Z.ltb_lt]; lia.
Qed.

Lemma getitem_head {A} (x : A) l : getitem (x :: l) 0 = Ok x.
Proof. now apply getitem_nth. Qed.

Lemma getitem_second {A} (x y : A) l : getitem (x :: y :: l) 1 = Ok y.
Proof. now apply getitem_nth. Qed.

(** * The package listings *)

Lemma tokens_at_first lines : tokens_at 0 lines = Ok (first_tokens lines).
Proof.
  induction lines as [|l rest IH]; [reflexivity|].
  unfold first_tokens in *. cbn [tokens_at flat_map].
  rewrite nonblank_has_token.
  destruct (Py.split l) as [|tok toks]; cbn [nonempty]; [exact IH|].
  rewrite getitem_head. cbn [rbind]. now rewrite IH.
Qed.

Lemma tokens_at_second lines :
  forallb no_single_token lines = true ->
  tokens_at 1 lines = Ok (second_tokens lines).
Proof.
  induction lines as [|l rest IH]; [reflexivity|].
  unfold second_tokens in *. cbn [tokens_at flat_map forallb].
  intros H; apply andb_true_iff in H as [Hl Hrest].
  rewrite nonblank_has_token. unfold no_single_token in Hl.
  destruct (Py.split l) as [|tok [|tok2 toks]]; cbn [nonempty];
    [exact (IH Hrest) | discriminate |].
  rewrite getitem_second. cbn [rbind]. now rewrite (IH Hrest).
Qed.

Lemma parse_choco_first_tokens out :
  parse_choco (Some out)
  = Ok (first_tokens (slice_from 1 (Py.splitlines out))).
Proof.
  unfold parse_choco. destruct out as [|c s]; [reflexivity|].
  apply tokens_at_first.
Qed.

Lemma clean_token_one_line tok : clean_token tok = true -> one_line tok = true.
Proof.
  unfold clean_token, one_line. intros H; apply andb_true_iff in H as [_ H].
  revert H. apply all_chr_impl. intros c Hc.
  destruct (Py.islinebreak_chr c) eqn:E; [|reflexivity].
  now rewrite (linebreak_is_space _ E) in Hc.
Qed.

Lemma one_line_app s t : one_line (s ++ t) = one_line s && one_line t.
Proof. apply all_chr_app. Qed.

Lemma data_line_one_line row :
  forallb clean_token row = true -> one_line (data_line row) = true.
Proof.
  unfold data_line.
  induction row as [|tok rest IH]; [reflexivity|].
  intros H; simpl in H; apply andb_true_iff in H as [Htok Hrest].
  simpl. destruct rest as [|tok2 rest]; [now apply clean_token_one_line|].
  rewrite one_line_app, (clean_token_one_line _ Htok). simpl.
  exact (IH Hrest).
Qed.

Lemma truthy_app s t : Py.truthy s = true -> Py.truthy (s ++ t) = true.
Proof. now destruct s. Qed.

Lemma data_line_truthy row :
  clean_row row = true -> Py.truthy (data_line row) = true.
Proof.
  unfold clean_row, data_line.
  destruct row as [|tok rest]; [discriminate|]. simpl.
  intros H. apply andb_true_iff in H as [Htok _].
  unfold clean_token in Htok. apply andb_true_iff in Htok as [Hne _].
  destruct rest; [exact Hne | now apply truthy_app].
Qed.

Lemma clean_row_tokens row : clean_row row = true -> forallb clean_token row = true.
Proof. unfold clean_row. intros H. now apply andb_true_iff in H as [_ H]. Qed.

Lemma first_tokens_rows rows :
  forallb clean_row rows = true ->
  first_tokens (map data_line rows) = map (hd EmptyString) rows.
Proof.
  induction rows as [|row rest IH]; [reflexivity|].
  intros H; simpl in H; apply andb_true_iff in H as [Hrow Hrest].
  unfold first_tokens in *. simpl.
  rewrite (split_data_line _ (clean_row_tokens _ Hrow)), (IH Hrest).
  unfold clean_row in Hrow. now destruct row.
Qed.

Lemma rows_one_line rows :
  forallb clean_row rows = true -> forallb one_line (map data_line rows) = true.
Proof.
  induction rows as [|row rest IH]; [reflexivity|].
  intros H; simpl in H; apply andb_true_iff in H as [Hrow Hrest].
  simpl. now rewrite (data_line_one_line _ (clean_row_tokens _ Hrow)), IH.
Qed.

Lemma rows_truthy rows :
  forallb clean_row rows = true -> forallb Py.truthy (map data_line rows) = true.
Proof.
  induction rows as [|row rest IH]; [reflexivity|].
  intros H; simpl in H; apply andb_true_iff in H as [Hrow Hrest].
  simpl. now rewrite (data_line_truthy _ Hrow), IH.
Qed.

Lemma splitlines_rows header rows :
  one_line header = true ->
  forallb clean_row rows = true ->
  slice_from 1 (Py.splitlines (listing (header :: map data_line rows)))
  = map data_line rows.
Proof.
  intros Hh Hrows.
  destruct rows as [|row rest].
  - simpl. destruct header as [|c s]; [reflexivity|].
    unfold listing. simpl String.concat.
    now rewrite splitlines_last.
  - rewrite splitlines_listing; [reflexivity| | |].
    + simpl forallb. rewrite Hh. exact (rows_one_line _ Hrows).
    + exact (rows_truthy _ Hrows).
    + discriminate.
Qed.

Lemma parse_choco_rows header rows :
  one_line header = true ->
  forallb clean_row rows = true ->
  parse_choco (Some (listing (header :: map data_line rows)))
  = Ok (map (hd EmptyString) rows).
Proof.
  intros Hh Hrows.
  rewrite parse_choco_first_tokens, (splitlines_rows _ _ Hh Hrows).
  now rewrite first_tokens_rows.
Qed.

Lemma find_header_skips i pre header post :
  forallb not_header pre = true ->
  not_header header = false ->
  find_header i (pre ++ header :: post) = (i + List.length pre)%nat.
Proof.
  revert i. induction pre as [|l pre IH]; intros i Hpre Hh; simpl.
  - unfold not_header in Hh. apply negb_false_iff in Hh. rewrite Hh. lia.
  - simpl in Hpre. apply andb_true_iff in Hpre as [Hl Hpre].
    unfold not_header in Hl. apply negb_true_iff in Hl. rewrite Hl.
    rewrite (IH (S i) Hpre Hh). lia.
Qed.

Lemma skipn_past {A} (pre : list A) x post :
  skipn (List.length pre + 1) (pre ++ x :: post) = post.
Proof. induction pre as [|y pre IH]; [reflexivity|exact IH]. Qed.

Lemma parse_winget_after_header out (pre : list string) header post :
  Py.splitlines out = (pre ++ header :: post)%list ->
  nonempty (pre ++ post)%list = true ->
  forallb not_header pre = true ->
  not_header header = false ->
  forallb no_single_token post = true ->
  parse_winget (Some out) = Ok (second_tokens post).
Proof.
  intros Hlines Hmore Hpre Hh Hpost.
  unfold parse_winget. rewrite Hlines.
  replace (1 <? List.length (pre ++ header :: post))%nat with true.
  - rewrite (find_header_skips 0 _ _ _ Hpre Hh). simpl Nat.add.
    unfold slice_from. rewrite skipn_past.
    now apply tokens_at_second.
  - symmetry. apply Nat.ltb_lt. rewrite length_app. simpl.
    destruct pre; destruct post; simpl in *; try discriminate; lia.
Qed.

(** * Numerals *)

Lemma int_digits_numeral t : forall acc count after_digit,
  Py.all_chr Py.isdecimal_chr t = true ->
  after_digit || Py.truthy t = true ->
  Py.int_digits acc count after_digit t
  = Some (numeral_value_from acc t, (count + N.of_nat (String.length t))%N).
Proof.
  induction t as [|c s IH]; intros acc count b Hall Hne.
  - simpl in *. rewrite orb_false_r in Hne. subst b. f_equal. f_equal. lia.
  - simpl in Hall. apply andb_true_iff in Hall as [Hc Hs].
    cbn [Py.int_digits numeral_value_from String.length]. rewrite Hc.
    rewrite (IH _ _ true Hs eq_refl). f_equal. f_equal. lia.
Qed.

Lemma numeral_no_int_space t :
  Py.all_chr Py.isdecimal_chr t = true ->
  Py.all_chr (fun c => negb (Py.int_space_chr c)) t = true.
Proof.
  apply all_chr_impl. intros c Hc. now rewrite (decimal_not_int_space _ Hc).
Qed.

Lemma numeral_no_space t :
  Py.all_chr Py.isdecimal_chr t = true ->
  Py.all_chr (fun c => negb (Py.isspace_chr c)) t = true.
Proof.
  apply all_chr_impl. intros c Hc. now rewrite (decimal_not_space _ Hc).
Qed.

Lemma int_unsigned_body c s :
  Py.isdecimal_chr c = true ->
  Py.all_chr (fun c => negb (Py.int_space_chr c)) (String c s) = true ->
  Py.int (String c s) = Py.int_unsigned (String c s) (String c s).
Proof.
  intros Hc Hall. unfold Py.int.
  rewrite (lstrip_id _ _ Hall), (rstrip_id _ _ Hall).
  destruct c as [[] [] [] [] [] [] [] []];
    try (vm_compute in Hc; discriminate Hc); reflexivity.
Qed.

Lemma int_numeral t :
  is_numeral t = true ->
  (N.of_nat (String.length t) <=? Py.max_str_digits)%N = true ->
  Py.int t = Ok (numeral_value t).
Proof.
  unfold is_numeral. intros H Hlen. apply andb_true_iff in H as [Hne Hall].
  destruct t as [|c s]; [discriminate|].
  pose proof Hall as Hall'. simpl in Hall'.
  apply andb_true_iff in Hall' as [Hc _].
  rewrite (int_unsigned_body _ _ Hc (numeral_no_int_space _ Hall)).
  unfold Py.int_unsigned.
  rewrite (int_digits_numeral _ 0%Z 0%N false Hall eq_refl).
  rewrite N.add_0_l, Hlen. reflexivity.
Qed.

Lemma numeral_isdigit t : is_numeral t = true -> Py.isdigit t = true.
Proof.
  unfold is_numeral, Py.isdigit. intros H. apply andb_true_iff in H as [Hne Hall].
  rewrite Hne. simpl. revert Hall. apply all_chr_impl, decimal_is_digit.
Qed.

(** * The selection expression *)

Lemma indices_of_plain tokens :
  forallb plain_token tokens = true ->
  indices_of tokens = Ok (flat_map token_indices tokens).
Proof.
  induction tokens as [|tok rest IH]; [reflexivity|].
  cbn [forallb indices_of flat_map].
  intros H; apply andb_true_iff in H as [Htok Hrest].
  rewrite (IH Hrest). unfold plain_token in Htok. cbv zeta in Htok.
  assert (Ht : token_indices tok
               = if is_numeral (Py.strip tok)
                 then [numeral_value (Py.strip tok)] else []) by reflexivity.
  rewrite Ht. clear Ht.
  destruct (Py.isdigit (Py.strip tok)) eqn:Hd.
  - simpl in Htok. apply andb_true_iff in Htok as [Hnum Hlen].
    rewrite (int_numeral _ Hnum Hlen), Hnum. reflexivity.
  - destruct (is_numeral (Py.strip tok)) eqn:Hnum; [|reflexivity].
    now rewrite (numeral_isdigit _ Hnum) in Hd.
Qed.

Lemma parse_indices_plain choice :
  plain_choice choice = true ->
  parse_indices choice = Ok (named_indices choice).
Proof. apply indices_of_plain. Qed.

Lemma select_pkgs_records_at l indices :
  select_pkgs l indices = Ok (records_at l indices).
Proof.
  induction indices as [|i rest IH]; [reflexivity|].
  unfold records_at in *. cbn [select_pkgs flat_map]. rewrite IH.
  unfold len.
  destruct ((0 <? i)%Z && (i <=? Z.of_nat (List.length l))%Z) eqn:E.
  - apply andb_true_iff in E as [H0 H1].
    apply Z.ltb_lt in H0. apply Z.leb_le in H1.
    replace (1 <=? i)%Z with true by (symmetry; apply Z.leb_le; lia).
    destruct (nth_error l (Z.to_nat (i - 1))) eqn:En.
    + rewrite (getitem_nth l (i - 1) s); [reflexivity|lia|exact En].
    + apply nth_error_None in En. lia.
  - cbn [rbind]. destruct (1 <=? i)%Z eqn:E1; [|reflexivity].
    apply Z.leb_le in E1.
    destruct (nth_error l (Z.to_nat (i - 1))) eqn:En; [|reflexivity].
    assert (Z.to_nat (i - 1) < List.length l)%nat
      by (apply nth_error_Some; congruence).
    apply andb_false_iff in E as [E|E];
      [apply Z.ltb_ge in E | apply Z.leb_gt in E]; lia.
Qed.

Lemma selected_pkgs_plain l choice :
  plain_choice choice = true ->
  selected_pkgs l choice = Ok (named_records l choice).
Proof.
  intros H. unfold selected_pkgs. rewrite (parse_indices_plain _ H).
  apply select_pkgs_records_at.
Qed.

(** Whatever the selection, lines 188-189 give a list or a [ValueError]. *)
Lemma select_pkgs_total l indices : is_ok (select_pkgs l indices) = true.
Proof. now rewrite select_pkgs_records_at. Qed.

(** * Traces *)

Lemma getitem_In {A} (l : list A) k x : getitem l k = Ok x -> In x l.
Proof.
  unfold getitem.
  destruct ((0 <=? _)%Z && _)%bool; [|discriminate].
  destruct (nth_error l _) eqn:E; [|discriminate].
  intros H; inversion H; subst. eapply nth_error_In; eauto.
Qed.

Lemma records_at_listed {A} (records : list A) indices r :
  In r (records_at records indices) -> In r records.
Proof.
  unfold records_at. intros H. apply in_flat_map in H as [i [_ Hi]].
  destruct (1 <=? i)%Z; [|contradiction].
  destruct (nth_error records (Z.to_nat (i - 1))) eqn:E; [|contradiction].
  destruct Hi as [<-|[]]. eapply nth_error_In; eauto.
Qed.

Lemma selected_pkgs_listed l choice pkgs :
  selected_pkgs l choice = Ok pkgs -> incl pkgs l.
Proof.
  unfold selected_pkgs. destruct (parse_indices choice) as [indices|];
    [|discriminate].
  cbn [rbind]. rewrite select_pkgs_records_at. intros H; inversion H; subst.
  intros r. apply records_at_listed.
Qed.

(** [int] raises a [ValueError] that carries its argument. *)
Lemma int_raises_literal s e : Py.int s = Raise e -> e = ValueError s.
Proof.
  assert (H : forall body, Py.int_unsigned s body = Raise e -> e = ValueError s).
  { intros body. unfold Py.int_unsigned.
    destruct (Py.int_digits 0 0 false body) as [[v n]|];
      [destruct (n <=? Py.max_str_digits)%N|]; congruence. }
  unfold Py.int.
  destruct (Py.rstrip_by Py.int_space_chr (Py.lstrip_by Py.int_space_chr s))
    as [|c body]; [apply H|].
  destruct (Ascii.eqb c "+") eqn:Ep.
  - apply Ascii.eqb_eq in Ep. subst c. apply H.
  - destruct (Ascii.eqb c "-") eqn:Em.
    + apply Ascii.eqb_eq in Em. subst c.
      destruct (Py.int_unsigned s body) eqn:E; [discriminate|].
      intros Hr. inversion Hr; subst. now apply (H body).
    + destruct c as [[] [] [] [] [] [] [] []];
        try discriminate Ep; try discriminate Em; apply H.
Qed.

(** The selection raises nothing but the [ValueError] of [int] for a
    literal that [str.isdigit] accepted. *)
Lemma indices_of_raises tokens e :
  indices_of tokens = Raise e ->
  exists literal, e = ValueError literal /\ Py.isdigit literal = true.
Proof.
  induction tokens as [|tok rest IH]; [discriminate|].
  cbn [indices_of].
  destruct (Py.isdigit (Py.strip tok)) eqn:Hd; [|exact IH].
  destruct (Py.int (Py.strip tok)) as [n|e'] eqn:Hint; cbn [rbind].
  - destruct (indices_of rest) as [ns|e'']; cbn [rbind]; [discriminate|].
    intros H. inversion H; subst. now apply IH.
  - intros H. inversion H; subst.
    exists (Py.strip tok). split; [now apply int_raises_literal|exact Hd].
Qed.

Lemma selected_pkgs_raises l choice e :
  selected_pkgs l choice = Raise e ->
  exists literal, e = ValueError literal /\ Py.isdigit literal = true.
Proof.
  unfold selected_pkgs, parse_indices.
  destruct (indices_of (Py.split_on "," choice)) as [indices|e'] eqn:E;
    cbn [rbind].
  - rewrite select_pkgs_records_at. discriminate.
  - intros H. inversion H; subst. exact (indices_of_raises _ _ E).
Qed.

Lemma upgrade_one_run w d pkg st :
  console_raises w (Status (one_status d pkg)) = None ->
  console_raises w (Print ("[green]" ++ pkg ++ " upgraded![/green]")) = None ->
  embedded_null (one_command d pkg) = false ->
  upgrade_one w d pkg st
  = (Ok tt,
     mkState (answers st)
       (trace st ++ [Status (one_status d pkg); System (one_command d pkg);
                     Print ("[green]" ++ pkg ++ " upgraded![/green]")])).
Proof.
  intros Hs Hp Hn.
  unfold upgrade_one, print_data, system, bind, render, emit.
  rewrite Hs, Hn. cbn [answers trace]. rewrite Hp. cbn [answers trace].
  now rewrite <- !app_assoc.
Qed.

Lemma for_each_upgrade w d pkgs st :
  shows_upgrades w d pkgs ->
  (forall pkg, In pkg pkgs -> embedded_null (one_command d pkg) = false) ->
  for_each (upgrade_one w d) pkgs st
  = (Ok tt, mkState (answers st) (trace st ++ upgrade_events d pkgs)).
Proof.
  revert st. induction pkgs as [|pkg rest IH]; intros st Hshow Hcmd.
  - simpl. unfold ret. rewrite app_nil_r. now destruct st.
  - cbn [for_each]. unfold bind at 1.
    destruct (Hshow pkg (or_introl eq_refl)) as [Hs Hp].
    rewrite (upgrade_one_run w d pkg st Hs Hp (Hcmd pkg (or_introl eq_refl))).
    rewrite IH.
    + cbn [answers trace]. f_equal. f_equal.
      unfold upgrade_events. cbn [flat_map].
      rewrite <- !app_assoc. reflexivity.
    + intros p Hin. apply Hshow. now right.
    + intros p Hin. apply Hcmd. now right.
Qed.

Lemma shows_upgrades_incl w d pkgs l :
  incl pkgs l -> shows_upgrades w d l -> shows_upgrades w d pkgs.
Proof. intros Hincl H pkg Hin. apply H, Hincl, Hin. Qed.

(** What the selection block does when the console can show its texts
    and [os.system] accepts its commands. *)
Lemma upgrade_selection_run w d l answer rest :
  shows_upgrades w d l ->
  commands_accepted d l ->
  (forall e,
     selected_pkgs l (Py.lower (Py.strip answer)) = Raise e ->
     console_raises w (PrintExn "[red]Error parsing selection: " e "[/red]")
     = None) ->
  let choice := Py.lower (Py.strip answer) in
  run (upgrade_selection w d l) (answer :: rest)
  = (Ok tt,
     Prompt selection_prompt ::
       (if (choice =? "a") then
          [Status (all_status d); System (all_command d); Print (all_done d)]
        else if (choice =? "n") then
          [Print "[green]No packages upgraded.[/green]"]
        else
          match selected_pkgs l choice with
          | Ok [] => [Print "[red]No valid packages selected.[/red]"]
          | Ok pkgs =>
              (upgrade_events d pkgs
                 ++ [Print "[green]Selected packages upgraded![/green]"])%list
          | Raise e => [PrintExn "[red]Error parsing selection: " e "[/red]"]
          end)).
Proof.
  intros Hshow [Hall Hone] Herr choice. unfold run, upgrade_selection.
  unfold bind at 1. unfold input. cbn [answers trace app].
  fold choice.
  destruct (choice =? "a") eqn:Ea.
  { unfold bind, system, emit, print, emit. rewrite Hall. reflexivity. }
  destruct (choice =? "n") eqn:En; [reflexivity|].
  unfold try_except, bind at 1, lift.
  destruct (selected_pkgs l choice) as [[|pkg pkgs]|e] eqn:E.
  - reflexivity.
  - cbn [nonempty]. unfold bind at 1.
    pose proof (selected_pkgs_listed _ _ _ E) as Hincl.
    rewrite for_each_upgrade.
    + reflexivity.
    + exact (shows_upgrades_incl _ _ _ _ Hincl Hshow).
    + intros p Hin. apply Hone, Hincl, Hin.
  - unfold render. rewrite (Herr e E). reflexivity.
Qed.

(** * Writing numbers *)

Lemma digit_chr_decimal d :
  (d < 10)%N ->
  Py.isdecimal_chr (Py.digit_chr d) = true
  /\ Py.digit_val (Py.digit_chr d) = Z.of_N d.
Proof.
  intros H.
  assert (E : List.In d [0; 1; 2; 3; 4; 5; 6; 7; 8; 9]%N).
  { simpl. lia. }
  simpl in E.
  repeat (destruct E as [E|E]; [subst d; split; reflexivity|]).
  contradiction.
Qed.

Lemma numeral_value_from_app s t acc :
  numeral_value_from acc (s ++ t)
  = numeral_value_from (numeral_value_from acc s) t.
Proof.
  revert acc. induction s as [|c s IH]; intros acc; [reflexivity|].
  simpl. apply IH.
Qed.

Lemma string_app_assoc (s t u : string) : (s ++ t) ++ u = s ++ (t ++ u).
Proof. induction s as [|c s IH]; simpl; [reflexivity | now rewrite IH]. Qed.

Lemma string_length_app (s t : string) :
  String.length (s ++ t) = (String.length s + String.length t)%nat.
Proof. induction s as [|c s IH]; simpl; [reflexivity | now rewrite IH]. Qed.

Lemma str_digits_step fuel n acc :
  Py.str_digits (S fuel) n acc
  = if (n <? 10)%N then String (Py.digit_chr (n mod 10)) acc
    else Py.str_digits fuel (n / 10) (String (Py.digit_chr (n mod 10)) acc).
Proof. reflexivity. Qed.

Lemma str_digits_spec fuel : forall n acc,
  (n < 2 ^ N.of_nat fuel)%N ->
  exists ds,
    Py.str_digits (S fuel) n acc = ds ++ acc
    /\ is_numeral ds = true
    /\ numeral_value ds = Z.of_N n
    /\ forall k, (n < 10 ^ N.of_nat (S k))%N -> (String.length ds <= S k)%nat.
Proof.
  induction fuel as [|fuel IH]; intros n acc Hn.
  - assert (n = 0%N) by (simpl in Hn; lia). subst n.
    exists "0". repeat split. intros k _. simpl. lia.
  - rewrite str_digits_step.
    destruct (n <? 10)%N eqn:E.
    + apply N.ltb_lt in E.
      destruct (digit_chr_decimal (n mod 10)) as [Hd Hv];
        [apply N.mod_lt; lia|].
      exists (String (Py.digit_chr (n mod 10)) EmptyString).
      split; [reflexivity|]. split.
      * unfold is_numeral. simpl. now rewrite Hd.
      * split.
        -- unfold numeral_value. cbn [numeral_value_from].
           rewrite Hv, N.mod_small by exact E. lia.
        -- intros k _. simpl. lia.
    + apply N.ltb_ge in E.
      assert (Hq : (n / 10 < 2 ^ N.of_nat fuel)%N).
      { apply N.Div0.div_lt_upper_bound.
        rewrite Nat2N.inj_succ, N.pow_succ_r' in Hn. lia. }
      destruct (IH (n / 10)%N (String (Py.digit_chr (n mod 10)) acc) Hq)
        as (ds & Hds & Hnum & Hval & Hlen).
      destruct (digit_chr_decimal (n mod 10)) as [Hd Hv];
        [apply N.mod_lt; lia|].
      exists (ds ++ String (Py.digit_chr (n mod 10)) EmptyString).
      split; [rewrite Hds, string_app_assoc; reflexivity|].
      unfold is_numeral in *. apply andb_true_iff in Hnum as [Hne Hall].
      split; [|split].
      * rewrite (truthy_app _ _ Hne), all_chr_app, Hall. simpl. now rewrite Hd.
      * unfold numeral_value in *. rewrite numeral_value_from_app, Hval.
        cbn [numeral_value_from]. rewrite Hv.
        pose proof (N.div_mod n 10 ltac:(lia)). lia.
      * intros k Hk. rewrite string_length_app. simpl.
        destruct k as [|k].
        -- simpl in Hk. lia.
        -- assert (Hk' : (n / 10 < 10 ^ N.of_nat (S k))%N).
           { apply N.Div0.div_lt_upper_bound.
             rewrite (Nat2N.inj_succ (S k)), N.pow_succ_r' in Hk. exact Hk. }
           specialize (Hlen k Hk'). lia.
Qed.

Lemma str_N_spec n :
  is_numeral (Py.str_N n) = true
  /\ numeral_value (Py.str_N n) = Z.of_N n
  /\ forall k, (n < 10 ^ N.of_nat (S k))%N ->
               (String.length (Py.str_N n) <= S k)%nat.
Proof.
  unfold Py.str_N.
  destruct (str_digits_spec (N.to_nat (N.size n)) n EmptyString)
    as (ds & Hds & H).
  - rewrite N2Nat.id. apply N.size_gt.
  - rewrite Hds.
    replace (ds ++ EmptyString) with ds; [exact H|].
    clear. induction ds as [|c s IH]; simpl; [reflexivity | now rewrite <- IH].
Qed.

Lemma str_N_plain n :
  (n < 10 ^ Py.max_str_digits)%N -> plain_token (Py.str_N n) = true.
Proof.
  intros Hn. destruct (str_N_spec n) as (Hnum & _ & Hlen).
  unfold plain_token. cbv zeta.
  pose proof Hnum as Hall. unfold is_numeral in Hall.
  apply andb_true_iff in Hall as [_ Hall].
  rewrite (strip_id _ (numeral_no_space _ Hall)), Hnum.
  replace (N.of_nat (String.length (Py.str_N n)) <=? Py.max_str_digits)%N
    with true; [now rewrite orb_true_r|].
  symmetry. apply N.leb_le.
  specialize (Hlen 4299%nat).
  change (N.of_nat 4300) with Py.max_str_digits in Hlen.
  specialize (Hlen Hn). unfold Py.max_str_digits. lia.
Qed.

Lemma str_N_indices n : token_indices (Py.str_N n) = [Z.of_N n].
Proof.
  destruct (str_N_spec n) as (Hnum & Hval & _).
  unfold token_indices. cbv zeta.
  pose proof Hnum as Hall. unfold is_numeral in Hall.
  apply andb_true_iff in Hall as [_ Hall].
  now rewrite (strip_id _ (numeral_no_space _ Hall)), Hnum, Hval.
Qed.

(** * Splitting at commas *)

Lemma split_scan_token tok rest :
  comma_free tok = true ->
  Py.split_scan "," (tok ++ String "," rest) = (tok, Py.split_on "," rest).
Proof.
  unfold comma_free.
  induction tok as [|c s IH]; simpl.
  - intros _. unfold Py.split_on. now destruct (Py.split_scan "," rest).
  - intros H; apply andb_true_iff in H as [Hc Hs].
    apply negb_true_iff in Hc. now rewrite (IH Hs), Hc.
Qed.

Lemma split_scan_last tok :
  comma_free tok = true -> Py.split_scan "," tok = (tok, []).
Proof.
  unfold comma_free.
  induction tok as [|c s IH]; simpl; [reflexivity|].
  intros H; apply andb_true_iff in H as [Hc Hs].
  apply negb_true_iff in Hc. now rewrite (IH Hs), Hc.
Qed.

Lemma split_on_concat tok tokens :
  forallb comma_free (tok :: tokens) = true ->
  Py.split_on "," (String.concat "," (tok :: tokens)) = tok :: tokens.
Proof.
  revert tok. induction tokens as [|tok2 rest IH]; intros tok H.
  - simpl in *. rewrite andb_true_r in H.
    unfold Py.split_on. now rewrite split_scan_last.
  - cbn [forallb] in H. apply andb_true_iff in H as [Htok Hrest].
    change (String.concat "," (tok :: tok2 :: rest))
      with (tok ++ String "," (String.concat "," (tok2 :: rest))).
    unfold Py.split_on at 1. rewrite (split_scan_token _ _ Htok).
    now rewrite IH.
Qed.

Lemma str_N_comma_free n : comma_free (Py.str_N n) = true.
Proof.
  destruct (str_N_spec n) as (Hnum & _ & _).
  unfold is_numeral in Hnum. apply andb_true_iff in Hnum as [_ Hall].
  revert Hall. apply all_chr_impl. intros c Hc.
  now rewrite (decimal_not_comma _ Hc).
Qed.

Lemma written_tokens indices :
  indices <> [] ->
  Py.split_on "," (written_selection indices) = map Py.str_N indices.
Proof.
  intros Hne. unfold written_selection.
  destruct indices as [|i rest]; [congruence|].
  cbn [map]. apply split_on_concat.
  change (forallb comma_free (map Py.str_N (i :: rest)) = true).
  clear. induction (i :: rest) as [|j l IH]; [reflexivity|].
  simpl. now rewrite str_N_comma_free, IH.
Qed.

Lemma written_plain indices :
  Forall (fun i => (i < 10 ^ Py.max_str_digits)%N) indices ->
  plain_choice (written_selection indices) = true.
Proof.
  intros H. unfold plain_choice.
  destruct indices as [|i rest]; [reflexivity|].
  rewrite written_tokens by discriminate.
  induction H as [|j l Hj _ IH]; [reflexivity|].
  simpl. now rewrite (str_N_plain _ Hj), IH.
Qed.

Lemma written_indices indices :
  named_indices (written_selection indices) = map Z.of_N indices.
Proof.
  unfold named_indices.
  destruct indices as [|i rest]; [reflexivity|].
  rewrite written_tokens by discriminate.
  induction (i :: rest) as [|j l IH]; [reflexivity|].
  cbn [map flat_map]. rewrite IH.
  now rewrite str_N_indices.
Qed.

(** * Battery health *)

(** C1 (the code departs from the claim). With a design capacity of 0
    the MacLike battery probe does not answer N/A: the division raises
    [ZeroDivisionError] and the exception leaves [get_battery_health]. *)
Theorem battery_health_zero_design_raises :
  run (get_battery_health MacLike (battery_world "4500" (design_line "0"))) []
  = (Raise ZeroDivisionError,
     [Spawn "ioreg -r -k MaxCapacity | grep 'MaxCapacity' | awk 'NR==1 {print $3}'";
      Spawn "ioreg -r -k DesignCapacity | grep 'DesignCapacity' | awk 'NR==1 {print $0}'"]).
Proof. vm_compute. reflexivity. Qed.

(** The same for every pair of readings: when the maximum reading is a
    number and the digits found after the pattern have the value 0, the
    division raises. *)
Lemma battery_health_zero_design_always max_reading line a digits :
  Py.strip max_reading = max_reading ->
  Py.truthy max_reading = true ->
  Py.int max_reading = Ok a ->
  Py.search_digits_after design_capacity_pattern (Py.strip line)
  = Some digits ->
  Py.int digits = Ok 0%Z ->
  fst (run (get_battery_health MacLike (battery_world max_reading line)) [])
  = Raise ZeroDivisionError.
Proof.
  intros Hstrip Hne Ha Hfound Hzero.
  unfold run, get_battery_health. cbn [IS_MAC].
  unfold bind at 1, run_command at 1, try_except, bind at 1, spawn, ret.
  cbn [trace answers].
  match goal with |- context [subprocess_run ?w ?t ?c] =>
    change (subprocess_run w t c) with (Completed 0 max_reading) end.
  cbv iota beta.
  unfold bind at 1, run_command at 1, try_except, bind at 1, spawn, ret.
  cbn [trace answers].
  match goal with |- context [subprocess_run ?w ?t ?c] =>
    change (subprocess_run w t c) with (Completed 0 line) end.
  cbv iota beta.
  unfold bind at 1, lift, re_search. rewrite Hfound, Hstrip.
  destruct max_reading as [|c s]; [discriminate|].
  unfold bind at 1. rewrite Ha. unfold bind at 1. rewrite Hzero.
  reflexivity.
Qed.

(** With a design capacity other than 0 the result is the quotient, times
    100, in the [.2f] format with a percent sign. *)
Lemma battery_health_quotient max_reading line a digits b q :
  Py.strip max_reading = max_reading ->
  Py.truthy max_reading = true ->
  Py.int max_reading = Ok a ->
  Py.search_digits_after design_capacity_pattern (Py.strip line)
  = Some digits ->
  Py.int digits = Ok b ->
  Py.true_divide a b = Ok q ->
  fst (run (get_battery_health MacLike (battery_world max_reading line)) [])
  = Ok (Py.format_2f (Py.float_mul_int q 100) ++ "%").
Proof.
  intros Hstrip Hne Ha Hfound Hb Hq.
  unfold run, get_battery_health. cbn [IS_MAC].
  unfold bind at 1, run_command at 1, try_except, bind at 1, spawn, ret.
  cbn [trace answers].
  match goal with |- context [subprocess_run ?w ?t ?c] =>
    change (subprocess_run w t c) with (Completed 0 max_reading) end.
  cbv iota beta.
  unfold bind at 1, run_command at 1, try_except, bind at 1, spawn, ret.
  cbn [trace answers].
  match goal with |- context [subprocess_run ?w ?t ?c] =>
    change (subprocess_run w t c) with (Completed 0 line) end.
  cbv iota beta.
  unfold bind at 1, lift, re_search. rewrite Hfound, Hstrip.
  destruct max_reading as [|c s]; [discriminate|].
  unfold bind at 1. rewrite Ha. unfold bind at 1. rewrite Hb.
  unfold bind at 1. rewrite Hq. reflexivity.
Qed.

(** The guard of line 37 does answer N/A when a reading is missing. *)
Lemma battery_health_missing_reading :
  fst (run (get_battery_health MacLike
              (battery_world EmptyString (design_line "5000"))) []) = Ok "N/A"
  /\ fst (run (get_battery_health MacLike
                 (battery_world "4500" "no capacity here")) []) = Ok "N/A".
Proof. split; vm_compute; reflexivity. Qed.

(** A healthy pair of readings gives the percentage with two decimals. *)
Lemma battery_health_ninety :
  fst (run (get_battery_health MacLike
              (battery_world "4500" (design_line "5000"))) []) = Ok "90.00%".
Proof. vm_compute. reflexivity. Qed.

(** A maximum reading that is no number raises as well. *)
Lemma battery_health_not_a_number :
  fst (run (get_battery_health MacLike
              (battery_world "n/a" (design_line "5000"))) [])
  = Raise (ValueError "n/a").
Proof. vm_compute. reflexivity. Qed.

(** When the shell cannot be started the pattern search meets [None]. *)
Lemma battery_health_no_shell :
  fst (run (get_battery_health MacLike broken_world) []) = Raise TypeError.
Proof. vm_compute. reflexivity. Qed.

(** * Package listings *)

(** C3 (the claim as stated fails): the lines of the example hold no
    white space, so each of them is one token and the parser does not
    yield the bare names. *)
Lemma choco_pipes_not_split :
  parse_choco (Some choco_example) <> Ok ["pkgA"; "pkgB"].
Proof. vm_compute. discriminate. Qed.

(** C3 (amended). The choco parser skips the first line and takes the
    first white-space-delimited token of every remaining line that has
    one; a listing written as a header and rows of space-separated tokens
    gives back the first token of each row, in order; on the pipe-separated
    example each data line is a single token. *)
Theorem parse_choco_first_token_rule :
  (forall out,
     parse_choco (Some out)
     = Ok (first_tokens (slice_from 1 (Py.splitlines out))))
  /\ (forall header rows,
        one_line header = true ->
        forallb clean_row rows = true ->
        parse_choco (Some (listing (header :: map data_line rows)))
        = Ok (map (hd EmptyString) rows))
  /\ parse_choco (Some choco_example) = Ok ["pkgA|1.0|1.1"; "pkgB|2.0|2.1"].
Proof.
  split; [exact parse_choco_first_tokens|].
  split; [exact parse_choco_rows|].
  vm_compute. reflexivity.
Qed.

(** The rule at work on a listing with spaces between the columns. *)
Lemma parse_choco_first_token_rule_witness :
  parse_choco
    (Some (listing ["Name Version Available"; "pkgA 1.0 1.1"; "pkgB 2.0 2.1"]))
  = Ok ["pkgA"; "pkgB"].
Proof.
  exact (proj1 (proj2 parse_choco_first_token_rule)
           "Name Version Available"
           [["pkgA"; "1.0"; "1.1"]; ["pkgB"; "2.0"; "2.1"]]
           eq_refl eq_refl).
Defined.

(** C4 (the claim as stated fails): a line before the header whose first
    token merely begins with [Name] is taken for the header, and the real
    header then counts as a data line. *)
Lemma winget_banner_taken_for_header :
  after_name_header (Py.splitlines winget_banner) = ["Foo  foo.id  1.0"]
  /\ parse_winget (Some winget_banner) = Ok ["Id"; "foo.id"]
  /\ parse_winget (Some winget_banner)
     <> Ok (second_tokens (after_name_header (Py.splitlines winget_banner))).
Proof. vm_compute. repeat split. discriminate. Qed.

(** C4 (amended). In a winget listing of more than one line the header is
    the first line whose text, once stripped, starts with [Name]; when
    every later line that has a token has two, the parser yields the second
    token of each of them; the example yields [foo.id]. *)
Theorem parse_winget_second_token_rule :
  (forall out (pre : list string) header post,
     Py.splitlines out = (pre ++ header :: post)%list ->
     nonempty (pre ++ post)%list = true ->
     forallb not_header pre = true ->
     not_header header = false ->
     forallb no_single_token post = true ->
     parse_winget (Some out) = Ok (second_tokens post))
  /\ parse_winget (Some winget_example) = Ok ["foo.id"].
Proof.
  split; [exact parse_winget_after_header|].
  vm_compute. reflexivity.
Qed.

(** The rule at work on the example, whose header is its first line. *)
Lemma parse_winget_second_token_rule_witness :
  parse_winget (Some winget_example)
  = Ok (second_tokens ["Foo  foo.id  1.0"]).
Proof.
  exact (proj1 parse_winget_second_token_rule winget_example
           [] "Name  Id  Version" ["Foo  foo.id  1.0"]
           eq_refl eq_refl eq_refl eq_refl eq_refl).
Defined.

(** C5 (the code departs from the claim). A winget listing with a line of
    one token (the rule under the header) is not parsed leniently: line 146
    raises [IndexError], the whole check is given up and no package is
    shown. *)
Theorem winget_single_token_line_raises :
  parse_winget (Some winget_ruled) = Raise IndexError
  /\ run (check_system_updates WindowsLike (winget_world winget_ruled)) ["a"]
     = (Ok tt,
        [Status "[bold blue]Checking the system's integrity[/bold blue]";
         Spawn "where choco"; Spawn "where winget"; Spawn "winget upgrade";
         PrintExn "[red]Failed to check system updates: " IndexError "[/red]";
         LogError "Failed to check system updates: " IndexError]).
Proof. split; vm_compute; reflexivity. Qed.

(** * Process listings *)

Lemma getitem_in_range {A} (l : list A) (k : nat) :
  (k < List.length l)%nat -> is_ok (getitem l (Z.of_nat k)) = true.
Proof.
  intros H. destruct (nth_error l k) eqn:E.
  - rewrite (getitem_nth l (Z.of_nat k) a); [reflexivity|lia|].
    now rewrite Nat2Z.id.
  - apply nth_error_None in E. lia.
Qed.

(** A MacLike line with at most ten fields gives no record. *)
Lemma mac_process_line_short metric idx line :
  (List.length (Py.split line) <= 10)%nat ->
  mac_process_line metric idx line = Ok None.
Proof.
  intros H. unfold mac_process_line.
  replace (10 <? List.length (Py.split line))%nat with false; [reflexivity|].
  symmetry. apply Nat.ltb_ge. exact H.
Qed.

(** A WindowsLike line with fewer than three fields gives no record. *)
Lemma win_process_line_short idx line :
  (List.length (Py.split line) < 3)%nat ->
  win_process_line idx line = Ok None.
Proof.
  intros H. unfold win_process_line.
  replace (3 <=? List.length (Py.split line))%nat with false; [reflexivity|].
  symmetry. apply Nat.leb_gt. exact H.
Qed.

Lemma is_ok_inv {A} (r : result A) : is_ok r = true -> exists a, r = Ok a.
Proof. destruct r; [eauto|discriminate]. Qed.

(** The guards of lines 335 and 340 keep every index in range. *)
Lemma mac_process_line_total metric idx line :
  (metric = 2 \/ metric = 3)%Z ->
  is_ok (mac_process_line metric idx line) = true.
Proof.
  intros Hm. unfold mac_process_line. cbv zeta.
  destruct (10 <? List.length (Py.split line))%nat eqn:E; [|reflexivity].
  apply Nat.ltb_lt in E.
  destruct (is_ok_inv _ (getitem_in_range (Py.split line) 1 ltac:(lia))) as [a Ha].
  destruct (is_ok_inv _ (getitem_in_range (Py.split line) 10 ltac:(lia))) as [b Hb].
  assert (Hc : exists c, getitem (Py.split line) metric = Ok c).
  { destruct Hm; subst metric.
    - exact (is_ok_inv _ (getitem_in_range (Py.split line) 2 ltac:(lia))).
    - exact (is_ok_inv _ (getitem_in_range (Py.split line) 3 ltac:(lia))). }
  destruct Hc as [c Hc].
  change (Z.of_nat 1) with 1%Z in Ha. change (Z.of_nat 10) with 10%Z in Hb.
  now rewrite Ha, Hb, Hc.
Qed.

(** The guards of lines 346 and 351 keep every index in range. *)
Lemma win_process_line_total idx line :
  is_ok (win_process_line idx line) = true.
Proof.
  unfold win_process_line. cbv zeta.
  destruct (3 <=? List.length (Py.split line))%nat eqn:E; [|reflexivity].
  apply Nat.leb_le in E.
  destruct (is_ok_inv _ (getitem_in_range (Py.split line) 0 ltac:(lia))) as [a Ha].
  destruct (is_ok_inv _ (getitem_in_range (Py.split line) 1 ltac:(lia))) as [b Hb].
  destruct (is_ok_inv _ (getitem_in_range (Py.split line) 2 ltac:(lia))) as [c Hc].
  change (Z.of_nat 0) with 0%Z in Ha. change (Z.of_nat 1) with 1%Z in Hb.
  change (Z.of_nat 2) with 2%Z in Hc.
  rewrite Hb, Ha, Hc. cbn [rbind]. now destruct (Py.isdigit b).
Qed.

(** A line that gives no record is passed over and the lines after it
    are still read. *)
Lemma process_lines_skip body idx line rest :
  body idx line = Ok None ->
  process_lines body idx (line :: rest) = process_lines body (S idx) rest.
Proof.
  intros H. cbn [process_lines]. rewrite H. cbn [rbind].
  now destruct (process_lines body (S idx) rest).
Qed.

Lemma process_lines_total body :
  (forall idx line, is_ok (body idx line) = true) ->
  forall lines idx, is_ok (process_lines body idx lines) = true.
Proof.
  intros Hbody. induction lines as [|line rest IH]; intros idx; [reflexivity|].
  cbn [process_lines].
  destruct (is_ok_inv _ (Hbody idx line)) as [r Hr].
  destruct (is_ok_inv _ (IH (S idx))) as [later Hl].
  rewrite Hr, Hl. reflexivity.
Qed.

(** Both process parsers pass over the short line of the example. *)
Lemma process_listing_example :
  parse_processes (mac_process_line 2) (Some ps_example)
  = Ok ([("12", "first"); ("13", "second")],
        [["1"; "12"; "first"; "1.0"]; ["3"; "13"; "second"; "0.5"]])
  /\ parse_processes win_process_line (Some ps_example)
     = Ok ([("12", "user"); ("13", "user")],
           [["1"; "12"; "user"; "1.0"]; ["3"; "13"; "user"; "0.5"]]).
Proof. split; vm_compute; reflexivity. Qed.

(** * The command executor *)

(** C6 (the claim as stated fails): a command that was executed and whose
    output is no text makes [subprocess.run] raise after the command has
    run; [run_command] answers [None] and logs the exception, although
    the shell was invoked. *)
Lemma run_command_executed_gives_none :
  executed (subprocess_run binary_world [] "cat /bin/ls") = true
  /\ subprocess_run binary_world [] "cat /bin/ls"
     = Undecodable UnicodeDecodeError
  /\ run (run_command binary_world "cat /bin/ls") []
     = (Ok None,
        [Spawn "cat /bin/ls";
         LogError "Error running command cat /bin/ls: " UnicodeDecodeError]).
Proof. repeat split. Qed.

(** C6 (amended). [run_command] gives the stripped output of every
    command for which [subprocess.run] returns, whatever the exit status,
    possibly the empty string. It gives [None] exactly when
    [subprocess.run] raises, be it because the shell could not be invoked
    or because the command ran and its output could not be decoded; it
    then logs the exception. No exception leaves it. *)
Theorem run_command_outcome :
  forall (w : world) (command : string) (st : state),
    (forall returncode out,
        subprocess_run w (trace st) command = Completed returncode out ->
        run_command w command st
        = (Ok (Some (Py.strip out)),
           mkState (answers st) (trace st ++ [Spawn command])))
    /\ (forall e,
          subprocess_run w (trace st) command = NotRun e
          \/ subprocess_run w (trace st) command = Undecodable e ->
          run_command w command st
          = (Ok None,
             mkState (answers st)
               (trace st
                  ++ [Spawn command;
                      LogError ("Error running command " ++ command ++ ": ")
                        e])))
    /\ (fst (run_command w command st) = Ok None
        <-> exists e,
              subprocess_run w (trace st) command = NotRun e
              \/ subprocess_run w (trace st) command = Undecodable e)
    /\ is_ok (fst (run_command w command st)) = true.
Proof.
  intros w command st.
  unfold run_command, try_except, bind, spawn, ret, emit.
  destruct (subprocess_run w (trace st) command) as [rc out|e|e] eqn:E;
    cbn [answers trace fst is_ok].
  - repeat split.
    + intros rc' out' H. now inversion H.
    + intros e [H|H]; discriminate.
    + intros H. discriminate.
    + intros [e [H|H]]; discriminate.
  - repeat split.
    + intros rc out H. discriminate.
    + intros e' [H|H]; inversion H. now rewrite <- app_assoc.
    + intros _. exists e. now left.
  - repeat split.
    + intros rc out H. discriminate.
    + intros e' [H|H]; inversion H. now rewrite <- app_assoc.
    + intros _. exists e. now right.
Qed.

(** A command that exits with status 1 and prints nothing. *)
Lemma run_command_outcome_witness :
  run_command exit_one_world "false" (mkState [] [])
  = (Ok (Some EmptyString), mkState [] [Spawn "false"]).
Proof.
  exact (proj1 (run_command_outcome exit_one_world "false" (mkState [] []))
           1%Z EmptyString eq_refl).
Defined.

(** * Clearing the cache *)

(** C7. On a platform that is neither MacLike nor WindowsLike the list of
    cache paths is empty and [clear_cache] only shows its status line: it
    hands no command to the operating system and prints nothing. *)
Theorem clear_cache_other_is_noop :
  forall (w : world) (replies : list string),
    cache_paths Other w = []
    /\ run (clear_cache Other w) replies
       = (Ok tt, [Status "[cyan]Clearing cache..."])
    /\ systems (snd (run (clear_cache Other w) replies)) = []
    /\ filter is_command (snd (run (clear_cache Other w) replies)) = []
    /\ filter is_print (snd (run (clear_cache Other w) replies)) = [].
Proof. intros w replies. repeat split. Qed.

(** * The cache size *)

(** C8 (the claim as stated fails): on WindowsLike no command is run and
    the size is the text N/A, also when the command would have printed
    nothing. *)
Lemma cache_size_windows_not_zero :
  fst (run (get_cache_size WindowsLike (echo_world EmptyString) "C:\Temp") [])
  = Ok "N/A"
  /\ fst (run (get_cache_size WindowsLike (echo_world EmptyString) "C:\Temp") [])
     <> Ok "0B".
Proof. split; [reflexivity | discriminate]. Qed.

(** C8 (amended). On MacLike, when [os.popen(..).read()] returns,
    [get_cache_size] gives 0B if the disk-usage command printed nothing
    but white space and its stripped output otherwise; when it raises,
    the exception leaves [get_cache_size]. On WindowsLike no command is
    run and the result is N/A, as it is on any other platform. Whatever
    [get_cache_size] returns is a non-empty text. *)
Theorem cache_size_default :
  forall (w : world) (path : string) (st : state),
    (forall out,
        popen_read w (trace st) (du_human w path) = Ok out ->
        Py.truthy (Py.strip out) = false ->
        fst (get_cache_size MacLike w path st) = Ok "0B")
    /\ (forall out,
          popen_read w (trace st) (du_human w path) = Ok out ->
          Py.truthy (Py.strip out) = true ->
          fst (get_cache_size MacLike w path st) = Ok (Py.strip out))
    /\ (forall e,
          popen_read w (trace st) (du_human w path) = Raise e ->
          fst (get_cache_size MacLike w path st) = Raise e)
    /\ get_cache_size WindowsLike w path st = (Ok "N/A", st)
    /\ get_cache_size Other w path st = (Ok "N/A", st)
    /\ (forall plat size,
          fst (get_cache_size plat w path st) = Ok size ->
          Py.truthy size = true).
Proof.
  intros w path st.
  assert (Hmac : fst (get_cache_size MacLike w path st)
                 = match popen_read w (trace st) (du_human w path) with
                   | Ok out =>
                       Ok (if Py.truthy (Py.strip out) then Py.strip out
                           else "0B")
                   | Raise e => Raise e
                   end).
  { unfold get_cache_size, bind, popen, ret. cbn [IS_MAC IS_WIN orb].
    now destruct (popen_read w (trace st) (du_human w path)). }
  split; [|split; [|split; [|split; [|split]]]].
  - intros out Hout H. now rewrite Hmac, Hout, H.
  - intros out Hout H. now rewrite Hmac, Hout, H.
  - intros e He. now rewrite Hmac, He.
  - reflexivity.
  - reflexivity.
  - intros [| |] size.
    + rewrite Hmac.
      destruct (popen_read w (trace st) (du_human w path)) as [out|e];
        [|discriminate].
      destruct (Py.truthy (Py.strip out)) eqn:E;
        intros H; inversion H; subst; [exact E|reflexivity].
    + intros H; inversion H. reflexivity.
    + intros H; inversion H. reflexivity.
Qed.

(** A disk-usage command that prints blanks only. *)
Lemma cache_size_default_witness :
  fst (get_cache_size MacLike (echo_world "   ") "~/Library/Caches"
         (mkState [] []))
  = Ok "0B".
Proof.
  exact (proj1 (cache_size_default (echo_world "   ") "~/Library/Caches"
                  (mkState [] [])) "   " eq_refl eq_refl).
Defined.

(** Output that is no text: the exception of [read] leaves
    [get_cache_size]; inside [clear_browser_cache] it is caught for each
    browser in turn, and nothing is deleted. *)
Lemma cache_size_passes_on_errors :
  run (get_cache_size MacLike binary_world "~/Library/Caches") []
  = (Raise UnicodeDecodeError,
     [Popen "du -sh ~/Library/Caches 2>/dev/null | awk '{print $1}'"])
  /\ run (clear_browser_cache MacLike binary_world) []
     = (Ok tt,
        [Popen "du -sh ~/Library/Caches/Microsoft Edge/* 2>/dev/null | awk '{print $1}'";
         PrintExn "[red]Error clearing Microsoft Edge cache: "
           UnicodeDecodeError "[/red]";
         Popen "du -sh ~/Library/Caches/com.apple.Safari/* 2>/dev/null | awk '{print $1}'";
         PrintExn "[red]Error clearing Safari cache: "
           UnicodeDecodeError "[/red]"]).
Proof. split; vm_compute; reflexivity. Qed.

(** * What [int] accepts among the strings [isdigit] accepts *)

Lemma digit_not_int_space c :
  Py.isdigit_chr c = true -> Py.int_space_chr c = false.
Proof. by_cases_on_char c. Qed.

Lemma digit_not_underscore c :
  Py.isdigit_chr c = true -> Py.is_code 95 c = false.
Proof. by_cases_on_char c. Qed.

Lemma int_digits_decimal t : forall acc count after_digit r,
  Py.all_chr Py.isdigit_chr t = true ->
  Py.int_digits acc count after_digit t = Some r ->
  Py.all_chr Py.isdecimal_chr t = true.
Proof.
  induction t as [|c s IH]; intros acc count b r Hall Hr; [reflexivity|].
  simpl in Hall. apply andb_true_iff in Hall as [Hc Hs].
  cbn [Py.int_digits Py.all_chr] in *.
  destruct (Py.isdecimal_chr c).
  - simpl. exact (IH _ _ _ _ Hs Hr).
  - rewrite (digit_not_underscore _ Hc) in Hr. discriminate.
Qed.

Lemma int_isdigit t : Py.isdigit t = true -> Py.int t = Py.int_unsigned t t.
Proof.
  unfold Py.isdigit. intros H. apply andb_true_iff in H as [Hne Hall].
  assert (Hsp : Py.all_chr (fun c => negb (Py.int_space_chr c)) t = true).
  { revert Hall. apply all_chr_impl. intros c Hc.
    now rewrite (digit_not_int_space _ Hc). }
  unfold Py.int. rewrite (lstrip_id _ _ Hsp), (rstrip_id _ _ Hsp).
  destruct t as [|c s]; [discriminate|].
  simpl in Hall. apply andb_true_iff in Hall as [Hc _].
  destruct c as [[] [] [] [] [] [] [] []];
    try (vm_compute in Hc; discriminate Hc); reflexivity.
Qed.

Lemma int_isdigit_numeral t n :
  Py.isdigit t = true ->
  Py.int t = Ok n ->
  is_numeral t = true
  /\ n = numeral_value t
  /\ (N.of_nat (String.length t) <=? Py.max_str_digits)%N = true.
Proof.
  intros Hd Hint. rewrite (int_isdigit _ Hd) in Hint.
  unfold Py.isdigit in Hd. apply andb_true_iff in Hd as [Hne Hall].
  unfold Py.int_unsigned in Hint.
  destruct (Py.int_digits 0 0 false t) as [[v k]|] eqn:E; [|discriminate].
  pose proof (int_digits_decimal _ _ _ _ _ Hall E) as Hdec.
  rewrite (int_digits_numeral t 0%Z 0%N false Hdec Hne) in E.
  inversion E; subst v k. clear E.
  rewrite ?N.add_0_l in Hint.
  destruct (N.of_nat (String.length t) <=? Py.max_str_digits)%N;
    [|discriminate].
  inversion Hint. unfold is_numeral. now rewrite Hne, Hdec.
Qed.

Lemma nonplain_token_raises tok :
  plain_token tok = false ->
  Py.isdigit (Py.strip tok) = true
  /\ exists e, Py.int (Py.strip tok) = Raise e.
Proof.
  unfold plain_token. cbv zeta. intros H.
  apply orb_false_iff in H as [Hd Hnum].
  apply negb_false_iff in Hd. split; [exact Hd|].
  destruct (Py.int (Py.strip tok)) as [n|e] eqn:E; [|now exists e].
  destruct (int_isdigit_numeral _ _ Hd E) as (H1 & _ & H2).
  now rewrite H1, H2 in Hnum.
Qed.

Lemma indices_of_nonplain tokens :
  forallb plain_token tokens = false ->
  exists e, indices_of tokens = Raise e.
Proof.
  induction tokens as [|tok rest IH]; [discriminate|].
  cbn [forallb indices_of]. intros H.
  destruct (plain_token tok) eqn:Htok.
  - simpl in H. destruct (IH H) as [e He]. rewrite He.
    destruct (Py.isdigit (Py.strip tok)); [|now exists e].
    destruct (Py.int (Py.strip tok)) as [n|e']; [now exists e | now exists e'].
  - destruct (nonplain_token_raises _ Htok) as [Hd [e He]].
    rewrite Hd, He. now exists e.
Qed.

Lemma selected_pkgs_nonplain l choice :
  plain_choice choice = false ->
  exists e, selected_pkgs l choice = Raise e.
Proof.
  intros H. unfold selected_pkgs, parse_indices.
  destruct (indices_of_nonplain _ H) as [e He]. rewrite He. now exists e.
Qed.

Lemma plain_a_n choice :
  choice = "a" \/ choice = "n" -> plain_choice choice = true.
Proof. intros [H|H]; subst; reflexivity. Qed.

(** * Resolving a selection *)

Lemma embedded_null_app s t :
  embedded_null (s ++ t) = embedded_null s || embedded_null t.
Proof.
  unfold embedded_null. rewrite all_chr_app. apply negb_andb.
Qed.

(** The commands of the three package managers hold a NUL only when the
    package name does. *)
Lemma brew_commands_accepted pkgs :
  Forall (fun pkg => embedded_null pkg = false) pkgs ->
  commands_accepted brew_dispatcher pkgs.
Proof.
  intros H. split; [reflexivity|]. intros pkg Hin.
  rewrite Forall_forall in H. cbn [one_command brew_dispatcher].
  rewrite !embedded_null_app, (H pkg Hin). reflexivity.
Qed.

Lemma win_commands_accepted mgr pkgs :
  Forall (fun pkg => embedded_null pkg = false) pkgs ->
  commands_accepted (win_dispatcher mgr) pkgs.
Proof.
  intros H. split; [now destruct mgr|]. intros pkg Hin.
  rewrite Forall_forall in H.
  destruct mgr; cbn [one_command win_dispatcher];
    rewrite !embedded_null_app, (H pkg Hin); reflexivity.
Qed.

(** A console that raises nothing shows everything. *)
Lemma echo_world_shows out d pkgs :
  shows_upgrades (echo_world out) d pkgs /\ shows_parse_errors (echo_world out).
Proof. split; [intros pkg _; split; reflexivity | intros literal _; reflexivity]. Qed.

(** C2 (the claim as stated fails): a token made of the digit U+00B2 passes
    [str.isdigit] and is rejected by [int]; it is not dropped, the whole
    selection is given up and record 1 is not upgraded. *)
Lemma selection_superscript_gives_up :
  named_records eight_records ("1," ++ superscript_two) = ["r1"]
  /\ run (upgrade_selection (echo_world EmptyString) brew_dispatcher
            eight_records)
       ["1," ++ superscript_two]
     = (Ok tt,
        [Prompt selection_prompt;
         PrintExn "[red]Error parsing selection: "
           (ValueError superscript_two) "[/red]"])
  /\ systems (snd (run (upgrade_selection (echo_world EmptyString)
                          brew_dispatcher eight_records)
                     ["1," ++ superscript_two]))
     <> map (one_command brew_dispatcher)
          (named_records eight_records ("1," ++ superscript_two)).
Proof. vm_compute. repeat split. discriminate. Qed.

(** A record whose name [rich] cannot read as markup: the status line of
    line 192 raises a [MarkupError] before any command is run, the
    handler of line 198 raises again on the message, which quotes the
    tag, and the exception leaves the selection block. *)
Lemma selection_markup_error_escapes :
  run (upgrade_selection markup_world brew_dispatcher ["r1"; "[/x]"]) ["2"]
  = (Raise (MarkupError "[/x]"), [Prompt selection_prompt])
  /\ ~ shows_upgrades markup_world brew_dispatcher ["r1"; "[/x]"].
Proof.
  split; [vm_compute; reflexivity|].
  intros H. destruct (H "[/x]" (or_intror (or_introl eq_refl))) as [Hs _].
  vm_compute in Hs. discriminate.
Qed.

(** C2 (amended). Let the console be able to show the texts that name a
    record and the notice about a rejected literal, and let no command
    hold a NUL. Then resolving a selection raises nothing. Once stripped
    and put in lower case, [a] upgrades everything and [n] nothing. Any
    other selection in which every token accepted by [str.isdigit] is a
    numeral of at most 4300 digits upgrades the records named by its
    numerals within [1, length], dropping the other tokens, and shows a
    notice when no record is left; with 8 records, [3,1,99,x] upgrades
    records 3 and 1. A selection with a token that [str.isdigit] accepts
    and [int] rejects upgrades nothing and shows a notice. *)
Theorem selection_resolution :
  forall (w : world) (d : dispatcher) (records : list string)
         (answer : string) (rest : list string),
    shows_upgrades w d records ->
    commands_accepted d records ->
    shows_parse_errors w ->
    let choice := Py.lower (Py.strip answer) in
    let outcome := run (upgrade_selection w d records) (answer :: rest) in
    fst outcome = Ok tt
    /\ (choice = "a" ->
        snd outcome
        = [Prompt selection_prompt; Status (all_status d);
           System (all_command d); Print (all_done d)])
    /\ (choice = "n" ->
        snd outcome
        = [Prompt selection_prompt;
           Print "[green]No packages upgraded.[/green]"])
    /\ (plain_choice choice = true ->
        snd outcome = Prompt selection_prompt :: selection_events d records choice)
    /\ (plain_choice choice = true ->
        choice <> "a" -> choice <> "n" ->
        named_records records choice = [] ->
        snd outcome
        = [Prompt selection_prompt;
           Print "[red]No valid packages selected.[/red]"])
    /\ (plain_choice choice = false ->
        exists literal,
          Py.isdigit literal = true
          /\ snd outcome
             = [Prompt selection_prompt;
                PrintExn "[red]Error parsing selection: "
                  (ValueError literal) "[/red]"])
    /\ (forall r1 r2 r3 r4 r5 r6 r7 r8,
          records = [r1; r2; r3; r4; r5; r6; r7; r8] ->
          answer = "3,1,99,x" ->
          snd outcome
          = Prompt selection_prompt
              :: (upgrade_events d [r3; r1]
                    ++ [Print "[green]Selected packages upgraded![/green]"])%list).
Proof.
  intros w d records answer rest Hshow Hcmd Herr choice outcome.
  assert (Hrun := upgrade_selection_run w d records answer rest Hshow Hcmd).
  assert (Hnotice : forall e,
             selected_pkgs records (Py.lower (Py.strip answer)) = Raise e ->
             console_raises w
               (PrintExn "[red]Error parsing selection: " e "[/red]")
             = None).
  { intros e He. destruct (selected_pkgs_raises _ _ _ He) as (lit & -> & Hd).
    now apply Herr. }
  specialize (Hrun Hnotice).
  cbv zeta in Hrun. fold choice in Hrun. fold outcome in Hrun.
  assert (Hplain : plain_choice choice = true ->
                   snd outcome
                   = Prompt selection_prompt :: selection_events d records choice).
  { intros Hp. rewrite Hrun.
    cbn [snd]. unfold selection_events.
    rewrite (selected_pkgs_plain records choice Hp).
    destruct (choice =? "a"); [reflexivity|].
    destruct (choice =? "n"); [reflexivity|].
    now destruct (named_records records choice). }
  split; [|split; [|split; [|split; [|split; [|split]]]]].
  - now rewrite Hrun.
  - intros Ha. rewrite (Hplain (plain_a_n _ (or_introl Ha))).
    unfold selection_events. now rewrite Ha.
  - intros Hn. rewrite (Hplain (plain_a_n _ (or_intror Hn))).
    unfold selection_events. now rewrite Hn.
  - exact Hplain.
  - intros Hp Ha Hn Hnone. rewrite (Hplain Hp). unfold selection_events.
    apply String.eqb_neq in Ha. apply String.eqb_neq in Hn.
    now rewrite Ha, Hn, Hnone.
  - intros Hp. rewrite Hrun. cbn [snd].
    destruct (choice =? "a") eqn:Ea;
      [apply String.eqb_eq in Ea;
       now rewrite (plain_a_n _ (or_introl Ea)) in Hp|].
    destruct (choice =? "n") eqn:En;
      [apply String.eqb_eq in En;
       now rewrite (plain_a_n _ (or_intror En)) in Hp|].
    destruct (selected_pkgs_nonplain records choice Hp) as [e He].
    rewrite He.
    destruct (selected_pkgs_raises _ _ _ He) as (literal & -> & Hd).
    now exists literal.
  - intros r1 r2 r3 r4 r5 r6 r7 r8 Hrec Hans.
    assert (Hc : choice = "3,1,99,x") by (unfold choice; now rewrite Hans).
    rewrite Hplain by (now rewrite Hc). rewrite Hc, Hrec. reflexivity.
Qed.

(** A selection with blanks, an empty token, 0 and a number out of range. *)
Lemma selection_resolution_witness :
  snd (run (upgrade_selection (echo_world EmptyString) brew_dispatcher
              eight_records)
         ["3, 1 ,99,x,,0"])
  = [Prompt selection_prompt;
     Status "[yellow]Installing r3...[/yellow]";
     System "brew upgrade r3 > /dev/null 2>&1";
     Print "[green]r3 upgraded![/green]";
     Status "[yellow]Installing r1...[/yellow]";
     System "brew upgrade r1 > /dev/null 2>&1";
     Print "[green]r1 upgraded![/green]";
     Print "[green]Selected packages upgraded![/green]"].
Proof.
  refine (proj1 (proj2 (proj2 (proj2
            (selection_resolution (echo_world EmptyString) brew_dispatcher
               eight_records "3, 1 ,99,x,,0" [] _ _ _)))) eq_refl).
  - intros pkg _. split; reflexivity.
  - split; [reflexivity|]. intros pkg Hin. simpl in Hin.
    repeat (destruct Hin as [<-|Hin]; [reflexivity|]). contradiction.
  - intros literal _. reflexivity.
Defined.

(** C10 (the claim as stated fails): with a token that [str.isdigit]
    accepts and [int] rejects, no package is selected although index 3
    is valid. *)
Lemma selection_superscript_loses_valid_index :
  named_records ["p1"; "p2"; "p3"] ("3," ++ String "179" EmptyString) = ["p3"]
  /\ selected_pkgs ["p1"; "p2"; "p3"] ("3," ++ String "179" EmptyString)
     = Raise (ValueError (String "179" EmptyString))
  /\ selected_pkgs ["p1"; "p2"; "p3"] ("3," ++ String "179" EmptyString)
     <> Ok (named_records ["p1"; "p2"; "p3"]
              ("3," ++ String "179" EmptyString)).
Proof. vm_compute. repeat split. discriminate. Qed.

(** C10 (amended). For every selection in which each token accepted by
    [str.isdigit] is a numeral of at most 4300 digits, the selected
    packages are the packages at the valid indices in the order of the
    input, repeated as the input repeats them. In particular a selection
    written as decimal numbers below 10^4300 separated by commas selects
    the packages at those of the numbers that lie in [1, length], in that
    order, and [3,1,3] over at least three packages selects the third,
    the first and the third again. *)
Theorem selection_keeps_input_order :
  (forall (l : list string) (choice : string),
     plain_choice choice = true ->
     selected_pkgs l choice = Ok (named_records l choice))
  /\ (forall (l : list string) (indices : list N),
        Forall (fun i => (i < 10 ^ Py.max_str_digits)%N) indices ->
        selected_pkgs l (written_selection indices)
        = Ok (records_at l (map Z.of_N indices)))
  /\ (forall p1 p2 p3 others,
        selected_pkgs (p1 :: p2 :: p3 :: others) "3,1,3" = Ok [p3; p1; p3]).
Proof.
  split; [exact selected_pkgs_plain|]. split.
  - intros l indices H.
    rewrite (selected_pkgs_plain _ _ (written_plain _ H)).
    unfold named_records. now rewrite written_indices.
  - intros p1 p2 p3 others.
    now rewrite selected_pkgs_plain by reflexivity.
Qed.

(** A selection that repeats an index. *)
Lemma selection_keeps_input_order_witness :
  selected_pkgs ["p1"; "p2"; "p3"; "p4"] " 4,2 , 9,4,x"
  = Ok ["p4"; "p2"; "p4"].
Proof.
  exact (proj1 selection_keeps_input_order ["p1"; "p2"; "p3"; "p4"]
           " 4,2 , 9,4,x" eq_refl).
Defined.

(** * Killing a process *)

Lemma systems_app tr1 tr2 : systems (tr1 ++ tr2) = (systems tr1 ++ systems tr2)%list.
Proof.
  induction tr1 as [|e tr1 IH]; [reflexivity|].
  destruct e; simpl; now rewrite IH.
Qed.

Lemma run_command_quiet w command st :
  exists r evs,
    run_command w command st
    = (Ok r, mkState (answers st) (trace st ++ evs))
    /\ systems evs = [].
Proof.
  unfold run_command, try_except, bind, spawn, ret, emit.
  destruct (subprocess_run w (trace st) command) as [rc out|e|e];
    cbn [answers trace].
  - now exists (Some (Py.strip out)), [Spawn command].
  - eexists None, _. rewrite <- app_assoc. split; reflexivity.
  - eexists None, _. rewrite <- app_assoc. split; reflexivity.
Qed.

Lemma usage_stats_quiet plat w st :
  exists stats evs,
    usage_stats plat w st
    = (Ok stats, mkState (answers st) (trace st ++ evs))
    /\ systems evs = [].
Proof.
  unfold usage_stats, bind at 1, emit.
  destruct plat; cbn [IS_MAC IS_WIN].
  - unfold bind at 1.
    match goal with |- context [run_command w ?c ?s] =>
      destruct (run_command_quiet w c s) as (r1 & e1 & H1 & S1) end.
    rewrite H1. unfold bind at 1.
    match goal with |- context [run_command w ?c ?s] =>
      destruct (run_command_quiet w c s) as (r2 & e2 & H2 & S2) end.
    rewrite H2. cbn [answers trace]. unfold ret.
    exists (r1, r2), ([Status "[bold yellow]Monitoring Resource Usage...[/bold yellow]"] ++ e1 ++ e2)%list.
    split; [now rewrite <- !app_assoc|].
    now rewrite !systems_app, S1, S2.
  - unfold bind at 1.
    match goal with |- context [run_command w ?c ?s] =>
      destruct (run_command_quiet w c s) as (r1 & e1 & H1 & S1) end.
    rewrite H1. unfold bind at 1.
    match goal with |- context [run_command w ?c ?s] =>
      destruct (run_command_quiet w c s) as (r2 & e2 & H2 & S2) end.
    rewrite H2. cbn [answers trace]. unfold ret.
    exists (r1, r2), ([Status "[bold yellow]Monitoring Resource Usage...[/bold yellow]"] ++ e1 ++ e2)%list.
    split; [now rewrite <- !app_assoc|].
    now rewrite !systems_app, S1, S2.
  - unfold ret. eexists _, _. split; reflexivity.
Qed.

(** Showing something runs no command, whether [rich] raises or not. *)
Lemma render_quiet w e st r st' :
  render w e st = (r, st') ->
  systems [e] = [] ->
  exists evs,
    st' = mkState (answers st) (trace st ++ evs) /\ systems evs = [].
Proof.
  intros H He. revert H. unfold render, emit.
  destruct (console_raises w e); intros H; injection H as _ <-.
  - exists []. rewrite app_nil_r. now destruct st.
  - now exists [e].
Qed.

(** [kill_process] hands [os.system] the kill command for its pid and
    nothing else. *)
Lemma kill_process_spec plat w pid st :
  exists evs,
    snd (kill_process plat w pid st)
    = mkState (answers st) (trace st ++ evs)
    /\ forall cmd, In cmd (systems evs) -> cmd = kill_command plat pid.
Proof.
  unfold kill_process, try_except, bind at 1, system.
  fold (kill_command plat pid).
  destruct (embedded_null (kill_command plat pid)).
  - unfold raise.
    destruct (render w _ st) as [r st'] eqn:E.
    destruct (render_quiet _ _ _ _ _ E eq_refl) as (evs & -> & Hs).
    exists evs. split; [reflexivity|]. rewrite Hs. intros cmd [].
  - unfold emit at 1. unfold print_data.
    match goal with |- context [render w ?e ?s] =>
      destruct (render w e s) as [[[]|x] st'] eqn:E;
      destruct (render_quiet _ _ _ _ _ E eq_refl) as (evs & -> & Hs)
    end; cbn [answers trace] in *.
    + exists (System (kill_command plat pid) :: evs).
      cbn [snd]. rewrite <- app_assoc. split; [reflexivity|].
      cbn [systems]. rewrite Hs. intros cmd [<-|[]]. reflexivity.
    + match goal with |- context [render w ?e ?s] =>
        destruct (render w e s) as [r st'] eqn:E';
        destruct (render_quiet _ _ _ _ _ E' eq_refl) as (evs' & -> & Hs')
      end; cbn [answers trace snd] in *.
      exists (System (kill_command plat pid) :: evs ++ evs')%list.
      rewrite <- !app_assoc. split; [reflexivity|].
      cbn [systems]. rewrite systems_app, Hs, Hs'.
      intros cmd [<-|[]]. reflexivity.
Qed.

Lemma kill_from_spec plat w procs st :
  exists evs,
    trace (snd (kill_from plat w procs st)) = (trace st ++ evs)%list
    /\ forall cmd,
         In cmd (systems evs) ->
         exists idx rest entry,
           answers st = idx :: rest
           /\ names_entry procs idx entry
           /\ cmd = kill_command plat (fst entry).
Proof.
  destruct st as [ans tr]. unfold kill_from, bind at 1, input.
  cbn [answers trace].
  destruct ans as [|idx rest].
  - eexists. split; [reflexivity|]. intros cmd [].
  - destruct (Py.isdigit idx) eqn:Hd.
    + unfold bind at 1, lift.
      destruct (Py.int idx) as [n|e] eqn:Hint.
      * destruct (int_isdigit_numeral _ _ Hd Hint) as (Hnum & Hn & _).
        destruct ((1 <=? n)%Z && (n <=? len procs)%Z) eqn:Hr.
        -- apply andb_true_iff in Hr as [H1 H2].
           apply Z.leb_le in H1. apply Z.leb_le in H2.
           destruct (nth_error procs (Z.to_nat (n - 1))) as [entry|] eqn:En.
           ++ unfold bind at 1.
              rewrite (getitem_nth procs (n - 1) entry ltac:(lia) En).
              match goal with |- context [kill_process plat w ?p ?s] =>
                destruct (kill_process_spec plat w p s) as (evs & Hk & Hcmd)
              end.
              rewrite Hk. cbn [answers trace].
              eexists. split; [rewrite <- !app_assoc; reflexivity|].
              cbn [app systems]. intros cmd Hin.
              exists idx, rest, entry. subst n.
              repeat split; try assumption; try lia.
              now apply Hcmd.
           ++ apply nth_error_None in En. unfold len in H2. lia.
        -- unfold ret. cbn [snd trace].
           eexists. split; [reflexivity|]. intros cmd [].
      * cbn [snd trace]. eexists. split; [reflexivity|]. intros cmd [].
    + unfold ret. cbn [snd trace].
      eexists. split; [reflexivity|]. intros cmd [].
Qed.

Lemma kill_dialogue_spec plat w cpu_list mem_list st :
  exists evs,
    trace (snd (kill_dialogue plat w cpu_list mem_list st))
    = (trace st ++ evs)%list
    /\ forall cmd,
         In cmd (systems evs) ->
         exists action idx rest procs entry,
           answers st = action :: idx :: rest
           /\ ((action = "1" /\ procs = cpu_list)
               \/ (action = "2" /\ procs = mem_list))
           /\ procs <> []
           /\ names_entry procs idx entry
           /\ cmd = kill_command plat (fst entry).
Proof.
  destruct st as [ans tr].
  unfold kill_dialogue, print.
  unfold bind at 1, emit. cbn [answers trace].
  unfold bind at 1. cbn [answers trace].
  unfold bind at 1. cbn [answers trace].
  unfold bind at 1. cbn [answers trace].
  unfold bind at 1, input. cbn [answers trace].
  destruct ans as [|action ans'].
  - cbn [snd trace]. eexists. split; [rewrite <- !app_assoc; reflexivity|].
    intros cmd [].
  - set (st1 := mkState ans' _).
    assert (Hkill : forall procs,
               ((action = "1" /\ procs = cpu_list)
                \/ (action = "2" /\ procs = mem_list)) ->
               nonempty procs = true ->
               exists evs,
                 trace (snd (kill_from plat w procs st1)) = (tr ++ evs)%list
                 /\ forall cmd,
                      In cmd (systems evs) ->
                      exists action0 idx rest procs0 entry,
                        action :: ans' = action0 :: idx :: rest
                        /\ ((action0 = "1" /\ procs0 = cpu_list)
                            \/ (action0 = "2" /\ procs0 = mem_list))
                        /\ procs0 <> []
                        /\ names_entry procs0 idx entry
                        /\ cmd = kill_command plat (fst entry)).
    { intros procs Hwhich Hne.
      destruct (kill_from_spec plat w procs st1) as (evs & Htr & Hcmd).
      rewrite Htr. unfold st1. cbn [trace].
      eexists. split; [rewrite <- !app_assoc; reflexivity|].
      intros cmd Hin. rewrite !systems_app in Hin. cbn [systems app] in Hin.
      destruct (Hcmd cmd Hin) as (idx & rest & entry & Hans & Hname & Hc).
      unfold st1 in Hans. cbn [answers] in Hans.
      exists action, idx, rest, procs, entry.
      split; [now rewrite Hans|]. split; [exact Hwhich|].
      split; [intros ->; discriminate|]. split; assumption. }
    destruct ((action =? "1") && nonempty cpu_list) eqn:E1.
    + apply andb_true_iff in E1 as [Ea Hne]. apply String.eqb_eq in Ea.
      exact (Hkill cpu_list (or_introl (conj Ea eq_refl)) Hne).
    + destruct ((action =? "2") && nonempty mem_list) eqn:E2.
      * apply andb_true_iff in E2 as [Ea Hne]. apply String.eqb_eq in Ea.
        exact (Hkill mem_list (or_intror (conj Ea eq_refl)) Hne).
      * unfold st1. cbn [snd trace answers].
        eexists. split; [rewrite <- !app_assoc; reflexivity|].
        intros cmd [].
Qed.

(** Cancelling, a text that is no number, a number out of range and a
    superscript digit kill nothing. *)
Lemma no_kill_examples :
  systems (snd (run (monitor_usage MacLike (echo_world ps_example)) ["3"]))
  = []
  /\ systems (snd (run (monitor_usage MacLike (echo_world ps_example))
                     ["1"; "first"])) = []
  /\ systems (snd (run (monitor_usage MacLike (echo_world ps_example))
                     ["2"; "3"])) = []
  /\ systems (snd (run (monitor_usage MacLike (echo_world ps_example))
                     ["1"; "0"])) = []
  /\ systems (snd (run (monitor_usage MacLike (echo_world ps_example))
                     ["1"; superscript_two])) = []
  /\ systems (snd (run (monitor_usage Other (echo_world ps_example))
                     ["1"; "1"])) = []
  /\ systems (snd (run (monitor_usage WindowsLike (echo_world ps_example))
                     ["2"; "2"])) = ["taskkill /PID 13 /F"].
Proof. vm_compute. repeat split. Qed.

(** C9. Whenever [monitor_usage] hands a command to [os.system] it is the
    kill command of [kill_process]: the action was 1 or 2, the list it
    designates (CPU or memory) was not empty, and the number entered was a
    numeral naming an entry within [1, length] of that list, whose pid
    is killed. For every other input no command is run. *)
Theorem kill_only_on_valid_choice :
  forall (plat : platform) (w : world) (replies : list string) (cmd : string),
    In cmd (systems (snd (run (monitor_usage plat w) replies))) ->
    exists action idx rest cpu_list mem_list procs entry,
      replies = action :: idx :: rest
      /\ listed_processes plat w replies = Some (cpu_list, mem_list)
      /\ ((action = "1" /\ procs = cpu_list)
          \/ (action = "2" /\ procs = mem_list))
      /\ procs <> []
      /\ is_numeral idx = true
      /\ (1 <= numeral_value idx <= len procs)%Z
      /\ nth_error procs (Z.to_nat (numeral_value idx - 1)) = Some entry
      /\ cmd = kill_command plat (fst entry).
Proof.
  intros plat w replies cmd.
  unfold run, listed_processes, monitor_usage, try_except.
  unfold bind at 1.
  destruct (usage_stats_quiet plat w (mkState replies []))
    as (stats & evs & Hst & Hsys).
  rewrite Hst. cbn [answers trace app].
  unfold bind at 1, lift.
  destruct (usage_lists plat (fst stats) (snd stats)) as [lists|e] eqn:El.
  - unfold bind at 1.
    set (cpu_list := fst (fst lists)). set (mem_list := fst (snd lists)).
    match goal with |- context [render w ?ev ?s] =>
      destruct (render w ev s) as [[[]|x] st1] eqn:Eshow;
      destruct (render_quiet _ _ _ _ _ Eshow eq_refl) as (evs1 & -> & Hs1)
    end; cbn [answers trace] in *.
    + match goal with |- context [kill_dialogue plat w _ _ ?s] =>
        set (st1 := s);
        destruct (kill_dialogue_spec plat w cpu_list mem_list st1)
          as (evs' & Htr & Hcmd)
      end.
      assert (Hin : In cmd (systems
                     (trace (snd (kill_dialogue plat w cpu_list mem_list st1)))) ->
                    In cmd (systems evs')).
      { rewrite Htr. unfold st1. cbn [trace].
        rewrite !systems_app, Hsys, Hs1. cbn [systems app]. tauto. }
      intros H.
      assert (H' : In cmd (systems evs')).
      { apply Hin.
        destruct (kill_dialogue plat w cpu_list mem_list st1) as [[[]|e] st2].
        - exact H.
        - match type of H with context [render w ?ev ?s] =>
            destruct (render w ev s) as [r st3] eqn:Eh;
            destruct (render_quiet _ _ _ _ _ Eh eq_refl) as (evs3 & -> & Hs3)
          end.
          cbn [snd trace] in *.
          rewrite systems_app, Hs3 in H. now rewrite app_nil_r in H. }
      destruct (Hcmd cmd H')
        as (action & idx & rest & procs & entry & Hans & Hw & Hne & Hname & Hc).
      unfold st1 in Hans. cbn [answers] in Hans.
      destruct Hname as (Hnum & Hrange & Hnth).
      exists action, idx, rest, cpu_list, mem_list, procs, entry.
      repeat split; try assumption; lia.
    + match goal with |- context [render w ?ev ?s] =>
        destruct (render w ev s) as [r st3] eqn:Eh;
        destruct (render_quiet _ _ _ _ _ Eh eq_refl) as (evs3 & -> & Hs3)
      end.
      cbn [snd trace].
      rewrite !systems_app, Hsys, Hs1, Hs3. intros [].
  - match goal with |- context [render w ?ev ?s] =>
      destruct (render w ev s) as [r st3] eqn:Eh;
      destruct (render_quiet _ _ _ _ _ Eh eq_refl) as (evs3 & -> & Hs3)
    end.
    cbn [snd trace].
    rewrite systems_app, Hsys, Hs3. intros [].
Qed.

(** The second entry of the CPU list is killed. *)
Lemma kill_only_on_valid_choice_witness :
  exists action idx rest cpu_list mem_list procs entry,
    ["1"; "2"] = action :: idx :: rest
    /\ listed_processes MacLike (echo_world ps_example) ["1"; "2"]
       = Some (cpu_list, mem_list)
    /\ ((action = "1" /\ procs = cpu_list)
        \/ (action = "2" /\ procs = mem_list))
    /\ procs <> []
    /\ is_numeral idx = true
    /\ (1 <= numeral_value idx <= len procs)%Z
    /\ nth_error procs (Z.to_nat (numeral_value idx - 1)) = Some entry
    /\ "kill -9 13" = kill_command MacLike (fst entry).
Proof.
  apply (kill_only_on_valid_choice MacLike (echo_world ps_example)
           ["1"; "2"] "kill -9 13").
  vm_compute. left. reflexivity.
Defined.

(** * What a computation adds to the trace *)

Lemma adds_ret {A} p (a : A) : adds p (ret a).
Proof.
  intros st. exists [], []. cbn. rewrite app_nil_r. repeat split.
Qed.

Lemma adds_raise {A} p e : adds p (@raise A e).
Proof.
  intros st. exists [], []. cbn. rewrite app_nil_r. repeat split.
Qed.

Lemma adds_lift {A} p (r : result A) : adds p (lift r).
Proof.
  intros st. exists [], []. cbn. rewrite app_nil_r. repeat split.
Qed.

Lemma adds_after {A B} p (m : M A) (k : A -> M B) (h : exn -> M B) :
  adds p m ->
  (forall a, adds p (k a)) ->
  (forall e, adds p (h e)) ->
  adds p (fun st => match m st with
                    | (Ok a, st') => k a st'
                    | (Raise e, st') => h e st'
                    end).
Proof.
  intros Hm Hk Hh st.
  destruct (Hm st) as (evs1 & used1 & Ht1 & Hp1 & Ha1).
  destruct (m st) as [[a|e] st1]; cbn [snd] in *.
  - destruct (Hk a st1) as (evs2 & used2 & Ht2 & Hp2 & Ha2).
    exists (evs1 ++ evs2)%list, (used1 ++ used2)%list.
    rewrite Ht2, Ht1, forallb_app, Hp1, Hp2, <- !app_assoc.
    repeat split. rewrite Ha1 at 1. now rewrite Ha2 at 1.
  - destruct (Hh e st1) as (evs2 & used2 & Ht2 & Hp2 & Ha2).
    exists (evs1 ++ evs2)%list, (used1 ++ used2)%list.
    rewrite Ht2, Ht1, forallb_app, Hp1, Hp2, <- !app_assoc.
    repeat split. rewrite Ha1 at 1. now rewrite Ha2 at 1.
Qed.

Lemma adds_bind {A B} p (m : M A) (k : A -> M B) :
  adds p m -> (forall a, adds p (k a)) -> adds p (bind m k).
Proof.
  intros Hm Hk.
  exact (adds_after p m k (fun e => raise e) Hm Hk (fun e => adds_raise p e)).
Qed.

Lemma adds_try_except {A} p (body : M A) (handler : exn -> M A) :
  adds p body -> (forall e, adds p (handler e)) ->
  adds p (try_except body handler).
Proof.
  intros Hb Hh.
  exact (adds_after p body (fun a => ret a) handler Hb
           (fun a => adds_ret p a) Hh).
Qed.

Lemma adds_emit p e : p e = true -> adds p (emit e).
Proof.
  intros He st. exists [e], []. cbn. rewrite He. repeat split.
Qed.

Lemma adds_render p w e : p e = true -> adds p (render w e).
Proof.
  intros He st. unfold render.
  destruct (console_raises w e).
  - exists [], []. cbn. rewrite app_nil_r. repeat split.
  - now apply adds_emit.
Qed.

Lemma adds_input p prompt : p (Prompt prompt) = true -> adds p (input prompt).
Proof.
  intros He st. unfold input. destruct (answers st) as [|a rest] eqn:E.
  - exists [Prompt prompt], []. cbn. rewrite He. repeat split.
  - exists [Prompt prompt], [a]. cbn. rewrite He. repeat split.
Qed.

Lemma adds_spawn p w command :
  p (Spawn command) = true -> adds p (spawn w command).
Proof.
  intros He st. unfold spawn.
  exists [Spawn command], [].
  destruct (subprocess_run w (trace st) command); cbn; rewrite He;
    repeat split.
Qed.

Lemma adds_popen p w command :
  p (Popen command) = true -> adds p (popen w command).
Proof.
  intros He st. unfold popen.
  exists [Popen command], []. cbn. rewrite He. repeat split.
Qed.

Lemma adds_system p command :
  p (System command) = true -> adds p (system command).
Proof.
  intros He. unfold system.
  destruct (embedded_null command); [apply adds_raise | now apply adds_emit].
Qed.

Lemma adds_for_each {A} p (f : A -> M unit) l :
  (forall x, In x l -> adds p (f x)) -> adds p (for_each f l).
Proof.
  induction l as [|x l IH]; intros H; cbn [for_each].
  - apply adds_ret.
  - apply adds_bind; [apply H; now left|].
    intros _. apply IH. intros y Hy. apply H. now right.
Qed.

Lemma adds_fold_each {A S} p (f : S -> A -> M S) l : forall s,
  (forall s x, In x l -> adds p (f s x)) -> adds p (fold_each f s l).
Proof.
  induction l as [|x l IH]; intros s H; cbn [fold_each].
  - apply adds_ret.
  - apply adds_bind; [apply H; now left|].
    intros s'. apply IH. intros s0 y Hy. apply H. now right.
Qed.

Lemma adds_when p b m : adds p m -> adds p (when b m).
Proof. intros H. destruct b; [exact H | apply adds_ret]. Qed.

(** A weaker condition on the events is met as well. *)
Lemma adds_weaken {A} (p q : event -> bool) (m : M A) :
  (forall e, p e = true -> q e = true) -> adds p m -> adds q m.
Proof.
  intros Hpq Hm st. destruct (Hm st) as (evs & used & Ht & Hp & Ha).
  exists evs, used. repeat split; try assumption.
  rewrite forallb_forall in *. auto.
Qed.

(** Reading the result of [run]. *)
Lemma adds_run {A} p (m : M A) replies :
  adds p m ->
  forallb p (snd (run m replies)) = true.
Proof.
  intros Hm. unfold run.
  destruct (Hm (mkState replies [])) as (evs & used & Ht & Hp & _).
  destruct (m (mkState replies [])) as [r st]. cbn [snd trace] in *.
  now rewrite Ht.
Qed.

Lemma systems_no_system evs : forallb no_system evs = true -> systems evs = [].
Proof.
  induction evs as [|e evs IH]; [reflexivity|].
  cbn [forallb]. intros H. apply andb_true_iff in H as [He Hevs].
  destruct e; try discriminate He; cbn [systems]; auto.
Qed.

Lemma systems_only allowed evs :
  forallb (system_only allowed) evs = true ->
  forallb allowed (systems evs) = true.
Proof.
  induction evs as [|e evs IH]; [reflexivity|].
  cbn [forallb]. intros H. apply andb_true_iff in H as [He Hevs].
  destruct e; cbn [systems forallb]; auto.
  cbn [system_only] in He. now rewrite He, IH.
Qed.

(** One step through the structure of a computation. *)
Ltac adds_step :=
  first
    [ apply adds_ret
    | apply adds_raise
    | apply adds_lift
    | apply adds_emit; reflexivity
    | apply adds_render; reflexivity
    | apply adds_input; reflexivity
    | apply adds_spawn; reflexivity
    | apply adds_popen; reflexivity
    | apply adds_system; reflexivity
    | apply adds_when
    | apply adds_bind; [|intros ?]
    | apply adds_try_except; [|intros ?]
    | match goal with
      | |- adds _ (if ?b then _ else _) => destruct b
      | |- adds _ (match ?x with _ => _ end) => destruct x
      end ].

Lemma run_command_adds p w command :
  p (Spawn command) = true ->
  (forall e, p (LogError ("Error running command " ++ command ++ ": ") e)
             = true) ->
  adds p (run_command w command).
Proof.
  intros Hs Hl. unfold run_command.
  apply adds_try_except.
  - apply adds_bind; [now apply adds_spawn | intros; apply adds_ret].
  - intros e. apply adds_bind; [apply adds_emit, Hl | intros; apply adds_ret].
Qed.

(** * More about the command executor and the battery probe *)

Lemma rstrip_idempotent p s :
  Py.rstrip_by p (Py.rstrip_by p s) = Py.rstrip_by p s.
Proof.
  induction s as [|c s IH]; [reflexivity|].
  cbn [Py.rstrip_by].
  destruct (Py.rstrip_by p s) as [|d r] eqn:E.
  - destruct (p c) eqn:Ec; [reflexivity|]. simpl. now rewrite Ec.
  - cbn [Py.rstrip_by]. cbn [Py.rstrip_by] in IH.
    destruct (Py.rstrip_by p r) as [|d' r'] eqn:E'.
    + destruct (p d) eqn:Ed; [discriminate|].
      inversion IH; subst. reflexivity.
    + inversion IH; subst. reflexivity.
Qed.

Lemma rstrip_keeps_head p c s :
  p c = false -> exists t, Py.rstrip_by p (String c s) = String c t.
Proof.
  intros Hc. cbn [Py.rstrip_by]. rewrite Hc.
  destruct (Py.rstrip_by p s); eauto.
Qed.

Lemma lstrip_head p s :
  Py.lstrip_by p s = EmptyString
  \/ exists c t, Py.lstrip_by p s = String c t /\ p c = false.
Proof.
  induction s as [|c s IH]; [now left|].
  cbn [Py.lstrip_by]. destruct (p c) eqn:E; [exact IH|].
  right. now exists c, s.
Qed.

Lemma strip_idempotent s : Py.strip (Py.strip s) = Py.strip s.
Proof.
  unfold Py.strip.
  destruct (lstrip_head Py.isspace_chr s) as [H|(c & t & H & Hc)].
  - rewrite H. reflexivity.
  - rewrite H.
    destruct (rstrip_keeps_head Py.isspace_chr c t Hc) as [t' Ht].
    rewrite Ht. cbn [Py.lstrip_by]. rewrite Hc, <- Ht.
    apply rstrip_idempotent.
Qed.

(** X1. Whatever the command prints, the text [run_command] returns has
    no white space at either end: stripping it again changes nothing,
    and it is empty when the output was blank. *)
Theorem run_command_output_stripped :
  forall (w : world) (command : string) (st : state) (out : string),
    fst (run_command w command st) = Ok (Some out) ->
    Py.strip out = out
    /\ (forall c rest, out = String c rest -> Py.isspace_chr c = false).
Proof.
  intros w command st out.
  unfold run_command, try_except, bind, spawn, ret, emit.
  destruct (subprocess_run w (trace st) command) as [rc printed|e|e];
    cbn [fst]; intros H; inversion H; subst; clear H.
  split; [apply strip_idempotent|].
  intros c rest Hout. unfold Py.strip in Hout.
  destruct (lstrip_head Py.isspace_chr printed) as [H|(d & t & H & Hd)];
    rewrite H in Hout.
  - discriminate.
  - destruct (rstrip_keeps_head Py.isspace_chr d t Hd) as [t' Ht].
    rewrite Ht in Hout. now inversion Hout; subst.
Qed.

(** A command that prints a padded line. *)
Lemma run_command_output_stripped_witness :
  Py.strip "up 3 days" = "up 3 days"
  /\ (forall c rest, "up 3 days" = String c rest -> Py.isspace_chr c = false).
Proof.
  exact (run_command_output_stripped (echo_world "  up 3 days  ") "uptime"
           (mkState [] []) "up 3 days" eq_refl).
Defined.







(** X3. On MacLike, when both registry pipelines run and the maximum
    reading is blank or the design line does not hold the pattern, the
    probe answers N/A, having run the two pipelines and nothing else. *)
Theorem battery_health_guard :
  forall (w : world) (st : state) (rc1 rc2 : Z) (max_out design_out : string),
    subprocess_run w (trace st) max_capacity_command
    = Completed rc1 max_out ->
    subprocess_run w (trace st ++ [Spawn max_capacity_command])
      design_capacity_command
    = Completed rc2 design_out ->
    Py.truthy (Py.strip max_out) = false
    \/ Py.search_digits_after design_capacity_pattern (Py.strip design_out)
       = None ->
    get_battery_health MacLike w st
    = (Ok "N/A",
       mkState (answers st)
         (trace st ++ [Spawn max_capacity_command;
                       Spawn design_capacity_command])).
Proof.
  intros w st rc1 rc2 max_out design_out H1 H2 Hguard.
  unfold get_battery_health. cbn [IS_MAC].
  unfold bind at 1, run_command at 1, try_except, bind at 1, spawn, ret.
  fold max_capacity_command. rewrite H1. cbn [answers trace].
  unfold bind at 1, run_command at 1, try_except, bind at 1, spawn, ret.
  fold design_capacity_command. cbn [answers trace]. rewrite H2.
  unfold bind at 1, lift, re_search. cbn [answers trace].
  rewrite <- app_assoc. cbn [app].
  destruct Hguard as [Hblank|Hnone].
  - destruct (Py.strip max_out); [|discriminate].
    now destruct (Py.search_digits_after design_capacity_pattern
                    (Py.strip design_out)).
  - rewrite Hnone. now destruct (Py.strip max_out).
Qed.

(** A machine without battery: both pipelines print nothing. *)
Lemma battery_health_guard_witness :
  get_battery_health MacLike exit_one_world (mkState [] [])
  = (Ok "N/A",
     mkState [] [Spawn max_capacity_command; Spawn design_capacity_command]).
Proof.
  exact (battery_health_guard exit_one_world (mkState [] []) 1 1
           EmptyString EmptyString eq_refl eq_refl (or_introl eq_refl)).
Defined.

(** * More about the package listings *)

(** X4. A [brew outdated] listing that holds one package per line (no
    blank line, no line boundary inside a name) is parsed back to exactly
    those names in order; an absent or empty result gives no package. *)
Theorem parse_brew_round_trip :
  forall (names : list string),
    forallb one_line names = true ->
    forallb Py.truthy names = true ->
    parse_brew (Some (listing names)) = names
    /\ parse_brew None = []
    /\ parse_brew (Some EmptyString) = [].
Proof.
  intros names Hone Hne. repeat split.
  unfold parse_brew.
  destruct names as [|name rest]; [reflexivity|].
  assert (Hlines : Py.splitlines (listing (name :: rest)) = name :: rest).
  { apply splitlines_listing; [exact Hone| |].
    - simpl in Hne. apply andb_true_iff in Hne as [_ Hne]. exact Hne.
    - intros E. inversion E; subst. discriminate. }
  rewrite Hlines.
  destruct (listing (name :: rest)) eqn:E; [|reflexivity].
  simpl in Hne. apply andb_true_iff in Hne as [Hname _].
  unfold listing in E. simpl in E.
  destruct rest; destruct name; simpl in *; discriminate.
Qed.

(** Three outdated formulae. *)
Lemma parse_brew_round_trip_witness :
  parse_brew (Some (listing ["git"; "node@20"; "wget"]))
  = ["git"; "node@20"; "wget"]
  /\ parse_brew None = []
  /\ parse_brew (Some EmptyString) = [].
Proof.
  exact (parse_brew_round_trip ["git"; "node@20"; "wget"] eq_refl eq_refl).
Defined.

Lemma push_token_clean tok rest :
  Py.all_chr (fun c => negb (Py.isspace_chr c)) tok = true ->
  forallb clean_token rest = true ->
  forallb clean_token (Py.push_token tok rest) = true.
Proof.
  intros Htok Hrest. unfold Py.push_token.
  destruct (Py.truthy tok) eqn:E; [|exact Hrest].
  cbn [forallb]. unfold clean_token at 1. now rewrite E, Htok, Hrest.
Qed.

Lemma ws_scan_clean_tokens s :
  Py.all_chr (fun c => negb (Py.isspace_chr c)) (fst (Py.ws_scan s)) = true
  /\ forallb clean_token (snd (Py.ws_scan s)) = true.
Proof.
  induction s as [|c s [IH1 IH2]]; [now split|].
  cbn [Py.ws_scan]. destruct (Py.ws_scan s) as [tok rest].
  cbn [fst snd] in *.
  destruct (Py.isspace_chr c) eqn:E; cbn [fst snd].
  - split; [reflexivity|]. now apply push_token_clean.
  - split; [|exact IH2]. cbn [Py.all_chr]. now rewrite E, IH1.
Qed.

(** The tokens of [str.split] are non-empty and hold no white space. *)
Lemma split_tokens_clean s : forallb clean_token (Py.split s) = true.
Proof.
  unfold Py.split. destruct (ws_scan_clean_tokens s) as [H1 H2].
  destruct (Py.ws_scan s) as [tok rest]. now apply push_token_clean.
Qed.

Lemma first_tokens_clean lines :
  forallb clean_token (first_tokens lines) = true
  /\ List.length (first_tokens lines) = List.length (filter nonblank lines).
Proof.
  unfold first_tokens, nonblank.
  induction lines as [|l rest [IH1 IH2]]; [now split|].
  cbn [flat_map filter]. rewrite nonblank_has_token.
  pose proof (split_tokens_clean l) as Hl.
  destruct (Py.split l) as [|tok toks]; cbn [nonempty app].
  - now split.
  - cbn [forallb] in Hl. apply andb_true_iff in Hl as [Htok _].
    cbn [forallb List.length]. rewrite Htok, IH1, IH2. now split.
Qed.

(** X5. Whatever the choco listing, the parser raises nothing; it yields
    one name for each non-blank line after the first, and every name is
    non-empty and free of white space. *)
Theorem parse_choco_names_clean :
  forall (choco_outdated : option string),
    exists names,
      parse_choco choco_outdated = Ok names
      /\ forallb clean_token names = true
      /\ List.length names
         = match choco_outdated with
           | Some out =>
               List.length
                 (filter nonblank (slice_from 1 (Py.splitlines out)))
           | None => 0%nat
           end.
Proof.
  intros [out|]; [|now exists []].
  exists (first_tokens (slice_from 1 (Py.splitlines out))).
  split; [apply parse_choco_first_tokens|].
  apply first_tokens_clean.
Qed.





Lemma two_clean_is_clean_row row :
  two_clean_tokens row = true -> clean_row row = true.
Proof.
  unfold two_clean_tokens, clean_row. intros H.
  apply andb_true_iff in H as [Hlen Hall]. rewrite Hall.
  destruct row; [discriminate|reflexivity].
Qed.

Lemma second_tokens_rows rows :
  forallb two_clean_tokens rows = true ->
  second_tokens (map data_line rows) = map second_of rows
  /\ forallb no_single_token (map data_line rows) = true.
Proof.
  induction rows as [|row rest IH]; [now split|].
  cbn [forallb]. intros H. apply andb_true_iff in H as [Hrow Hrest].
  destruct (IH Hrest) as [IH1 IH2].
  unfold second_tokens in *. cbn [map flat_map forallb].
  unfold no_single_token at 1.
  pose proof Hrow as Hrow'. unfold two_clean_tokens in Hrow'.
  apply andb_true_iff in Hrow' as [Hlen Hall].
  rewrite (split_data_line _ Hall), IH1, IH2.
  destruct row as [|a [|b row]]; try discriminate. now split.
Qed.

(** X7. A winget listing written as a header line that starts with
    [Name] followed by rows of at least two space-separated tokens is
    parsed back to the second token (the identifier) of each row, in
    order. *)
Theorem parse_winget_round_trip :
  forall (header : string) (rows : list (list string)),
    one_line header = true ->
    not_header header = false ->
    forallb two_clean_tokens rows = true ->
    parse_winget (Some (listing (header :: map data_line rows)))
    = Ok (map second_of rows).
Proof.
  intros header rows Hone Hhdr Hrows.
  assert (Hclean : forallb clean_row rows = true).
  { clear - Hrows. induction rows as [|row rest IH]; [reflexivity|].
    cbn [forallb] in *. apply andb_true_iff in Hrows as [H1 H2].
    now rewrite (two_clean_is_clean_row _ H1), IH. }
  destruct (second_tokens_rows rows Hrows) as [Hsecond Hno].
  destruct rows as [|row rest].
  - unfold parse_winget. cbn [map].
    unfold listing. cbn [String.concat].
    assert (Hne : Py.truthy header = true).
    { destruct header; [|reflexivity]. vm_compute in Hhdr. discriminate. }
    now rewrite (splitlines_last _ Hone Hne).
  - rewrite <- Hsecond.
    apply (parse_winget_after_header _ [] header (map data_line (row :: rest))).
    + cbn [app]. apply splitlines_listing.
      * cbn [forallb]. rewrite Hone. exact (rows_one_line _ Hclean).
      * exact (rows_truthy _ Hclean).
      * discriminate.
    + reflexivity.
    + reflexivity.
    + exact Hhdr.
    + exact Hno.
Qed.

(** Two upgrades under the usual header. *)
Lemma parse_winget_round_trip_witness :
  parse_winget
    (Some (listing ["Name Id Version Available";
                    "Git Git.Git 2.43 2.44"; "Node OpenJS.NodeJS 20 22"]))
  = Ok ["Git.Git"; "OpenJS.NodeJS"].
Proof.
  exact (parse_winget_round_trip "Name Id Version Available"
           [["Git"; "Git.Git"; "2.43"; "2.44"];
            ["Node"; "OpenJS.NodeJS"; "20"; "22"]]
           eq_refl eq_refl eq_refl).
Defined.

(** * More about the process listings *)

Lemma getitem_split_clean line k tok :
  getitem (Py.split line) k = Ok tok -> clean_token tok = true.
Proof.
  intros H. apply getitem_In in H.
  pose proof (split_tokens_clean line) as Hall.
  rewrite forallb_forall in Hall. now apply Hall.
Qed.

Lemma mac_row_shape metric : row_shape (mac_process_line metric).
Proof.
  intros idx line p row. unfold mac_process_line. cbv zeta.
  destruct (10 <? List.length (Py.split line))%nat; [|discriminate].
  destruct (getitem (Py.split line) 1) as [pid|] eqn:E1; [|discriminate].
  destruct (getitem (Py.split line) 10) as [label|] eqn:E2; [|discriminate].
  destruct (getitem (Py.split line) metric) as [shown|]; [|discriminate].
  cbn [rbind]. intros H; inversion H; subst. split.
  - unfold clean_proc. cbn [fst snd].
    now rewrite (getitem_split_clean _ _ _ E1), (getitem_split_clean _ _ _ E2).
  - now exists shown.
Qed.

Lemma win_row_shape : row_shape win_process_line.
Proof.
  intros idx line p row. unfold win_process_line. cbv zeta.
  destruct (3 <=? List.length (Py.split line))%nat; cbn [rbind];
    [|discriminate].
  destruct (getitem (Py.split line) 1) as [pid|] eqn:E1; [|discriminate].
  cbn [rbind]. destruct (Py.isdigit pid); [|discriminate].
  destruct (getitem (Py.split line) 0) as [label|] eqn:E0; [|discriminate].
  destruct (getitem (Py.split line) 2) as [shown|]; [|discriminate].
  cbn [rbind]. intros H; inversion H; subst. split.
  - unfold clean_proc. cbn [fst snd].
    now rewrite (getitem_split_clean _ _ _ E1), (getitem_split_clean _ _ _ E0).
  - now exists shown.
Qed.

Lemma win_row_pid idx line p row :
  win_process_line idx line = Ok (Some (p, row)) -> Py.isdigit (fst p) = true.
Proof.
  unfold win_process_line. cbv zeta.
  destruct (3 <=? List.length (Py.split line))%nat; cbn [rbind];
    [|discriminate].
  destruct (getitem (Py.split line) 1) as [pid|]; [|discriminate].
  cbn [rbind]. destruct (Py.isdigit pid) eqn:E; [|discriminate].
  destruct (getitem (Py.split line) 0) as [label|]; [|discriminate].
  destruct (getitem (Py.split line) 2) as [shown|]; [|discriminate].
  cbn [rbind]. intros H; inversion H; subst. exact E.
Qed.

Lemma process_lines_cons body idx line rest procs rows :
  process_lines body idx (line :: rest) = Ok (procs, rows) ->
  exists r procs' rows',
    body idx line = Ok r
    /\ process_lines body (S idx) rest = Ok (procs', rows')
    /\ (procs, rows)
       = match r with
         | Some (p, row) => (p :: procs', row :: rows')
         | None => (procs', rows')
         end.
Proof.
  cbn [process_lines].
  destruct (body idx line) as [r|]; [|discriminate]. cbn [rbind].
  destruct (process_lines body (S idx) rest) as [[procs' rows']|];
    [|discriminate].
  cbn [rbind fst snd]. intros H. exists r, procs', rows'.
  repeat split. inversion H. now destruct r as [[p row]|].
Qed.

Lemma process_lines_rows body :
  row_shape body ->
  forall lines idx procs rows,
    process_lines body idx lines = Ok (procs, rows) ->
    map record_of rows = procs
    /\ (List.length procs <= List.length lines)%nat
    /\ forallb clean_proc procs = true
    /\ (forall k row,
          nth_error rows k = Some row ->
          exists j,
            (k <= j < List.length lines)%nat
            /\ hd EmptyString row = Py.str_nat (idx + j + 1))
    /\ (List.length procs = List.length lines ->
        forall k row,
          nth_error rows k = Some row ->
          hd EmptyString row = Py.str_nat (idx + k + 1)).
Proof.
  intros Hshape. induction lines as [|line rest IH]; intros idx procs rows H.
  - inversion H; subst. repeat split; try reflexivity.
    + intros [|k] row Hk; discriminate.
    + intros _ [|k] row Hk; discriminate.
  - destruct (process_lines_cons _ _ _ _ _ _ H)
      as (r & procs' & rows' & Hbody & Hrest & Heq).
    destruct (IH _ _ _ Hrest) as (Hmap & Hlen & Hclean & Hnum & Hfull).
    destruct r as [[p row]|]; injection Heq as Hprocs Hrows;
      subst procs rows.
    + destruct (Hshape _ _ _ _ Hbody) as [Hp [shown Hrow]]. subst row.
      split; [|split; [|split; [|split]]].
      * cbn [map]. unfold record_of at 1. cbn [nth]. rewrite Hmap.
        now destruct p.
      * cbn [List.length]. lia.
      * cbn [forallb]. now rewrite Hp.
      * intros [|k] row Hk; cbn [nth_error] in Hk.
        -- inversion Hk; subst. exists 0%nat. cbn [List.length hd].
           split; [lia|]. f_equal. lia.
        -- destruct (Hnum k row Hk) as [j [Hj Hhd]].
           exists (S j). cbn [List.length]. split; [lia|].
           rewrite Hhd. f_equal. lia.
      * cbn [List.length]. intros Hall [|k] row Hk; cbn [nth_error] in Hk.
        -- inversion Hk; subst. cbn [hd]. f_equal. lia.
        -- rewrite (Hfull ltac:(lia) k row Hk). f_equal. lia.
    + split; [exact Hmap|]. split; [cbn [List.length]; lia|].
      split; [exact Hclean|]. split.
      * intros k row Hk. destruct (Hnum k row Hk) as [j [Hj Hhd]].
        exists (S j). cbn [List.length]. split; [lia|].
        rewrite Hhd. f_equal. lia.
      * cbn [List.length]. intros Hall. lia.
Qed.

Lemma process_lines_win_pids : forall lines idx procs rows,
  process_lines win_process_line idx lines = Ok (procs, rows) ->
  forallb (fun p => Py.isdigit (fst p)) procs = true.
Proof.
  induction lines as [|line rest IH]; intros idx procs rows H.
  - now inversion H.
  - destruct (process_lines_cons _ _ _ _ _ _ H)
      as (r & procs' & rows' & Hbody & Hrest & Heq).
    destruct r as [[p row]|]; injection Heq as Hprocs Hrows;
      subst procs rows.
    + cbn [forallb]. now rewrite (win_row_pid _ _ _ _ Hbody), (IH _ _ _ Hrest).
    + exact (IH _ _ _ Hrest).
Qed.

Lemma usage_parser_shape body : usage_parser body -> row_shape body.
Proof.
  intros [H|[H|H]]; subst; [apply mac_row_shape | apply mac_row_shape
                            | apply win_row_shape].
Qed.

Lemma usage_parser_total body out :
  usage_parser body ->
  exists procs rows, parse_processes body (Some out) = Ok (procs, rows).
Proof.
  intros Hb. unfold parse_processes.
  assert (H : is_ok (process_lines body 0 (Py.splitlines out)) = true).
  { apply process_lines_total. intros idx line.
    destruct Hb as [H|[H|H]]; subst.
    - apply mac_process_line_total. now left.
    - apply mac_process_line_total. now right.
    - apply win_process_line_total. }
  destruct (process_lines body 0 (Py.splitlines out)) as [[procs rows]|];
    [eauto|discriminate].
Qed.

(** X8. Whatever a process listing holds, the CPU and memory parsers of
    both platforms raise nothing and drop the lines they do not accept.
    Each table row shows the pid and the label of the record at the same
    position of the list; pids and labels are non-empty and free of white
    space, and on WindowsLike every pid is made of digits. *)
Theorem process_rows_match_records :
  forall body (out : string),
    usage_parser body ->
    exists procs rows,
      parse_processes body (Some out) = Ok (procs, rows)
      /\ map record_of rows = procs
      /\ (List.length procs <= List.length (Py.splitlines out))%nat
      /\ forallb clean_proc procs = true
      /\ (body = win_process_line ->
          forallb (fun p => Py.isdigit (fst p)) procs = true).
Proof.
  intros body out Hb.
  destruct (usage_parser_total body out Hb) as (procs & rows & H).
  exists procs, rows. split; [exact H|].
  unfold parse_processes in H.
  destruct (process_lines_rows body (usage_parser_shape _ Hb) _ _ _ _ H)
    as (Hmap & Hlen & Hclean & _).
  repeat split; try assumption.
  intros ->. exact (process_lines_win_pids _ _ _ _ H).
Qed.

(** The example listing read by the memory parser of MacLike. *)
Lemma process_rows_match_records_witness :
  exists procs rows,
    parse_processes (mac_process_line 3) (Some ps_example) = Ok (procs, rows)
    /\ map record_of rows = procs
    /\ (List.length procs <= List.length (Py.splitlines ps_example))%nat
    /\ forallb clean_proc procs = true
    /\ (mac_process_line 3 = win_process_line ->
        forallb (fun p => Py.isdigit (fst p)) procs = true).
Proof.
  exact (process_rows_match_records (mac_process_line 3) ps_example
           (or_intror (or_introl eq_refl))).
Defined.



(** * More about killing a process *)

Lemma int_numeral_too_long t :
  is_numeral t = true ->
  (N.of_nat (String.length t) <=? Py.max_str_digits)%N = false ->
  exists e, Py.int t = Raise e.
Proof.
  intros Hnum Hlen.
  destruct (Py.int t) as [n|e] eqn:E; [|now exists e].
  destruct (int_isdigit_numeral _ _ (numeral_isdigit _ Hnum) E)
    as (_ & _ & H).
  congruence.
Qed.







(** * The listing that cannot be read *)




(** * What [clear_cache] deletes *)

Lemma among_In l command : In command l -> among l command = true.
Proof.
  intros H. unfold among. apply existsb_exists. exists command.
  split; [exact H | apply String.eqb_refl].
Qed.


Lemma get_cache_size_adds p plat w path :
  (forall command, p (Popen command) = true) ->
  adds p (get_cache_size plat w path).
Proof.
  intros Hp. unfold get_cache_size.
  repeat first [ apply adds_popen, Hp | adds_step ].
Qed.

Lemma clear_browser_cache_adds p plat w :
  (forall command, p (Popen command) = true) ->
  (forall text, p (Print text) = true) ->
  (forall before e after, p (PrintExn before e after) = true) ->
  (forall entry,
     In entry (browser_cache_paths plat w) ->
     p (System (browser_deletion plat w entry)) = true) ->
  adds p (clear_browser_cache plat w).
Proof.
  intros Hpopen Hprint Hexn Hdel. unfold clear_browser_cache.
  apply adds_for_each. intros entry Hin. cbv zeta.
  apply adds_try_except.
  - apply adds_bind; [now apply get_cache_size_adds | intros size_before].
    apply adds_bind; [apply adds_render, Hprint | intros _].
    apply adds_bind; [apply adds_system, (Hdel entry Hin) | intros _].
    apply adds_bind; [now apply get_cache_size_adds | intros size_after].
    apply adds_render, Hprint.
  - intros e. apply adds_render, Hexn.
Qed.

Lemma du_megabytes_adds p plat w path :
  (forall command, p (Spawn command) = true) ->
  (forall text e, p (LogError text e) = true) ->
  adds p (du_megabytes plat w path).
Proof.
  intros Hs Hl. unfold du_megabytes.
  destruct (IS_MAC plat); [|apply adds_ret].
  apply run_command_adds; [apply Hs | intros; apply Hl].
Qed.

Lemma deletes_cache_browser plat w path entry :
  In path (cache_paths plat w) ->
  In entry (browser_cache_paths plat w) ->
  deletes_cache plat w (System (browser_deletion plat w entry)) = true.
Proof.
  intros Hpath Hentry. unfold deletes_cache. cbn [system_only no_prompt].
  rewrite andb_true_r. apply among_In. unfold cache_deletions.
  apply in_flat_map. exists path. split; [exact Hpath|].
  right. now apply in_map.
Qed.

Lemma clear_one_path_adds plat w total path :
  In path (cache_paths plat w) ->
  adds (deletes_cache plat w) (clear_one_path plat w total path).
Proof.
  intros Hpath. unfold clear_one_path. cbv zeta.
  apply adds_bind; [apply du_megabytes_adds; reflexivity | intros before].
  apply adds_bind.
  { apply adds_system. unfold deletes_cache. cbn [system_only no_prompt].
    rewrite andb_true_r. apply among_In. unfold cache_deletions.
    apply in_flat_map. exists path. split; [exact Hpath | now left]. }
  intros _.
  apply adds_bind.
  { apply clear_browser_cache_adds; try reflexivity.
    intros entry Hentry. now apply (deletes_cache_browser plat w path). }
  intros _.
  apply adds_bind; [apply du_megabytes_adds; reflexivity | intros after].
  repeat adds_step.
Qed.

Lemma clear_cache_adds plat w :
  adds (deletes_cache plat w) (clear_cache plat w).
Proof.
  unfold clear_cache. apply adds_try_except.
  - apply adds_bind; [apply adds_emit; reflexivity | intros _].
    apply adds_bind; [|intros; apply adds_ret].
    apply adds_fold_each. intros total path Hpath.
    now apply clear_one_path_adds.
  - intros e. apply adds_render. reflexivity.
Qed.




(** * More about the selection *)

Lemma systems_upgrade_events d pkgs :
  systems (upgrade_events d pkgs) = map (one_command d) pkgs.
Proof.
  unfold upgrade_events. induction pkgs as [|pkg rest IH]; [reflexivity|].
  cbn [flat_map app systems map]. now rewrite IH.
Qed.






Lemma selection_chr_facts c :
  selection_chr c = true ->
  Py.isspace_chr c = false /\ Py.lower_chr c = c
  /\ Ascii.eqb c "a" = false /\ Ascii.eqb c "n" = false.
Proof.
  destruct c as [[] [] [] [] [] [] [] []]; vm_compute;
    intros H; try discriminate H; repeat split.
Qed.

Lemma written_selection_chrs indices :
  Py.all_chr selection_chr (written_selection indices) = true.
Proof.
  unfold written_selection.
  induction indices as [|i rest IH]; [reflexivity|].
  assert (Hi : Py.all_chr selection_chr (Py.str_N i) = true).
  { destruct (str_N_spec i) as (Hnum & _).
    unfold is_numeral in Hnum. apply andb_true_iff in Hnum as [_ Hall].
    revert Hall. apply all_chr_impl. intros c Hc.
    unfold selection_chr. now rewrite Hc. }
  cbn [map String.concat]. destruct (map Py.str_N rest) eqn:E.
  - exact Hi.
  - rewrite all_chr_app, Hi. cbn [andb].
    change (Py.all_chr selection_chr
              (String "," (String.concat "," (s :: l))) = true).
    cbn [Py.all_chr]. exact IH.
Qed.

Lemma written_selection_normal indices :
  Py.lower (Py.strip (written_selection indices)) = written_selection indices
  /\ (written_selection indices =? "a") = false
  /\ (written_selection indices =? "n") = false.
Proof.
  pose proof (written_selection_chrs indices) as H.
  generalize dependent (written_selection indices). intros s H.
  assert (Hsp : Py.all_chr (fun c => negb (Py.isspace_chr c)) s = true).
  { revert H. apply all_chr_impl. intros c Hc.
    destruct (selection_chr_facts c Hc) as (-> & _). reflexivity. }
  rewrite (strip_id _ Hsp). split; [|split].
  - clear Hsp. induction s as [|c s IH]; [reflexivity|].
    cbn [Py.all_chr] in H. apply andb_true_iff in H as [Hc Hs].
    unfold Py.lower in *. cbn [Py.map_chr].
    destruct (selection_chr_facts c Hc) as (_ & -> & _). now rewrite IH.
  - destruct s as [|c s]; [reflexivity|].
    cbn [Py.all_chr] in H. apply andb_true_iff in H as [Hc _].
    destruct (selection_chr_facts c Hc) as (_ & _ & Ha & _).
    cbn [String.eqb]. now rewrite Ha.
  - destruct s as [|c s]; [reflexivity|].
    cbn [Py.all_chr] in H. apply andb_true_iff in H as [Hc _].
    destruct (selection_chr_facts c Hc) as (_ & _ & _ & Hn).
    cbn [String.eqb]. now rewrite Hn.
Qed.

Lemma below_ten_below_limit i :
  (i < 10)%N -> (i < 10 ^ Py.max_str_digits)%N.
Proof.
  intros H. apply N.lt_le_trans with (10 ^ 1)%N; [exact H|].
  apply N.pow_le_mono_r; [discriminate|]. unfold Py.max_str_digits. lia.
Qed.

(** X14. When the operator types decimal numbers below 10^4300 separated by
    commas, the console can show the texts that name a package and no
    command holds a NUL, the selection block upgrades exactly the packages
    at those of the numbers that lie in [1, length], one command each, in
    the order typed and as often as typed; when none does, it runs
    nothing. *)
Theorem written_selection_upgrades :
  forall (w : world) (d : dispatcher) (l : list string) (indices : list N)
         (rest : list string),
    shows_upgrades w d l ->
    commands_accepted d l ->
    Forall (fun i => (i < 10 ^ Py.max_str_digits)%N) indices ->
    systems (snd (run (upgrade_selection w d l)
                    (written_selection indices :: rest)))
    = map (one_command d) (records_at l (map Z.of_N indices)).
Proof.
  intros w d l indices rest Hshow Hcmd H.
  destruct (written_selection_normal indices) as (Hnorm & Ha & Hn).
  pose proof (selected_pkgs_plain l _ (written_plain _ H)) as Hsel.
  rewrite (upgrade_selection_run w d l _ rest Hshow Hcmd).
  - cbn [snd]. rewrite Hnorm, Ha, Hn, Hsel.
    unfold named_records. rewrite written_indices.
    destruct (records_at l (map Z.of_N indices)) as [|pkg pkgs];
      [reflexivity|].
    cbn [systems]. rewrite systems_app, systems_upgrade_events.
    cbn [systems]. now rewrite app_nil_r.
  - intros e He. rewrite Hnorm, Hsel in He. discriminate.
Qed.

(** Typing 2, 7, 2 and 0 for a list of three packages. *)
Lemma written_selection_upgrades_witness :
  systems (snd (run (upgrade_selection (echo_world EmptyString)
                       (win_dispatcher choco) ["git"; "node"; "wget"])
                  [written_selection [2; 7; 2; 0]%N]))
  = ["choco upgrade node -y > NUL 2>&1"; "choco upgrade node -y > NUL 2>&1"].
Proof.
  apply (written_selection_upgrades (echo_world EmptyString)
           (win_dispatcher choco) ["git"; "node"; "wget"] [2; 7; 2; 0]%N []).
  - intros pkg _. split; reflexivity.
  - split; [reflexivity|]. intros pkg Hin. simpl in Hin.
    repeat (destruct Hin as [<-|Hin]; [reflexivity|]). contradiction.
  - repeat (apply Forall_cons; [apply below_ten_below_limit; reflexivity|]).
    apply Forall_nil.
Defined.

Lemma numbered_nth l : forall start k pkg,
  nth_error l k = Some pkg ->
  nth_error (numbered start l) k = Some [Py.str_nat (start + k); pkg].
Proof.
  induction l as [|p rest IH]; intros start [|k] pkg H; try discriminate.
  - inversion H; subst. cbn. now rewrite Nat.add_0_r.
  - cbn [numbered nth_error] in *. rewrite (IH (S start) k pkg H).
    do 3 f_equal. lia.
Qed.

(** X15. The number shown beside a package in the preview and in the full
    table is the number that selects it: typing the number of row k,
    alone, selects exactly the package of row k. *)
Theorem preview_number_selects_its_package :
  forall (l : list string) (k : nat) (pkg : string),
    nth_error l k = Some pkg ->
    (N.of_nat (S k) < 10 ^ Py.max_str_digits)%N ->
    nth_error (numbered 1 l) k = Some [Py.str_nat (S k); pkg]
    /\ selected_pkgs l (Py.str_nat (S k)) = Ok [pkg]
    /\ (k < 5 ->
        nth_error (numbered 1 (slice_to 5 l)) k
        = Some [Py.str_nat (S k); pkg])%nat.
Proof.
  intros l k pkg Hk Hbound.
  split; [exact (numbered_nth l 1 k pkg Hk)|]. split.
  - change (Py.str_nat (S k)) with (written_selection [N.of_nat (S k)]).
    assert (Hall : Forall (fun i => (i < 10 ^ Py.max_str_digits)%N)
                     [N.of_nat (S k)])
      by (apply Forall_cons; [exact Hbound | apply Forall_nil]).
    rewrite (selected_pkgs_plain _ _ (written_plain _ Hall)).
    unfold named_records. rewrite written_indices.
    unfold records_at. cbn [map flat_map].
    replace (1 <=? Z.of_N (N.of_nat (S k)))%Z with true
      by (symmetry; apply Z.leb_le; lia).
    replace (Z.to_nat (Z.of_N (N.of_nat (S k)) - 1)) with k by lia.
    now rewrite Hk.
  - intros H5. apply (numbered_nth (slice_to 5 l) 1 k pkg).
    unfold slice_to. rewrite nth_error_firstn.
    destruct (k <? 5)%nat eqn:E; [exact Hk|].
    apply Nat.ltb_ge in E. lia.
Qed.

(** The third of eight records. *)
Lemma preview_number_selects_its_package_witness :
  nth_error (numbered 1 eight_records) 2 = Some ["3"; "r3"]
  /\ selected_pkgs eight_records "3" = Ok ["r3"]
  /\ (2 < 5 ->
      nth_error (numbered 1 (slice_to 5 eight_records)) 2
      = Some ["3"; "r3"])%nat.
Proof.
  apply (preview_number_selects_its_package eight_records 2 "r3" eq_refl).
  apply below_ten_below_limit. reflexivity.
Defined.

(** * Quiet computations *)

(** All the steps, through [run_command] as well. *)
Ltac adds_auto :=
  repeat first
    [ adds_step
    | apply run_command_adds; [reflexivity | intros; reflexivity] ].

Lemma get_battery_health_quiet plat w : adds quiet (get_battery_health plat w).
Proof. unfold get_battery_health. adds_auto. Qed.

Lemma summary_values_quiet plat w : adds quiet (summary_values plat w).
Proof.
  unfold summary_values.
  repeat first [ apply get_battery_health_quiet | adds_auto ].
Qed.

Lemma system_summary_quiet plat w : adds quiet (system_summary plat w).
Proof.
  unfold system_summary.
  repeat first [ apply summary_values_quiet | adds_auto ].
Qed.

(** * The system summary *)





(** X17. On MacLike a design capacity of 0 costs the whole summary: with a
    maximum reading that is a number and a design line whose digits have
    the value 0, the five pipelines up to the battery probe are run and
    the failure notice is shown instead of the table. *)
Theorem system_summary_lost_on_zero_design :
  forall (max_reading line : string) (a : Z) (digits : string)
         (replies : list string),
    Py.strip max_reading = max_reading ->
    Py.truthy max_reading = true ->
    Py.int max_reading = Ok a ->
    Py.search_digits_after design_capacity_pattern (Py.strip line)
    = Some digits ->
    Py.int digits = Ok 0%Z ->
    run (system_summary MacLike (battery_world max_reading line)) replies
    = (Ok tt,
       [Status "[bold blue]Loading System Summary[/bold blue]";
        Spawn "uptime | awk -F', ' '{print $1}'";
        Spawn "df -h / | awk 'NR==2 {print $4}'";
        Spawn free_ram_command;
        Spawn max_capacity_command;
        Spawn design_capacity_command;
        summary_failure ZeroDivisionError]).
Proof.
  intros max_reading line a digits replies Hstrip Hne Ha Hfound Hzero.
  unfold run, system_summary, try_except.
  unfold bind at 1, emit. cbn [answers trace app]. unfold bind at 1.
  unfold summary_values. cbn [IS_MAC].
  unfold bind at 1, run_command at 1, try_except, bind at 1, spawn, ret.
  cbn [trace answers].
  match goal with |- context [subprocess_run ?w ?t ?c] =>
    change (subprocess_run w t c) with (Completed 0 line) end.
  cbv iota beta.
  unfold bind at 1, run_command at 1, try_except, bind at 1, spawn, ret.
  cbn [trace answers].
  match goal with |- context [subprocess_run ?w ?t ?c] =>
    change (subprocess_run w t c) with (Completed 0 line) end.
  cbv iota beta.
  unfold bind at 1, run_command at 1, try_except, bind at 1, spawn, ret.
  cbn [trace answers].
  match goal with |- context [subprocess_run ?w ?t ?c] =>
    change (subprocess_run w t c) with (Completed 0 line) end.
  cbv iota beta.
  unfold bind at 1, get_battery_health. cbn [IS_MAC].
  unfold bind at 1, run_command at 1, try_except, bind at 1, spawn, ret.
  cbn [trace answers].
  match goal with |- context [subprocess_run ?w ?t ?c] =>
    change (subprocess_run w t c) with (Completed 0 max_reading) end.
  cbv iota beta.
  unfold bind at 1, run_command at 1, try_except, bind at 1, spawn, ret.
  cbn [trace answers].
  match goal with |- context [subprocess_run ?w ?t ?c] =>
    change (subprocess_run w t c) with (Completed 0 line) end.
  cbv iota beta.
  unfold bind at 1, lift, re_search. rewrite Hfound, Hstrip.
  destruct max_reading as [|c s]; [discriminate|].
  unfold bind at 1. rewrite Ha. unfold bind at 1. rewrite Hzero.
  reflexivity.
Qed.

(** The readings 4500 and 0. *)
Lemma system_summary_lost_on_zero_design_witness :
  run (system_summary MacLike (battery_world "4500" (design_line "0"))) []
  = (Ok tt,
     [Status "[bold blue]Loading System Summary[/bold blue]";
      Spawn "uptime | awk -F', ' '{print $1}'";
      Spawn "df -h / | awk 'NR==2 {print $4}'";
      Spawn free_ram_command;
      Spawn max_capacity_command;
      Spawn design_capacity_command;
      summary_failure ZeroDivisionError]).
Proof.
  exact (system_summary_lost_on_zero_design "4500" (design_line "0") 4500
           "0" [] eq_refl eq_refl eq_refl eq_refl eq_refl).
Defined.

(** * What [check_system_updates] runs *)

Lemma prefix_app p s : String.prefix p (p ++ s) = true.
Proof.
  induction p as [|c p IH]; [now destruct s|].
  cbn [append String.prefix].
  destruct (ascii_dec c c); [exact IH | congruence].
Qed.

Lemma dispatcher_commands plat d :
  dispatcher_of plat d ->
  upgrade_command plat (all_command d) = true
  /\ forall pkg, upgrade_command plat (one_command d pkg) = true.
Proof.
  destruct plat; cbn [dispatcher_of]; [intros -> |intros [mgr ->]|intros []].
  - split; [reflexivity|]. intros pkg.
    exact (prefix_app "brew upgrade " _).
  - destruct mgr; (split; [reflexivity|]); intros pkg;
      unfold upgrade_command; cbn [IS_MAC IS_WIN one_command win_dispatcher].
    + now rewrite (prefix_app "choco upgrade " _).
    + replace ("winget upgrade --id " ++ pkg ++ " --silent > NUL 2>&1")
        with ("winget upgrade " ++ ("--id " ++ pkg ++ " --silent > NUL 2>&1"))
        by reflexivity.
      rewrite (prefix_app "winget upgrade " _). apply orb_true_r.
Qed.

Lemma upgrade_selection_adds plat w d l :
  dispatcher_of plat d ->
  adds (system_only (upgrade_command plat)) (upgrade_selection w d l).
Proof.
  intros Hd. destruct (dispatcher_commands plat d Hd) as [Hall Hone].
  unfold upgrade_selection, print.
  apply adds_bind; [apply adds_input; reflexivity | intros answer].
  cbv zeta.
  destruct (Py.lower (Py.strip answer) =? "a").
  { apply adds_bind; [apply adds_emit; reflexivity | intros _].
    apply adds_bind; [apply adds_system, Hall | intros _].
    apply adds_emit. reflexivity. }
  destruct (Py.lower (Py.strip answer) =? "n");
    [apply adds_emit; reflexivity|].
  apply adds_try_except; [|intros e; apply adds_render; reflexivity].
  apply adds_bind; [apply adds_lift | intros selected].
  destruct (nonempty selected); [|apply adds_emit; reflexivity].
  apply adds_bind; [|intros _; apply adds_emit; reflexivity].
  apply adds_for_each. intros pkg _. unfold upgrade_one, print_data.
  apply adds_bind; [apply adds_render; reflexivity | intros _].
  apply adds_bind; [apply adds_system, Hone | intros _].
  apply adds_render. reflexivity.
Qed.

Lemma preview_adds p w short_title full_title l :
  (forall t, p (PrintTable t) = true) ->
  (forall text, p (Print text) = true) ->
  (forall text, p (Prompt text) = true) ->
  adds p (preview w short_title full_title l).
Proof.
  intros Ht Hp Hq. unfold preview, print.
  apply adds_bind; [apply adds_render, Ht | intros _].
  apply adds_bind; [apply adds_emit, Hp | intros _].
  destruct (5 <? List.length l)%nat; [|apply adds_ret].
  apply adds_bind; [apply adds_input, Hq | intros answer].
  apply adds_when, adds_render, Ht.
Qed.

Lemma gather_updates_adds p plat w :
  (forall text, p (Status text) = true) ->
  (forall command, p (Spawn command) = true) ->
  (forall text e, p (LogError text e) = true) ->
  adds p (gather_updates plat w).
Proof.
  intros Hst Hs Hl. unfold gather_updates.
  repeat first
    [ apply adds_emit, Hst
    | apply run_command_adds; [apply Hs | intros; apply Hl]
    | adds_step ].
Qed.

Lemma check_system_updates_adds plat w :
  adds (system_only (upgrade_command plat)) (check_system_updates plat w).
Proof.
  unfold check_system_updates. apply adds_try_except.
  - apply adds_bind; [apply gather_updates_adds; reflexivity | intros p].
    destruct plat; cbn [IS_MAC IS_WIN]; [| |apply adds_ret].
    + unfold mac_updates, print, print_data.
      apply adds_bind; [repeat adds_step | intros _].
      destruct (negb (truthy_opt (brew_exists p)));
        [apply adds_emit; reflexivity|].
      destruct (nonempty (outdated_list p)); [|repeat adds_step].
      apply adds_bind; [apply preview_adds; reflexivity | intros _].
      now apply upgrade_selection_adds.
    + unfold win_updates, print.
      apply adds_bind; [|intros _; apply adds_emit; reflexivity].
      destruct (negb _); [apply adds_emit; reflexivity|].
      destruct (pkg_mgr p) as [mgr|]; [|apply adds_emit; reflexivity].
      destruct (nonempty (outdated_list p)); [|apply adds_emit; reflexivity].
      apply adds_try_except; [|intros e; apply adds_render; reflexivity].
      apply adds_bind; [apply preview_adds; reflexivity | intros _].
      apply upgrade_selection_adds. now exists mgr.
  - intros e. repeat adds_step.
Qed.

(** X18. Whatever the probes print and the operator answers,
    [check_system_updates] gives [os.system] nothing but upgrade commands
    of the package manager of the platform: [brew upgrade] on MacLike,
    [choco upgrade] or [winget upgrade] on WindowsLike. *)
Theorem check_system_updates_only_upgrades :
  forall (plat : platform) (w : world) (replies : list string),
    forallb (upgrade_command plat)
      (systems (snd (run (check_system_updates plat w) replies)))
    = true.
Proof.
  intros plat w replies. apply systems_only.
  apply adds_run, check_system_updates_adds.
Qed.

(** * An unsupported platform *)

Lemma adds_ext {A} p (m m' : M A) :
  (forall st, m st = m' st) -> adds p m' -> adds p m.
Proof. intros H Hm st. rewrite H. apply Hm. Qed.

Lemma kill_dialogue_no_process p plat w :
  p (Print (nl ++ "[bold yellow]Select a process to kill:[/bold yellow]")) = true ->
  p (Print "1. Kill a CPU-intensive process") = true ->
  p (Print "2. Kill a Memory-intensive process") = true ->
  p (Print "3. Cancel") = true ->
  p (Prompt "[cyan]Enter choice (1/2/3): [/cyan]") = true ->
  p (Print "[green]No process killed.[/green]") = true ->
  adds p (kill_dialogue plat w [] []).
Proof.
  intros H1 H2 H3 H4 H5 H6. unfold kill_dialogue, print.
  repeat (apply adds_bind; [now apply adds_emit | intros _]).
  apply adds_bind; [now apply adds_input | intros action].
  cbn [nonempty]. rewrite !andb_false_r. now apply adds_emit.
Qed.

Lemma monitor_usage_other w : adds no_command (monitor_usage Other w).
Proof.
  apply (adds_ext _ _
           (bind (emit (Status "[bold yellow]Monitoring Resource Usage...[/bold yellow]"))
              (fun _ =>
                 try_except
                   (bind (render w
                            (PrintNested "System Resource Usage"
                               [mkTable "Top CPU Consumers" [];
                                mkTable "Top Memory Consumers" []]))
                      (fun _ => kill_dialogue Other w [] []))
                   (fun e =>
                      render w
                        (PrintExn "[red] Failed to check the system usage : "
                           e EmptyString))))).
  - intros st. reflexivity.
  - apply adds_bind; [apply adds_emit; reflexivity | intros _].
    apply adds_try_except.
    + apply adds_bind; [apply adds_render; reflexivity | intros _].
      apply kill_dialogue_no_process; reflexivity.
    + intros e. apply adds_render. reflexivity.
Qed.

Lemma check_system_updates_other w :
  adds no_command (check_system_updates Other w).
Proof.
  unfold check_system_updates, gather_updates. cbn [IS_MAC IS_WIN].
  repeat adds_step.
Qed.

Lemma clear_cache_other w : adds no_command (clear_cache Other w).
Proof.
  unfold clear_cache, cache_paths. cbn [IS_MAC IS_WIN fold_each].
  repeat adds_step.
Qed.

Lemma system_summary_other w : adds no_command (system_summary Other w).
Proof.
  unfold system_summary, summary_values. cbn [IS_MAC IS_WIN].
  repeat adds_step.
Qed.

Lemma menu_turn_other w : adds no_command (menu_turn Other w).
Proof.
  unfold menu_turn, display_menu, print.
  repeat first
    [ apply system_summary_other | apply clear_cache_other
    | apply monitor_usage_other | apply check_system_updates_other
    | adds_step ].
Qed.

Lemma main_loop_other w fuel : adds no_command (main_loop Other w fuel).
Proof.
  induction fuel as [|fuel IH]; cbn [main_loop]; [apply adds_ret|].
  apply adds_bind; [apply menu_turn_other|].
  intros [|]; [apply adds_ret | exact IH].
Qed.

Lemma filter_no_command evs :
  forallb no_command evs = true -> filter is_command evs = [].
Proof.
  induction evs as [|e evs IH]; [reflexivity|].
  cbn [forallb filter]. intros H. apply andb_true_iff in H as [He Hevs].
  unfold no_command in He. apply negb_true_iff in He. rewrite He. auto.
Qed.

(** X19. On a platform that is neither MacLike nor WindowsLike the program
    gives no command of any kind to the operating system, whatever the
    operator chooses and for as long as it runs. *)
Theorem other_platform_runs_no_command :
  forall (w : world) (fuel : nat) (replies : list string),
    filter is_command (snd (run (main_loop Other w fuel) replies)) = []
    /\ systems (snd (run (main_loop Other w fuel) replies)) = [].
Proof.
  intros w fuel replies.
  pose proof (adds_run _ _ replies (main_loop_other w fuel)) as H.
  split; [now apply filter_no_command|].
  apply systems_no_system. revert H.
  generalize (snd (run (main_loop Other w fuel) replies)). intros tr.
  rewrite !forallb_forall. intros H e He. specialize (H e He).
  now destruct e.
Qed.

(** * The main loop *)

Lemma adds_any {A} p (m : M A) : adds p m -> adds any_event m.
Proof. apply adds_weaken. reflexivity. Qed.

Lemma monitor_usage_any plat w : adds any_event (monitor_usage plat w).
Proof.
  unfold monitor_usage, usage_stats, kill_dialogue, kill_from, kill_process,
    print, print_data.
  repeat first
    [ apply run_command_adds; [reflexivity | intros; reflexivity]
    | adds_step ].
Qed.

Lemma menu_turn_any plat w : adds any_event (menu_turn plat w).
Proof.
  unfold menu_turn, display_menu, print.
  repeat first
    [ apply (adds_any _ _ (system_summary_quiet plat w))
    | apply (adds_any _ _ (clear_cache_adds plat w))
    | apply monitor_usage_any
    | apply (adds_any _ _ (check_system_updates_adds plat w))
    | adds_step ].
Qed.

(** A turn leaves the loop only on the answer [5], after the notice. *)
Lemma menu_turn_leaves plat w st st' :
  menu_turn plat w st = (Ok true, st') ->
  exists rest,
    answers st = "5" :: rest
    /\ st' = mkState rest (trace st ++ [menu_shown; menu_prompt; exit_notice]).
Proof.
  unfold menu_turn, try_except, display_menu.
  unfold bind at 1, emit. cbn [answers trace].
  unfold bind at 1, input. cbn [answers trace].
  assert (Hno : forall (m : M bool) s,
             (forall r s', m s = (r, s') -> r <> Ok true) ->
             match m s with
             | (Ok a, s') => (Ok a, s')
             | (Raise e, s') =>
                 bind (render w (PrintExn "[red]An error occurred: " e "[/red]"))
                   (fun _ => ret false) s'
             end = (Ok true, st') -> False).
  { intros m s Hm. pose proof (Hm (fst (m s)) (snd (m s))) as Hm'.
    destruct (m s) as [[a|e] s'].
    - cbn [fst snd] in Hm'. intros H. inversion H; subst.
      exact (Hm' eq_refl eq_refl).
    - unfold bind, render, emit, ret.
      destruct (console_raises w _); discriminate. }
  assert (Hfalse : forall (m : M unit) s r s',
             bind m (fun _ => ret false) s = (r, s') -> r <> Ok true).
  { intros m s r s'. unfold bind, ret.
    destruct (m s) as [[[]|e] s'']; intros H; inversion H; discriminate. }
  destruct (answers st) as [|choice rest].
  - unfold bind, render, emit, ret.
    destruct (console_raises w _); discriminate.
  - destruct (choice =? "1") eqn:E1;
      [intros H; exfalso; revert H; apply Hno; apply Hfalse|].
    destruct (choice =? "2") eqn:E2;
      [intros H; exfalso; revert H; apply Hno; apply Hfalse|].
    destruct (choice =? "3") eqn:E3;
      [intros H; exfalso; revert H; apply Hno; apply Hfalse|].
    destruct (choice =? "4") eqn:E4;
      [intros H; exfalso; revert H; apply Hno; apply Hfalse|].
    destruct (choice =? "5") eqn:E5;
      [|intros H; exfalso; revert H; apply Hno; apply Hfalse].
    apply String.eqb_eq in E5. subst choice.
    unfold bind, print, emit, ret. cbn [answers trace].
    intros H. inversion H. exists rest. split; [reflexivity|].
    now rewrite <- !app_assoc.
Qed.

Lemma main_loop_leaves plat w fuel : forall st st',
  main_loop plat w fuel st = (Ok true, st') ->
  In "5" (answers st)
  /\ exists evs, trace st' = (evs ++ [exit_notice])%list.
Proof.
  induction fuel as [|fuel IH]; intros st st'; cbn [main_loop].
  - unfold ret. discriminate.
  - unfold bind at 1.
    destruct (menu_turn_any plat w st) as (evs & used & _ & _ & Hans).
    destruct (menu_turn plat w st) as [[[|]|e] st1] eqn:E; cbn [snd] in Hans.
    + unfold ret. intros H. inversion H; subst st'.
      destruct (menu_turn_leaves _ _ _ _ E) as (rest & Ha & ->).
      split; [rewrite Ha; now left|].
      exists (trace st ++ [menu_shown; menu_prompt])%list.
      cbn [trace]. now rewrite <- app_assoc.
    + intros H. destruct (IH _ _ H) as [Hin Htr]. split; [|exact Htr].
      rewrite Hans. apply in_or_app. now right.
    + discriminate.
Qed.

(** X20. The loop is left (no interrupt from the keyboard being
    modelled) only when the operator has answered [5] to some question,
    and the last thing shown is then the exit notice. *)
Theorem main_loop_left_by_exit_only :
  forall (plat : platform) (w : world) (fuel : nat) (replies : list string),
    fst (run (main_loop plat w fuel) replies) = Ok true ->
    In "5" replies
    /\ exists evs,
         snd (run (main_loop plat w fuel) replies) = (evs ++ [exit_notice])%list.
Proof.
  intros plat w fuel replies. unfold run.
  destruct (main_loop plat w fuel (mkState replies [])) as [r st'] eqn:E.
  cbn [fst snd]. intros ->.
  exact (main_loop_leaves _ _ _ _ _ E).
Qed.

Lemma menu_turn_eof plat w st :
  answers st = [] ->
  console_raises w (PrintExn "[red]An error occurred: " EOFError "[/red]")
  = None ->
  menu_turn plat w st = (Ok false, mkState [] (trace st ++ eof_turn)).
Proof.
  intros Ha Hc. unfold menu_turn, try_except, display_menu.
  unfold bind at 1, emit. cbn [answers trace].
  unfold bind at 1, input. cbn [answers trace]. rewrite Ha.
  unfold bind, render, emit, ret. rewrite Hc. cbn [answers trace].
  now rewrite <- !app_assoc.
Qed.

(** An invalid choice, then the exit. *)
Lemma main_loop_left_by_exit_only_witness :
  In "5" ["9"; "5"]
  /\ exists evs,
       snd (run (main_loop MacLike (echo_world EmptyString) 3) ["9"; "5"])
       = (evs ++ [exit_notice])%list.
Proof.
  exact (main_loop_left_by_exit_only MacLike (echo_world EmptyString) 3
           ["9"; "5"] eq_refl).
Defined.

(** X21. At the end of the input the loop is never left: every turn shows the
    menu, asks, and reports the [EOFError] of [console.input]. *)
Theorem main_loop_spins_at_end_of_input :
  forall (plat : platform) (w : world) (fuel : nat),
    console_raises w (PrintExn "[red]An error occurred: " EOFError "[/red]")
    = None ->
    run (main_loop plat w fuel) []
    = (Ok false, List.concat (repeat eof_turn fuel)).
Proof.
  intros plat w fuel Hc. unfold run.
  assert (H : forall tr,
             main_loop plat w fuel (mkState [] tr)
             = (Ok false, mkState [] (tr ++ List.concat (repeat eof_turn fuel)))).
  { induction fuel as [|fuel IH]; intros tr; cbn [main_loop repeat List.concat].
    - unfold ret. now rewrite app_nil_r.
    - unfold bind at 1.
      rewrite (menu_turn_eof plat w (mkState [] tr) eq_refl Hc).
      cbn [trace]. rewrite IH. now rewrite <- app_assoc. }
  now rewrite H.
Qed.

(** Two turns without input. *)
Lemma main_loop_spins_at_end_of_input_witness :
  run (main_loop WindowsLike (echo_world EmptyString) 2) []
  = (Ok false, (eof_turn ++ eof_turn)%list).
Proof.
  exact (main_loop_spins_at_end_of_input WindowsLike (echo_world EmptyString)
           2 eq_refl).
Defined.
